(** * Lobby and chat-room system: a shallow embedding of the chat app

    The development follows [chat/models.py] (join admission),
    [chat/consumers.py] (the WebSocket consumer: connect, disconnect,
    chat messages, moderation events, rate limit, presence) and
    [chat/views.py] (the REST actions of [LobbyViewSet]).

    Conventions.
    - Primary keys and timestamps are integers ([Z]); a timestamp counts
      microseconds, the resolution of a Python [datetime].
    - A Python [str] is a sequence of code points ([list N]).
    - A table with a primary key or a [unique_together] constraint is a
      finite map from that key to the rest of the row.
    - The Django cache is a finite map from keys to values with an expiry
      time; the two key families of the consumer
      ([rate_limit:user:U:lobby:L] and [lobby_presence:L]) are kept apart.
    - A coroutine of the consumer is a function from the world (database,
      cache, clock) to its result, the new world and the list of effects it
      has on the socket and on the channel layer, in program order. *)

From Stdlib Require Import ZArith Ascii String.
From stdpp Require Import gmap strings list fin_maps.

Local Open Scope Z_scope.

(** ** Python strings *)

Abbreviation pystr := (list N).

(** A string literal of the source, as a sequence of code points. *)
Definition py (s : string) : pystr :=
  N_of_ascii <$> list_ascii_of_string s.

(** [str.isspace] on one code point: the white space of the Unicode
    database, which is what [str.strip()] removes. *)
Definition is_space (c : N) : bool :=
  ((9 <=? c) && (c <=? 13) || (28 <=? c) && (c <=? 32) ||
   (c =? 133) || (c =? 160) || (c =? 5760) ||
   (8192 <=? c) && (c <=? 8202) || (c =? 8232) || (c =? 8233) ||
   (c =? 8239) || (c =? 8287) || (c =? 12288))%N.

Fixpoint lstrip (s : pystr) : pystr :=
  match s with
  | c :: s' => if is_space c then lstrip s' else s
  | [] => []
  end.

Definition rstrip (s : pystr) : pystr := reverse (lstrip (reverse s)).

(** [s.strip()] *)
Definition strip (s : pystr) : pystr := rstrip (lstrip s).

(** ** JSON values: the dictionaries sent to clients and to groups *)

#[warnings="-register-all"]
Inductive json :=
  | JNull
  | JBool (b : bool)
  | JInt (n : Z)
  | JStr (s : pystr)
  | JTime (t : Z)                       (* [datetime.isoformat()] of [t] *)
  | JList (l : list json)
  | JDict (d : list (string * json)).

(** [d.get(k)] on a dictionary given by its items. *)
Fixpoint dict_get (d : list (string * json)) (k : string) : option json :=
  match d with
  | [] => None
  | (k', v) :: d' => if String.eqb k k' then Some v else dict_get d' k
  end.

(** ** models.py *)

Inductive Status := open | in_game | closed.
Inductive Role := member | moderator | owner.

Global Instance Status_eq_dec : EqDecision Status.
Proof. solve_decision. Defined.
Global Instance Role_eq_dec : EqDecision Role.
Proof. solve_decision. Defined.

(** [User]: the fields the chat uses. *)
Record User := mkUser {
  user_id : Z;
  username : pystr;
  is_premium : bool;
}.

(** [scope['user']]: a [User] row or Django's [AnonymousUser]. *)
Inductive ScopeUser :=
  | AnonymousUser
  | Authenticated (u : User).

Definition is_authenticated (su : ScopeUser) : bool :=
  match su with AnonymousUser => false | Authenticated _ => true end.

(** [Lobby]: a row of the lobby table, as the Python object that holds it. *)
Record Lobby := mkLobby {
  lobby_pk : Z;
  lobby_name : pystr;
  lobby_owner : Z;
  is_public : bool;
  status : Status;
  max_participants : Z;
}.

(** [LobbyBan], without its key [(lobby, user)]. *)
Record LobbyBan := mkLobbyBan {
  ban_reason : pystr;
  banned_by : Z;
  ban_created_at : Z;
}.

Record Message := mkMessage {
  message_id : Z;
  message_lobby : Z;
  message_sender : Z;
  content : pystr;
  message_created_at : Z;
  is_deleted : bool;
}.

Inductive EventType :=
  | ev_kick | ev_ban | ev_unban | ev_transfer
  | ev_mod_add | ev_mod_remove | ev_status_change.

Global Instance EventType_eq_dec : EqDecision EventType.
Proof. solve_decision. Defined.

Record LobbyEvent := mkLobbyEvent {
  event_lobby : Z;
  event_type : EventType;
  event_actor : Z;
  event_target : option Z;
  description : pystr;
  metadata : list (string * json);
  event_created_at : Z;
}.

(** The columns of a [User] row and of a [Lobby] row, without the primary
    key. *)
Record UserRow := mkUserRow {
  row_username : pystr;
  row_is_premium : bool;
}.

Record LobbyRow := mkLobbyRow {
  row_name : pystr;
  row_owner : Z;
  row_is_public : bool;
  row_status : Status;
  row_max_participants : Z;
}.

(** The database.  [memberships] and [bans] are keyed by [(lobby, user)],
    their [unique_together] pair; [users] and [lobbies] by primary key.
    [accepts_messages] stands for whatever makes [Message.objects.create]
    raise (the consumer catches every exception of it). *)
Record DB := mkDB {
  users : gmap Z UserRow;
  lobbies : gmap Z LobbyRow;
  memberships : gmap (Z * Z) Role;
  bans : gmap (Z * Z) LobbyBan;
  messages : list Message;
  events : list LobbyEvent;
  accepts_messages : bool;
}.

(** [User.objects.get(id=user_id)]; [None] is [User.DoesNotExist]. *)
Definition get_user_row (db : DB) (uid : Z) : option User :=
  (λ r, mkUser uid (row_username r) (row_is_premium r)) <$> users db !! uid.

(** [Lobby.objects.get(id=lobby_id)]; [None] is [Lobby.DoesNotExist]. *)
Definition get_lobby_row (db : DB) (lid : Z) : option Lobby :=
  (λ r, mkLobby lid (row_name r) (row_owner r) (row_is_public r)
          (row_status r) (row_max_participants r)) <$> lobbies db !! lid.

(** [lobby.save()] *)
Definition save_lobby (db : DB) (l : Lobby) : DB :=
  mkDB (users db)
       (<[lobby_pk l := mkLobbyRow (lobby_name l) (lobby_owner l) (is_public l)
                          (status l) (max_participants l)]> (lobbies db))
       (memberships db) (bans db) (messages db) (events db) (accepts_messages db).

Definition set_memberships (m : gmap (Z * Z) Role) (db : DB) : DB :=
  mkDB (users db) (lobbies db) m (bans db) (messages db) (events db)
       (accepts_messages db).

Definition set_bans (b : gmap (Z * Z) LobbyBan) (db : DB) : DB :=
  mkDB (users db) (lobbies db) (memberships db) b (messages db) (events db)
       (accepts_messages db).

(** [LobbyEvent.objects.create(...)] *)
Definition create_event (e : LobbyEvent) (db : DB) : DB :=
  mkDB (users db) (lobbies db) (memberships db) (bans db) (messages db)
       (events db ++ [e]) (accepts_messages db).

(** [lobby.memberships.filter(user=user).exists()] *)
Definition membership_exists (db : DB) (lid uid : Z) : bool :=
  bool_decide (is_Some (memberships db !! (lid, uid))).

(** [lobby.bans.filter(user=user).exists()] *)
Definition ban_exists (db : DB) (lid uid : Z) : bool :=
  bool_decide (is_Some (bans db !! (lid, uid))).

(** [Lobby.current_participants_count]: [self.memberships.count()] *)
Definition current_participants_count (db : DB) (l : Lobby) : Z :=
  Z.of_nat (size (filter (λ kv, kv.1.1 = lobby_pk l) (memberships db))).

(** [Lobby.is_full] *)
Definition is_full (db : DB) (l : Lobby) : bool :=
  max_participants l <=? current_participants_count db l.

(** [Lobby.can_join(user)] *)
Definition can_join (db : DB) (l : Lobby) (u : User) : bool * pystr :=
  if negb (bool_decide (status l = open)) then
    (false, py "Lobby is not open")
  else if is_full db l then
    (false, py "Lobby is full")
  else if ban_exists db (lobby_pk l) (user_id u) then
    (false, py "You are banned from this lobby")
  else if membership_exists db (lobby_pk l) (user_id u) then
    (false, py "Already in lobby")
  else
    (true, py "Can join").

(** ** The cache ([django.core.cache]) *)

(** A cached value and the time at which it expires. *)
Record Cached (A : Type) := mkCached {
  cached_value : A;
  expires_at : Z;
}.
Arguments mkCached {A} _ _.
Arguments cached_value {A} _.
Arguments expires_at {A} _.

Definition seconds (n : Z) : Z := n * 1000000.

Section cache.
Context `{Countable K} {A : Type}.

(** [cache.get(key, default)]: an entry is gone once its expiry time is
    reached. *)
Definition cache_get (m : gmap K (Cached A)) (now : Z) (key : K) (default : A) : A :=
  match m !! key with
  | Some e => if now <? expires_at e then cached_value e else default
  | None => default
  end.

(** [cache.set(key, value, timeout=timeout)], [timeout] in seconds. *)
Definition cache_set (m : gmap K (Cached A)) (now : Z) (key : K) (value : A)
    (timeout : Z) : gmap K (Cached A) :=
  <[key := mkCached value (now + seconds timeout)]> m.

(** [cache.delete(key)] *)
Definition cache_delete (m : gmap K (Cached A)) (key : K) : gmap K (Cached A) :=
  delete key m.

End cache.

(** [rate_limit] holds the keys [rate_limit:user:U:lobby:L], indexed by
    [(U, L)]; [lobby_presence] the keys [lobby_presence:L], indexed by [L]. *)
Record Cache := mkCache {
  rate_limit : gmap (Z * Z) (Cached (list Z));
  lobby_presence : gmap Z (Cached (gset Z));
}.

(** ** The world of a coroutine, its effects, and the coroutine monad *)

Record World := mkWorld {
  db : DB;
  cache : Cache;
  now : Z;                              (* [timezone.now()] *)
}.

Definition set_db (d : DB) (w : World) : World := mkWorld d (cache w) (now w).
Definition set_cache (c : Cache) (w : World) : World := mkWorld (db w) c (now w).

(** The group [lobby_{lobby_id}] of the channel layer. *)
Inductive group_name := lobby_group (lobby_id : Z).

Global Instance group_name_eq_dec : EqDecision group_name.
Proof. solve_decision. Defined.

Inductive effect :=
  | Accept                                        (* [self.accept()] *)
  | Send (text_data : json)                       (* [self.send(text_data=json.dumps(..))] *)
  | Close (code : Z)                              (* [self.close(code=..)] *)
  | GroupAdd (group : group_name) (channel : Z)   (* [channel_layer.group_add] *)
  | GroupDiscard (group : group_name) (channel : Z)
  | GroupSend (group : group_name) (event : list (string * json)).

(** A coroutine returns a value or raises an exception (carrying its
    [str(e)]), changes the world, and has effects in program order. *)
Definition M (A : Type) : Type := World → (A + pystr) * World * list effect.

Global Instance M_ret : MRet M := λ A a w, (inl a, w, []).

Global Instance M_bind : MBind M := λ A B f m w,
  match m w with
  | (inl a, w1, e1) =>
      match f a w1 with
      | (r, w2, e2) => (r, w2, e1 ++ e2)
      end
  | (inr exn, w1, e1) => (inr exn, w1, e1)
  end.

Definition raise {A} (exn : pystr) : M A := λ w, (inr exn, w, []).
Definition emit (e : effect) : M unit := λ w, (inl tt, w, [e]).
Definition ask {A} (f : World → A) : M A := λ w, (inl (f w), w, []).
Definition update (f : World → World) : M unit := λ w, (inl tt, f w, []).

(** [try: body except Exception as e: handler(str(e))] *)
Definition try_except {A} (body : M A) (handler : pystr → M A) : M A := λ w,
  match body w with
  | (inl a, w1, e1) => (inl a, w1, e1)
  | (inr exn, w1, e1) =>
      match handler exn w1 with
      | (r, w2, e2) => (r, w2, e1 ++ e2)
      end
  end.

(** The coroutine returned; it did not raise. *)
Definition returns {A} (r : A + pystr) : bool :=
  match r with inl _ => true | inr _ => false end.

Definition result_of {A} (r : (A + pystr) * World * list effect) : A + pystr := r.1.1.
Definition world_of {A} (r : (A + pystr) * World * list effect) : World := r.1.2.
Definition effects_of {A} (r : (A + pystr) * World * list effect) : list effect := r.2.

(** ** consumers.py: [LobbyConsumer] *)

(** What the consumer reads from [self.scope]: the [lobby_id] of the URL
    route and the user put there by the authentication middleware. *)
Record Scope := mkScope {
  url_lobby_id : Z;
  scope_user : ScopeUser;
}.

(** The attributes of a consumer instance; [None] is Python's [None]. *)
Record LobbyConsumer := mkLobbyConsumer {
  channel_name : Z;
  lobby_id : option Z;
  lobby_group_name : option group_name;
  user : option ScopeUser;
  lobby : option Lobby;
}.

(** [LobbyConsumer.__init__] *)
Definition new_consumer (channel : Z) : LobbyConsumer :=
  mkLobbyConsumer channel None None None None.

Definition attribute_error (obj attr : string) : pystr :=
  py ("'" +:+ obj +:+ "' object has no attribute '" +:+ attr +:+ "'").

(** [self.lobby_id], [self.lobby_group_name] and [self.lobby] inside an
    expression that needs them set. *)
Definition self_lobby_id (self : LobbyConsumer) : M Z :=
  match lobby_id self with
  | Some lid => mret lid
  | None => raise (py "lobby_id is None")
  end.

Definition self_group (self : LobbyConsumer) : M group_name :=
  match lobby_group_name self with
  | Some g => mret g
  | None => raise (py "lobby_group_name is None")
  end.

(** [self.user.id]: [None] for an [AnonymousUser]. *)
Definition self_user_id (self : LobbyConsumer) : M (option Z) :=
  match user self with
  | Some (Authenticated u) => mret (Some (user_id u))
  | Some AnonymousUser => mret None
  | None => raise (attribute_error "NoneType" "id")
  end.

(** [self.user] where the handlers of an accepted socket read its fields;
    the user of an accepted socket is authenticated. *)
Definition self_user (self : LobbyConsumer) : M User :=
  match user self with
  | Some (Authenticated u) => mret u
  | Some AnonymousUser => raise (attribute_error "AnonymousUser" "is_premium")
  | None => raise (attribute_error "NoneType" "id")
  end.

Definition set_rate_limit (m : gmap (Z * Z) (Cached (list Z))) (w : World) : World :=
  set_cache (mkCache m (lobby_presence (cache w))) w.

Definition set_lobby_presence (m : gmap Z (Cached (gset Z))) (w : World) : World :=
  set_cache (mkCache (rate_limit (cache w)) m) w.

(** [send_error] *)
Definition send_error (message : pystr) : M unit :=
  emit (Send (JDict [("type", JStr (py "error")); ("message", JStr message)])).

(** [get_lobby] *)
Definition get_lobby (self : LobbyConsumer) : M (option Lobby) :=
  lid ← self_lobby_id self;
  ask (λ w, get_lobby_row (db w) lid).

(** [can_user_join] *)
Definition can_user_join (self : LobbyConsumer) : M (bool * pystr) :=
  match lobby self with
  | None => mret (false, py "Lobby not found")
  | Some l =>
      u ← self_user self;
      ask (λ w, can_join (db w) l u)
  end.

(** [is_user_member] *)
Definition is_user_member (self : LobbyConsumer) : M bool :=
  u ← self_user self;
  match lobby self with
  | Some l => ask (λ w, membership_exists (db w) (lobby_pk l) (user_id u))
  | None => mret false
  end.

(** [Message.objects.create(lobby=.., sender=.., content=..)] *)
Definition create_message (lid uid : Z) (text : pystr) (t : Z) (d : DB) : Message * DB :=
  let m := mkMessage (Z.of_nat (length (messages d)) + 1) lid uid text t false in
  (m, mkDB (users d) (lobbies d) (memberships d) (bans d) (messages d ++ [m])
           (events d) (accepts_messages d)).

(** [save_message]: [None] when the creation raised. *)
Definition save_message (self : LobbyConsumer) (text : pystr) : M (option Message) :=
  accepted ← ask (λ w, accepts_messages (db w));
  match lobby self, user self with
  | Some l, Some (Authenticated u) =>
      if accepted : bool then
        m ← ask (λ w, (create_message (lobby_pk l) (user_id u) text (now w) (db w)).1);
        update (λ w, set_db (create_message (lobby_pk l) (user_id u) text (now w) (db w)).2 w);;
        mret (Some m)
      else mret None
  | _, _ => mret None
  end.

(** [check_rate_limit] *)
Definition check_rate_limit (self : LobbyConsumer) : M bool :=
  u ← self_user self;
  lid ← self_lobby_id self;
  let cache_key := (user_id u, lid) in
  current_time ← ask now;
  messages ← ask (λ w, cache_get (rate_limit (cache w)) (now w) cache_key []);
  let cutoff_time := current_time - seconds 2 in
  let messages := filter (λ msg_time, cutoff_time < msg_time) messages in
  if bool_decide (3 ≤ length messages)%nat then mret false
  else
    let messages := messages ++ [current_time] in
    update (λ w, set_rate_limit
                   (cache_set (rate_limit (cache w)) (now w) cache_key messages 10) w);;
    mret true.

(** [add_user_presence] *)
Definition add_user_presence (self : LobbyConsumer) : M unit :=
  lid ← self_lobby_id self;
  u ← self_user self;
  current_users ← ask (λ w, cache_get (lobby_presence (cache w)) (now w) lid ∅);
  let current_users := {[user_id u]} ∪ current_users in
  update (λ w, set_lobby_presence
                 (cache_set (lobby_presence (cache w)) (now w) lid current_users 300) w).

(** [set.discard(self.user.id)]; no integer equals [None]. *)
Definition discard (s : gset Z) (x : option Z) : gset Z :=
  match x with
  | Some k => s ∖ {[k]}
  | None => s
  end.

(** [remove_user_presence] *)
Definition remove_user_presence (self : LobbyConsumer) : M unit :=
  lid ← self_lobby_id self;
  uid ← self_user_id self;
  current_users ← ask (λ w, cache_get (lobby_presence (cache w)) (now w) lid ∅);
  let current_users := discard current_users uid in
  if bool_decide (current_users ≠ ∅) then
    update (λ w, set_lobby_presence
                   (cache_set (lobby_presence (cache w)) (now w) lid current_users 300) w)
  else
    update (λ w, set_lobby_presence (cache_delete (lobby_presence (cache w)) lid) w).

(** One dictionary of [User.objects.filter(..).values('id', 'username',
    'is_premium')]. *)
Definition user_values (kv : Z * UserRow) : json :=
  JDict [("id", JInt kv.1); ("username", JStr (row_username kv.2));
         ("is_premium", JBool (row_is_premium kv.2))].

(** [get_online_users] *)
Definition get_online_users (self : LobbyConsumer) : M (list json) :=
  lid ← self_lobby_id self;
  user_ids ← ask (λ w, cache_get (lobby_presence (cache w)) (now w) lid ∅);
  if bool_decide (user_ids = ∅) then mret []
  else
    rows ← ask (λ w, map_to_list (filter (λ kv, kv.1 ∈ user_ids) (users (db w))));
    mret (user_values <$> rows).

Definition presence_join_event (u : User) : list (string * json) :=
  [("type", JStr (py "presence_join")); ("user_id", JInt (user_id u));
   ("username", JStr (username u)); ("is_premium", JBool (is_premium u))].

Definition presence_leave_event (u : User) : list (string * json) :=
  [("type", JStr (py "presence_leave")); ("user_id", JInt (user_id u));
   ("username", JStr (username u))].

(** [connect]; the result is [self] with the attributes it has set. *)
Definition connect (self : LobbyConsumer) (scope : Scope) : M LobbyConsumer :=
  let lid := url_lobby_id scope in
  let group := lobby_group lid in
  let self := mkLobbyConsumer (channel_name self) (Some lid) (Some group)
                (Some (scope_user scope)) (lobby self) in
  match scope_user scope with
  | AnonymousUser => emit (Close 4001);; mret self
  | Authenticated u =>
      l ← get_lobby self;
      let self := mkLobbyConsumer (channel_name self) (Some lid) (Some group)
                    (Some (scope_user scope)) l in
      match l with
      | None => emit (Close 4004);; mret self
      | Some _ =>
          '(can, reason) ← can_user_join self;
          if negb can then
            send_error reason;; emit (Close 4003);; mret self
          else
            emit (GroupAdd group (channel_name self));;
            emit Accept;;
            add_user_presence self;;
            emit (GroupSend group (presence_join_event u));;
            online_users ← get_online_users self;
            emit (Send (JDict [("type", JStr (py "presence_list"));
                               ("users", JList online_users)]));;
            mret self
      end
  end.

(** [disconnect] *)
Definition disconnect (self : LobbyConsumer) (close_code : Z) : M unit :=
  match lobby_group_name self with
  | Some group =>
      remove_user_presence self;;
      match user self with
      | Some (Authenticated u) => emit (GroupSend group (presence_leave_event u))
      | _ => mret tt
      end;;
      emit (GroupDiscard group (channel_name self))
  | None => mret tt
  end.

(** [type(v).__name__] of a decoded JSON value. *)
Definition type_name (v : json) : string :=
  match v with
  | JNull => "NoneType"
  | JBool _ => "bool"
  | JInt _ => "int"
  | JStr _ | JTime _ => "str"
  | JList _ => "list"
  | JDict _ => "dict"
  end.

(** [d[k]]: raises [KeyError] when the key is absent. *)
Definition dict_item (d : list (string * json)) (k : string) : M json :=
  match dict_get d k with
  | Some v => mret v
  | None => raise (py ("'" +:+ k +:+ "'"))
  end.

(** [d.get(k, '')] *)
Definition dict_get_str (d : list (string * json)) (k : string) : json :=
  default (JStr []) (dict_get d k).

(** [v == self.user.id], where the right-hand side is an integer or [None]
    (a Python [bool] equals the integer it stands for). *)
Definition eq_user_id (v : json) (uid : option Z) : bool :=
  match v, uid with
  | JInt n, Some k => n =? k
  | JBool b, Some k => (if b then 1 else 0) =? k
  | JNull, None => true
  | _, _ => false
  end.

Definition chat_message_event (m : Message) (u : User) : list (string * json) :=
  [("type", JStr (py "chat_message"));
   ("message", JDict [("id", JInt (message_id m));
                      ("content", JStr (content m));
                      ("sender", JDict [("id", JInt (user_id u));
                                        ("username", JStr (username u));
                                        ("is_premium", JBool (is_premium u))]);
                      ("created_at", JTime (message_created_at m))])].

(** [handle_chat_message] *)
Definition handle_chat_message (self : LobbyConsumer) (data : list (string * json)) : M unit :=
  raw ← match dict_get data "message" with
        | None => mret []
        | Some (JStr s) => mret s
        | Some v => raise (attribute_error (type_name v) "strip")
        end;
  let content := strip raw in
  if bool_decide (content = []) then
    send_error (py "Message cannot be empty")
  else if bool_decide (2000 < length content)%nat then
    send_error (py "Message too long (max 2000 characters)")
  else
    allowed ← check_rate_limit self;
    if negb allowed then
      send_error (py "Rate limit exceeded. Please slow down.")
    else
      is_member ← is_user_member self;
      if negb is_member then
        send_error (py "You are not a member of this lobby");;
        emit (Close 4003)
      else
        message ← save_message self content;
        match message with
        | None => send_error (py "Failed to save message")
        | Some m =>
            group ← self_group self;
            u ← self_user self;
            emit (GroupSend group (chat_message_event m u))
        end.

Definition typing_event (kind : string) (u : User) : list (string * json) :=
  [("type", JStr (py kind)); ("user_id", JInt (user_id u));
   ("username", JStr (username u))].

(** [handle_typing_start] and [handle_typing_stop] *)
Definition handle_typing_start (self : LobbyConsumer) : M unit :=
  group ← self_group self;
  u ← self_user self;
  emit (GroupSend group (typing_event "typing_start" u)).

Definition handle_typing_stop (self : LobbyConsumer) : M unit :=
  group ← self_group self;
  u ← self_user self;
  emit (GroupSend group (typing_event "typing_stop" u)).

(** A frame from the client, as the framework's [websocket_receive] hands
    it to [receive].  A text frame comes as [text_data], for which
    [json.loads(text_data)] gives a value or [JSONDecodeError].  A binary
    frame comes as [self.receive(bytes_data=...)]; [receive(self, text_data)]
    has no such parameter, so the call raises [TypeError] before the body
    and its [try] are entered (the text of the exception is that of Python
    3.10 and later; it reaches the server's log only). *)
Inductive text_data :=
  | InvalidJSON
  | Parsed (data : json)
  | BinaryFrame.

(** [receive] *)
Definition receive (self : LobbyConsumer) (text : text_data) : M unit :=
  match text with
  | BinaryFrame =>
      raise (py "LobbyConsumer.receive() got an unexpected keyword argument 'bytes_data'")
  | InvalidJSON => send_error (py "Invalid JSON")
  | Parsed data =>
      try_except
        (match data with
         | JDict d =>
             match dict_get d "type" with
             | Some (JStr message_type) =>
                 if bool_decide (message_type = py "chat_message") then
                   handle_chat_message self d
                 else if bool_decide (message_type = py "typing_start") then
                   handle_typing_start self
                 else if bool_decide (message_type = py "typing_stop") then
                   handle_typing_stop self
                 else send_error (py "Unknown message type")
             | _ => send_error (py "Unknown message type")
             end
         | _ => raise (attribute_error (type_name data) "get")
         end)
        (λ e, send_error (py "Error processing message: " ++ e))
  end.

(** *** Handlers of the events that arrive through the group *)

(** [chat_message] *)
Definition chat_message (self : LobbyConsumer) (event : list (string * json)) : M unit :=
  m ← dict_item event "message";
  emit (Send (JDict [("type", JStr (py "chat_message")); ("message", m)])).

(** [presence_join] *)
Definition presence_join (self : LobbyConsumer) (event : list (string * json)) : M unit :=
  uid ← dict_item event "user_id";
  name ← dict_item event "username";
  premium ← dict_item event "is_premium";
  emit (Send (JDict [("type", JStr (py "presence_join")); ("user_id", uid);
                     ("username", name); ("is_premium", premium)])).

(** [presence_leave] *)
Definition presence_leave (self : LobbyConsumer) (event : list (string * json)) : M unit :=
  uid ← dict_item event "user_id";
  name ← dict_item event "username";
  emit (Send (JDict [("type", JStr (py "presence_leave")); ("user_id", uid);
                     ("username", name)])).

(** [typing_start] and [typing_stop]: not sent back to the sender. *)
Definition typing_relay (kind : string) (self : LobbyConsumer)
    (event : list (string * json)) : M unit :=
  uid ← dict_item event "user_id";
  me ← self_user_id self;
  if negb (eq_user_id uid me) then
    name ← dict_item event "username";
    emit (Send (JDict [("type", JStr (py kind)); ("user_id", uid); ("username", name)]))
  else mret tt.

Definition typing_start := typing_relay "typing_start".
Definition typing_stop := typing_relay "typing_stop".

(** What the target of a kick or a ban is sent. *)
Definition moderation_self (kind : string) (notice : string)
    (event : list (string * json)) : json :=
  JDict [("type", JStr (py kind)); ("reason", dict_get_str event "reason");
         ("message", JStr (py notice))].

(** What every other connection is sent. *)
Definition moderation_info (kind : string) (target : json)
    (event : list (string * json)) : json :=
  JDict [("type", JStr (py kind)); ("target_id", target);
         ("target_username", dict_get_str event "target_username");
         ("reason", dict_get_str event "reason")].

(** [moderation_kick] *)
Definition moderation_kick (self : LobbyConsumer) (event : list (string * json)) : M unit :=
  target ← dict_item event "target_id";
  me ← self_user_id self;
  if eq_user_id target me then
    emit (Send (moderation_self "moderation_kick"
                  "You have been kicked from the lobby" event));;
    emit (Close 4003)
  else
    emit (Send (moderation_info "moderation_kick" target event)).

(** [moderation_ban] *)
Definition moderation_ban (self : LobbyConsumer) (event : list (string * json)) : M unit :=
  target ← dict_item event "target_id";
  me ← self_user_id self;
  if eq_user_id target me then
    emit (Send (moderation_self "moderation_ban"
                  "You have been banned from the lobby" event));;
    emit (Close 4003)
  else
    emit (Send (moderation_info "moderation_ban" target event)).

(** [system_status] *)
Definition system_status (self : LobbyConsumer) (event : list (string * json)) : M unit :=
  st ← dict_item event "status";
  emit (Send (JDict [("type", JStr (py "system_status")); ("status", st);
                     ("message", dict_get_str event "message")])).

(** The dispatch of a group event to the method named by its [type], as
    the consumer base class does it. *)
Definition dispatch (self : LobbyConsumer) (event : list (string * json)) : M unit :=
  match dict_get event "type" with
  | Some (JStr t) =>
      if bool_decide (t = py "chat_message") then chat_message self event
      else if bool_decide (t = py "presence_join") then presence_join self event
      else if bool_decide (t = py "presence_leave") then presence_leave self event
      else if bool_decide (t = py "typing_start") then typing_start self event
      else if bool_decide (t = py "typing_stop") then typing_stop self event
      else if bool_decide (t = py "moderation_kick") then moderation_kick self event
      else if bool_decide (t = py "moderation_ban") then moderation_ban self event
      else if bool_decide (t = py "system_status") then system_status self event
      else raise (py "No handler for message type")
  | _ => raise (py "No handler for message type")
  end.

(** ** views.py: the actions of [LobbyViewSet] *)

(** A field of [request.data] as a serializer field reads it: absent, not
    of the field's type, or a value. *)
Inductive Field (A : Type) :=
  | absent
  | invalid
  | value (a : A).
Arguments absent {A}.
Arguments invalid {A}.
Arguments value {A} _.

(** [request.data]: [user_id] as [IntegerField] reads it and [reason] as
    [CharField] reads it (before trimming). *)
Record RequestData := mkRequestData {
  data_user_id : Field Z;
  data_reason : Field pystr;
}.

Record Request := mkRequest {
  request_user : ScopeUser;
  request_data : RequestData;
}.

Record Response := mkResponse {
  status_code : Z;
  response_data : list (string * json);
}.

Definition message_response (text : pystr) : Response :=
  mkResponse 200 [("message", JStr text)].

Definition error_response (code : Z) (text : pystr) : Response :=
  mkResponse code [("error", JStr text)].

Inductive Action :=
  | act_list | act_create | act_retrieve | act_update | act_partial_update
  | act_destroy | act_join | act_leave | act_start | act_close | act_kick
  | act_ban | act_unban | act_add_moderator | act_remove_moderator
  | act_transfer_ownership.

Inductive Permission := IsAuthenticated | IsPremium | IsLobbyOwner.

(** [LobbyViewSet.get_permissions]: the permissions are chosen from
    [self.action] alone. *)
Definition get_permissions (a : Action) : list Permission :=
  match a with
  | act_create => [IsAuthenticated; IsPremium]
  | act_update | act_partial_update | act_destroy => [IsAuthenticated; IsLobbyOwner]
  | _ => [IsAuthenticated]
  end.

Definition has_permission (p : Permission) (su : ScopeUser) : bool :=
  match p, su with
  | IsAuthenticated, _ => is_authenticated su
  | IsPremium, Authenticated u => is_premium u
  | IsPremium, AnonymousUser => false
  | IsLobbyOwner, _ => true
  end.

Definition has_object_permission (p : Permission) (su : ScopeUser) (l : Lobby) : bool :=
  match p, su with
  | IsLobbyOwner, Authenticated u => bool_decide (lobby_owner l = user_id u)
  | IsLobbyOwner, AnonymousUser => false
  | _, _ => true
  end.

(** The part of a detail action that the framework runs around its body:
    [check_permissions], then [get_object] with [check_object_permissions].
    Requests carry no query parameters, so [get_queryset] filters nothing. *)
Definition detail_action (a : Action) (request : Request) (pk : Z)
    (body : User → Lobby → M Response) : M Response :=
  match request_user request with
  | AnonymousUser => mret (error_response 401 (py "Authentication credentials were not provided."))
  | Authenticated u =>
      if forallb (λ p, has_permission p (request_user request)) (get_permissions a) then
        l ← ask (λ w, get_lobby_row (db w) pk);
        match l with
        | None => mret (error_response 404 (py "Not found."))
        | Some l =>
            if forallb (λ p, has_object_permission p (request_user request) l)
                 (get_permissions a)
            then body u l
            else mret (error_response 403 (py "You do not have permission to perform this action."))
        end
      else mret (error_response 403 (py "You do not have permission to perform this action."))
  end.

(** The serializers of the moderation actions: [user_id] is an integer that
    names an existing user ([validate_user_id]); [reason], when the
    serializer has it, is an optional string of at most 500 characters,
    trimmed.  [None] is [is_valid() == False]. *)
Definition validated_user_id (d : DB) (data : RequestData) : option Z :=
  match data_user_id data with
  | value n => if bool_decide (is_Some (users d !! n)) then Some n else None
  | _ => None
  end.

Definition validated_reason (data : RequestData) : option pystr :=
  match data_reason data with
  | absent => Some []
  | value s =>
      if bool_decide (length (strip s) ≤ 500)%nat then Some (strip s) else None
  | invalid => None
  end.

Definition serializer_errors : Response :=
  mkResponse 400 [("errors", JStr (py "invalid"))].

Definition log_event (lid : Z) (ty : EventType) (actor : Z) (target : option Z)
    (text : pystr) (meta : list (string * json)) : M unit :=
  update (λ w, set_db (create_event (mkLobbyEvent lid ty actor target text meta (now w))
                         (db w)) w).

(** [join] *)
Definition join (request : Request) (pk : Z) : M Response :=
  detail_action act_join request pk (λ u lobby,
    '(can, message) ← ask (λ w, can_join (db w) lobby u);
    if negb can then mret (error_response 400 message)
    else
      existing ← ask (λ w, memberships (db w) !! (pk, user_id u));
      match existing with
      | None =>
          update (λ w, set_db (set_memberships
                                 (<[(pk, user_id u) := member]> (memberships (db w)))
                                 (db w)) w);;
          log_event pk ev_status_change (user_id u) None
            (username u ++ py " joined the lobby") [];;
          mret (message_response (py "Joined lobby successfully"))
      | Some _ => mret (error_response 400 (py "Already in lobby"))
      end).

(** [leave] *)
Definition leave (request : Request) (pk : Z) : M Response :=
  detail_action act_leave request pk (λ u lobby,
    membership ← ask (λ w, memberships (db w) !! (pk, user_id u));
    match membership with
    | Some role =>
        if bool_decide (role = owner) then
          mret (error_response 400
                  (py "Owner cannot leave lobby. Transfer ownership first."))
        else
          update (λ w, set_db (set_memberships
                                 (delete (pk, user_id u) (memberships (db w)))
                                 (db w)) w);;
          log_event pk ev_status_change (user_id u) None
            (username u ++ py " left the lobby") [];;
          mret (message_response (py "Left lobby successfully"))
    | None => mret (error_response 400 (py "Not in lobby"))
    end).

Definition with_status (s : Status) (l : Lobby) : Lobby :=
  mkLobby (lobby_pk l) (lobby_name l) (lobby_owner l) (is_public l) s
    (max_participants l).

Definition with_owner (o : Z) (l : Lobby) : Lobby :=
  mkLobby (lobby_pk l) (lobby_name l) o (is_public l) (status l)
    (max_participants l).

(** [start] *)
Definition start (request : Request) (pk : Z) : M Response :=
  detail_action act_start request pk (λ u lobby,
    update (λ w, set_db (save_lobby (db w) (with_status in_game lobby)) w);;
    log_event pk ev_status_change (user_id u) None (py "Game started")
      [("status", JStr (py "in_game"))];;
    mret (message_response (py "Game started"))).

(** [close] *)
Definition close (request : Request) (pk : Z) : M Response :=
  detail_action act_close request pk (λ u lobby,
    update (λ w, set_db (save_lobby (db w) (with_status closed lobby)) w);;
    log_event pk ev_status_change (user_id u) None (py "Lobby closed")
      [("status", JStr (py "closed"))];;
    mret (message_response (py "Lobby closed"))).

(** [kick] *)
Definition kick (request : Request) (pk : Z) : M Response :=
  detail_action act_kick request pk (λ actor lobby,
    valid ← ask (λ w, validated_user_id (db w) (request_data request));
    match valid, validated_reason (request_data request) with
    | Some uid, Some reason =>
        target ← ask (λ w, get_user_row (db w) uid);
        match target with
        | None => mret (error_response 404 (py "User not found"))
        | Some u =>
            membership ← ask (λ w, memberships (db w) !! (pk, uid));
            match membership with
            | None => mret (error_response 400 (py "User not in lobby"))
            | Some role =>
                if bool_decide (role = owner) then
                  mret (error_response 400 (py "Cannot kick lobby owner"))
                else
                  update (λ w, set_db (set_memberships
                                         (delete (pk, uid) (memberships (db w)))
                                         (db w)) w);;
                  log_event pk ev_kick (user_id actor) (Some uid)
                    (username u ++ py " kicked from lobby. Reason: " ++ reason)
                    [("reason", JStr reason)];;
                  mret (message_response
                          (py "User " ++ username u ++ py " kicked successfully"))
            end
        end
    | _, _ => mret serializer_errors
    end).

(** [ban] *)
Definition ban (request : Request) (pk : Z) : M Response :=
  detail_action act_ban request pk (λ actor lobby,
    valid ← ask (λ w, validated_user_id (db w) (request_data request));
    match valid, validated_reason (request_data request) with
    | Some uid, Some reason =>
        target ← ask (λ w, get_user_row (db w) uid);
        match target with
        | None => mret (error_response 404 (py "User not found"))
        | Some u =>
            if bool_decide (lobby_owner lobby = uid) then
              mret (error_response 400 (py "Cannot ban lobby owner"))
            else
              (* LobbyMembership.objects.filter(user=user, lobby=lobby).delete() *)
              update (λ w, set_db (set_memberships
                                     (delete (pk, uid) (memberships (db w)))
                                     (db w)) w);;
              (* LobbyBan.objects.get_or_create(...) *)
              existing ← ask (λ w, bans (db w) !! (pk, uid));
              match existing with
              | None =>
                  update (λ w, set_db (set_bans
                                         (<[(pk, uid) := mkLobbyBan reason (user_id actor) (now w)]>
                                            (bans (db w)))
                                         (db w)) w);;
                  log_event pk ev_ban (user_id actor) (Some uid)
                    (username u ++ py " banned from lobby. Reason: " ++ reason)
                    [("reason", JStr reason)];;
                  mret (message_response
                          (py "User " ++ username u ++ py " banned successfully"))
              | Some _ => mret (error_response 400 (py "User already banned"))
              end
        end
    | _, _ => mret serializer_errors
    end).

(** [unban] *)
Definition unban (request : Request) (pk : Z) : M Response :=
  detail_action act_unban request pk (λ actor lobby,
    valid ← ask (λ w, validated_user_id (db w) (request_data request));
    match valid with
    | Some uid =>
        target ← ask (λ w, get_user_row (db w) uid);
        match target with
        | None => mret (error_response 404 (py "User not found"))
        | Some u =>
            existing ← ask (λ w, bans (db w) !! (pk, uid));
            match existing with
            | None => mret (error_response 400 (py "User not banned"))
            | Some _ =>
                update (λ w, set_db (set_bans (delete (pk, uid) (bans (db w))) (db w)) w);;
                log_event pk ev_unban (user_id actor) (Some uid)
                  (username u ++ py " unbanned from lobby") [];;
                mret (message_response
                        (py "User " ++ username u ++ py " unbanned successfully"))
            end
        end
    | None => mret serializer_errors
    end).

(** [add_moderator] *)
Definition add_moderator (request : Request) (pk : Z) : M Response :=
  detail_action act_add_moderator request pk (λ actor lobby,
    valid ← ask (λ w, validated_user_id (db w) (request_data request));
    match valid with
    | Some uid =>
        target ← ask (λ w, get_user_row (db w) uid);
        match target with
        | None => mret (error_response 404 (py "User not found"))
        | Some u =>
            membership ← ask (λ w, memberships (db w) !! (pk, uid));
            match membership with
            | None => mret (error_response 400 (py "User not in lobby"))
            | Some role =>
                if bool_decide (role = owner) then
                  mret (error_response 400 (py "Owner is already a moderator"))
                else
                  update (λ w, set_db (set_memberships
                                         (<[(pk, uid) := moderator]> (memberships (db w)))
                                         (db w)) w);;
                  log_event pk ev_mod_add (user_id actor) (Some uid)
                    (username u ++ py " promoted to moderator") [];;
                  mret (message_response
                          (py "User " ++ username u ++ py " promoted to moderator"))
            end
        end
    | None => mret serializer_errors
    end).

(** [remove_moderator] *)
Definition remove_moderator (request : Request) (pk : Z) : M Response :=
  detail_action act_remove_moderator request pk (λ actor lobby,
    valid ← ask (λ w, validated_user_id (db w) (request_data request));
    match valid with
    | Some uid =>
        target ← ask (λ w, get_user_row (db w) uid);
        match target with
        | None => mret (error_response 404 (py "User not found"))
        | Some u =>
            membership ← ask (λ w, memberships (db w) !! (pk, uid));
            match membership with
            | None => mret (error_response 400 (py "User not in lobby"))
            | Some role =>
                if negb (bool_decide (role = moderator)) then
                  mret (error_response 400 (py "User is not a moderator"))
                else
                  update (λ w, set_db (set_memberships
                                         (<[(pk, uid) := member]> (memberships (db w)))
                                         (db w)) w);;
                  log_event pk ev_mod_remove (user_id actor) (Some uid)
                    (username u ++ py " demoted from moderator") [];;
                  mret (message_response
                          (py "User " ++ username u ++ py " demoted from moderator"))
            end
        end
    | None => mret serializer_errors
    end).

(** [transfer_ownership]; the block under [transaction.atomic()] either
    runs to its end or leaves the database as it was. *)
Definition transfer_ownership (request : Request) (pk : Z) : M Response :=
  detail_action act_transfer_ownership request pk (λ actor lobby,
    valid ← ask (λ w, validated_user_id (db w) (request_data request));
    match valid with
    | Some uid =>
        target ← ask (λ w, get_user_row (db w) uid);
        match target with
        | None => mret (error_response 404 (py "User not found"))
        | Some u =>
            membership ← ask (λ w, memberships (db w) !! (pk, uid));
            let old_owner := lobby_owner lobby in
            old_owner_membership ← ask (λ w, memberships (db w) !! (pk, old_owner));
            match membership, old_owner_membership with
            | Some _, Some _ =>
                update (λ w, set_db (save_lobby (db w) (with_owner uid lobby)) w);;
                update (λ w, set_db (set_memberships
                                       (<[(pk, uid) := owner]>
                                          (<[(pk, old_owner) := member]> (memberships (db w))))
                                       (db w)) w);;
                log_event pk ev_transfer (user_id actor) (Some uid)
                  (py "Ownership transferred to " ++ username u) [];;
                mret (message_response (py "Ownership transferred to " ++ username u))
            | _, _ => mret (error_response 400 (py "User not in lobby"))
            end
        end
    | None => mret serializer_errors
    end).

(** ** middleware.py: [JWTAuthMiddleware] *)

(** The [token] query parameter, as far as the middleware tells tokens
    apart: absent, rejected, or valid with its [user_id] claim. *)
Inductive Token :=
  | token_missing
  | token_invalid
  | token_valid (claim_user_id : option Z).

(** [scope['user']] as the middleware sets it. *)
Definition JWTAuthMiddleware (d : DB) (t : Token) : ScopeUser :=
  match t with
  | token_valid (Some uid) =>
      if bool_decide (uid = 0) then AnonymousUser
      else match get_user_row d uid with
           | Some u => Authenticated u
           | None => AnonymousUser
           end
  | _ => AnonymousUser
  end.

(** ** The server: all the live consumers over one world *)

(** [consumers] holds the live consumers by channel name: those whose
    [connect] has accepted the socket and that have neither run their
    [disconnect] nor died of an exception.  A consumer is in the group of
    its lobby while it is there: [connect] adds it just before it accepts
    and [disconnect] discards it. *)
Record System := mkSystem {
  world : World;
  consumers : gmap Z LobbyConsumer;
}.

Definition is_close (e : effect) : bool :=
  match e with Close _ => true | _ => false end.

Definition closes (es : list effect) : bool := existsb is_close es.

(** A new socket: the middleware, then [connect]; when [connect] closes the
    socket instead of accepting it, the framework calls [disconnect]. *)
Definition sys_connect (s : System) (channel lid : Z) (t : Token) : System * list effect :=
  let scope := mkScope lid (JWTAuthMiddleware (db (world s)) t) in
  match connect (new_consumer channel) scope (world s) with
  | (inl self, w1, es) =>
      if closes es then
        match disconnect self 1006 w1 with
        | (_, w2, es2) => (mkSystem w2 (consumers s), es ++ es2)
        end
      else (mkSystem w1 (<[channel := self]> (consumers s)), es)
  | (inr _, w1, es) => (mkSystem w1 (consumers s), es)
  end.

(** A live consumer runs one handler; when the handler closes the socket,
    the framework calls [disconnect] and the consumer is gone.  A handler
    that raises takes the consumer down without [disconnect]. *)
Definition sys_handle (s : System) (self : LobbyConsumer) (handler : M unit)
    : System * list effect :=
  match handler (world s) with
  | (inl _, w1, es) =>
      if closes es then
        match disconnect self 4003 w1 with
        | (_, w2, es2) => (mkSystem w2 (delete (channel_name self) (consumers s)), es ++ es2)
        end
      else (mkSystem w1 (consumers s), es)
  | (inr _, w1, es) => (mkSystem w1 (delete (channel_name self) (consumers s)), es)
  end.

(** The peer closes the socket, or the transport fails. *)
Definition sys_disconnect (s : System) (self : LobbyConsumer) (code : Z)
    : System * list effect :=
  match disconnect self code (world s) with
  | (_, w1, es) => (mkSystem w1 (delete (channel_name self) (consumers s)), es)
  end.

(** The consumers of a group: those that [group_add] has put there and
    [group_discard] has not removed. *)
Definition in_group (g : group_name) (self : LobbyConsumer) : bool :=
  bool_decide (lobby_group_name self = Some g).

Definition group_members (s : System) (g : group_name) : list LobbyConsumer :=
  filter (λ self, in_group g self = true) (map_to_list (consumers s)).*2.

(** The event reaches one more consumer of the group; [acc] holds the
    server and, by channel, the effects so far. *)
Definition deliver (event : list (string * json))
    (acc : System * list (Z * list effect)) (self : LobbyConsumer)
    : System * list (Z * list effect) :=
  match sys_handle acc.1 self (dispatch self event) with
  | (s', es) => (s', acc.2 ++ [(channel_name self, es)])
  end.

(** [channel_layer.group_send]: the event reaches every consumer of the
    group, one after the other (the order is that of the map of consumers
    and means nothing).  The effects are returned, not interpreted: an event
    that a handler or a teardown sends to a group in turn is delivered by a
    later step. *)
Definition sys_group_send (s : System) (g : group_name) (event : list (string * json))
    : System * list (Z * list effect) :=
  foldl (deliver event) (s, []) (group_members s g).

(** What can happen to the server: a socket is opened, a live consumer is
    handed a frame of its client or an event of the channel layer (any
    frame, any event: the handler may return, close the socket, or raise),
    a socket goes away, the database changes under a REST call, the clock
    advances. *)
Inductive step : System → System → Prop :=
  | step_connect s channel lid t :
      consumers s !! channel = None →
      step s (sys_connect s channel lid t).1
  | step_receive s channel self text :
      consumers s !! channel = Some self →
      step s (sys_handle s self (receive self text)).1
  | step_event s channel self event :
      consumers s !! channel = Some self →
      step s (sys_handle s self (dispatch self event)).1
  | step_disconnect s channel self code :
      consumers s !! channel = Some self →
      step s (sys_disconnect s self code).1
  | step_db s d :
      step s (mkSystem (set_db d (world s)) (consumers s))
  | step_clock s t :
      now (world s) ≤ t →
      step s (mkSystem (mkWorld (db (world s)) (cache (world s)) t) (consumers s)).

(** The steps in which no handler raises, so that no consumer dies without
    its [disconnect]. *)
Inductive graceful_step : System → System → Prop :=
  | graceful_connect s channel lid t :
      consumers s !! channel = None →
      graceful_step s (sys_connect s channel lid t).1
  | graceful_receive s channel self text :
      consumers s !! channel = Some self →
      returns (result_of (receive self text (world s))) = true →
      graceful_step s (sys_handle s self (receive self text)).1
  | graceful_event s channel self event :
      consumers s !! channel = Some self →
      returns (result_of (dispatch self event (world s))) = true →
      graceful_step s (sys_handle s self (dispatch self event)).1
  | graceful_disconnect s channel self code :
      consumers s !! channel = Some self →
      graceful_step s (sys_disconnect s self code).1
  | graceful_db s d :
      graceful_step s (mkSystem (set_db d (world s)) (consumers s))
  | graceful_clock s t :
      now (world s) ≤ t →
      graceful_step s
        (mkSystem (mkWorld (db (world s)) (cache (world s)) t) (consumers s)).

(** The server starts with an empty cache and no consumer. *)
Definition initial (d : DB) (t : Z) : System :=
  mkSystem (mkWorld d (mkCache ∅ ∅) t) ∅.

Inductive reachable : System → Prop :=
  | reachable_initial d t : reachable (initial d t)
  | reachable_step s s' : reachable s → step s s' → reachable s'.

(** The reachable states again, each with the (lobby, user) pairs of the
    consumers that have died of an exception in a handler on the way there;
    the set is empty when none has. *)
Inductive reachable_with : gset (Z * Z) → System → Prop :=
  | with_initial d t : reachable_with ∅ (initial d t)
  | with_graceful_step dead s s' :
      reachable_with dead s → graceful_step s s' → reachable_with dead s'
  | with_frame_exception dead s channel self text lid u :
      reachable_with dead s →
      consumers s !! channel = Some self →
      returns (result_of (receive self text (world s))) = false →
      lobby_id self = Some lid → user self = Some (Authenticated u) →
      reachable_with ({[(lid, user_id u)]} ∪ dead)
        (sys_handle s self (receive self text)).1
  | with_event_exception dead s channel self event lid u :
      reachable_with dead s →
      consumers s !! channel = Some self →
      returns (result_of (dispatch self event (world s))) = false →
      lobby_id self = Some lid → user self = Some (Authenticated u) →
      reachable_with ({[(lid, user_id u)]} ∪ dead)
        (sys_handle s self (dispatch self event)).1.

(** [PresenceStore.List(lobby)]: the presence set as a reader sees it. *)
Definition presence (s : System) (lid : Z) : gset Z :=
  cache_get (lobby_presence (cache (world s))) (now (world s)) lid ∅.

(** A live connection of user [uid] to lobby [lid]. *)
Definition live_session (s : System) (lid uid : Z) : Prop :=
  ∃ channel self u,
    consumers s !! channel = Some self ∧ lobby_id self = Some lid ∧
    user self = Some (Authenticated u) ∧ user_id u = uid.

(** ** Definitions used to state the properties *)

(** The attributes of a consumer whose [connect] has accepted the socket
    for user [u] in lobby [l] (see [connect_unfold] below). *)
Definition joined_consumer (channel : Z) (u : User) (l : Lobby) : LobbyConsumer :=
  mkLobbyConsumer channel (Some (lobby_pk l)) (Some (lobby_group (lobby_pk l)))
    (Some (Authenticated u)) (Some l).

(** The world when the clock reads [t]. *)
Definition at_time (t : Z) (w : World) : World := mkWorld (db w) (cache w) t.

(** The timestamps a reader finds under the rate-limit key of [(uid, lid)]. *)
Definition rate_window (w : World) (uid lid : Z) : list Z :=
  cache_get (rate_limit (cache w)) (now w) (uid, lid) [].

(** The timestamps of [stored] that [check_rate_limit] keeps at time [t]. *)
Definition recent (t : Z) (stored : list Z) : list Z :=
  filter (λ msg_time, t - seconds 2 < msg_time) stored.

(** The rate limiter following the words of the specification: drop the
    entries older than [now - 2s], then accept and append iff fewer than 3
    remain, otherwise reject and change nothing. *)
Definition allow_as_specified (stored : list Z) (t : Z) : bool * list Z :=
  let remaining := filter (λ msg_time, ¬ (msg_time < t - seconds 2)) stored in
  if bool_decide (length remaining < 3)%nat then (true, remaining ++ [t])
  else (false, stored).

(** The presence set a reader finds for lobby [lid]. *)
Definition online (w : World) (lid : Z) : gset Z :=
  cache_get (lobby_presence (cache w)) (now w) lid ∅.

(** The key of [(uid, lid)] was last written at time [t0] with [l]. *)
Definition written (w : World) (uid lid t0 : Z) (l : list Z) : Prop :=
  ∀ t, rate_window (at_time t w) uid lid = if t <? t0 + seconds 10 then l else [].

(** The [error] frame that [send_error] sends for a literal message. *)
Definition error_frame (message : string) : effect :=
  Send (JDict [("type", JStr (py "error")); ("message", JStr (py message))]).

Definition is_group_send (e : effect) : bool :=
  match e with GroupSend _ _ => true | _ => false end.

(** Some event is sent to a group. *)
Definition broadcasts (es : list effect) : bool := existsb is_group_send es.

(** The [presence_list] frame. *)
Definition presence_list_frame (online_users : list json) : effect :=
  Send (JDict [("type", JStr (py "presence_list")); ("users", JList online_users)]).

(** What [get_online_users] returns when the presence set is [ids]. *)
Definition online_rows (d : DB) (ids : gset Z) : list json :=
  if bool_decide (ids = ∅) then []
  else user_values <$> map_to_list (filter (λ kv, kv.1 ∈ ids) (users d)).

(** The world after [add_user_presence] for user [uid] in lobby [lid]. *)
Definition registered (w : World) (lid uid : Z) : World :=
  set_lobby_presence
    (cache_set (lobby_presence (cache w)) (now w) lid ({[uid]} ∪ online w lid) 300) w.

(** The world after [remove_user_presence] for [self.user.id = uid]. *)
Definition unregistered (w : World) (lid : Z) (uid : option Z) : World :=
  if bool_decide (discard (online w lid) uid ≠ ∅) then
    set_lobby_presence
      (cache_set (lobby_presence (cache w)) (now w) lid (discard (online w lid) uid) 300) w
  else set_lobby_presence (cache_delete (lobby_presence (cache w)) lid) w.

(** A coroutine that leaves the presence store and the clock alone. *)
Definition keeps_presence {A} (m : M A) : Prop :=
  ∀ w, lobby_presence (cache (world_of (m w))) = lobby_presence (cache w) ∧
       now (world_of (m w)) = now w.

(** [self.user.id] for the user of a scope. *)
Definition scope_user_id (su : ScopeUser) : option Z :=
  match su with Authenticated u => Some (user_id u) | AnonymousUser => None end.

(** What [disconnect] sends to the channel layer. *)
Definition teardown_effects (self : LobbyConsumer) : list effect :=
  match lobby_group_name self with
  | Some group =>
      match user self with
      | Some (Authenticated u) => [GroupSend group (presence_leave_event u)]
      | _ => []
      end ++ [GroupDiscard group (channel_name self)]
  | None => []
  end.

(** Every live consumer has the attributes of an accepted [connect]. *)
Definition consumers_joined (s : System) : Prop :=
  ∀ channel self, consumers s !! channel = Some self →
    ∃ u l, self = joined_consumer channel u l.

(** Whoever is in a presence set has a live connection to that lobby, or
    had one whose consumer is among the [dead]. *)
Definition presence_sound (dead : gset (Z * Z)) (s : System) : Prop :=
  ∀ lid uid, uid ∈ presence s lid → live_session s lid uid ∨ (lid, uid) ∈ dead.

(** A step of a view that returns, sends nothing, and leaves the audit log
    and the clock alone. *)
Definition quiet {A} (m : M A) : Prop :=
  ∀ w, returns (result_of (m w)) = true ∧ effects_of (m w) = [] ∧
       events (db (world_of (m w))) = events (db w) ∧ now (world_of (m w)) = now w.

(** A view that sends nothing and either fails without touching the audit
    log, or succeeds (status 200) after appending one event of type [ty] for
    lobby [pk]. *)
Definition audited (ty : EventType) (pk : Z) (m : M Response) : Prop :=
  ∀ w, effects_of (m w) = [] ∧
       ∃ resp, result_of (m w) = inl resp ∧
         ((status_code resp ≠ 200 ∧ events (db (world_of (m w))) = events (db w)) ∨
          (status_code resp = 200 ∧
           ∃ e, events (db (world_of (m w))) = events (db w) ++ [e] ∧
                event_type e = ty ∧ event_lobby e = pk ∧ event_created_at e = now w)).

(** The moderation actions of the REST surface, each with the type of the
    event it logs. *)
Definition moderation_actions : list (EventType * (Request → Z → M Response)) :=
  [(ev_kick, kick); (ev_ban, ban); (ev_unban, unban); (ev_mod_add, add_moderator);
   (ev_mod_remove, remove_moderator); (ev_transfer, transfer_ownership);
   (ev_status_change, start); (ev_status_change, close)].

(** The world after a member who is not the owner has left. *)
Definition left_world (w : World) (pk : Z) (u : User) : World :=
  set_db (create_event
            (mkLobbyEvent pk ev_status_change (user_id u) None
               (username u ++ py " left the lobby") [] (now w))
            (set_memberships (delete (pk, user_id u) (memberships (db w))) (db w))) w.

(** The event that a ban logs. *)
Definition ban_event (pk : Z) (actor u : User) (reason : pystr) (t : Z) : LobbyEvent :=
  mkLobbyEvent pk ev_ban (user_id actor) (Some (user_id u))
    (username u ++ py " banned from lobby. Reason: " ++ reason)
    [("reason", JStr reason)] t.

(** The database after a ban of [u] by [actor]: the membership is deleted,
    then the ban is created, then the event is logged. *)
Definition banned_db (d : DB) (pk : Z) (actor u : User) (reason : pystr) (t : Z) : DB :=
  create_event (ban_event pk actor u reason t)
    (set_bans (<[(pk, user_id u) := mkLobbyBan reason (user_id actor) t]>
                 (bans (set_memberships (delete (pk, user_id u) (memberships d)) d)))
       (set_memberships (delete (pk, user_id u) (memberships d)) d)).

(** The consumer belongs to user [target]. *)
Definition is_target (target : Z) (self : LobbyConsumer) : bool :=
  match user self with
  | Some (Authenticated u) => target =? user_id u
  | _ => false
  end.

(** What the delivery of a [moderation_ban] event does on the socket of
    one consumer: the frame, and for the target the close and the teardown. *)
Definition ban_delivery (target : Z) (event : list (string * json))
    (self : LobbyConsumer) : list effect :=
  if is_target target self then
    [Send (moderation_self "moderation_ban" "You have been banned from the lobby" event);
     Close 4003] ++ teardown_effects self
  else [Send (moderation_info "moderation_ban" (JInt target) event)].

(** The consumer on [channel] belongs to user [target]. *)
Definition hits (target channel : Z) (self : LobbyConsumer) : bool :=
  bool_decide (channel_name self = channel) && is_target target self.

(** *** Sample data *)

Definition alice : User := mkUser 7 (py "alice") false.
Definition bob : User := mkUser 8 (py "bob") false.
Definition carol : User := mkUser 5 (py "carol") true.

(** Lobby 1, owned by carol, open, for two participants. *)
Definition test_lobby : Lobby := mkLobby 1 (py "Test") 5 true open 2.

Definition sample_users : gmap Z UserRow :=
  {[ 5 := mkUserRow (py "carol") true;
     7 := mkUserRow (py "alice") false;
     8 := mkUserRow (py "bob") false ]}.

(** carol owns lobby 1 and is its only member. *)
Definition sample_db : DB :=
  mkDB sample_users {[ 1 := mkLobbyRow (py "Test") 5 true open 2 ]}
       {[ (1, 5) := owner ]} ∅ [] [] true.

(** The world at time [t], with the sample database and an empty cache. *)
Definition sample_world (t : Z) : World := mkWorld sample_db (mkCache ∅ ∅) t.

(** alice has sent three messages, at 0, 1 and 2 microseconds; the clock
    now reads exactly two seconds. *)
Definition boundary_world : World :=
  let self := joined_consumer 3 alice test_lobby in
  let w1 := world_of (check_rate_limit self (sample_world 0)) in
  let w2 := world_of (check_rate_limit self (at_time 1 w1)) in
  let w3 := world_of (check_rate_limit self (at_time 2 w2)) in
  at_time 2000000 w3.

(** The consumers of alice and of bob in lobby 1, and an inbound
    [chat_message] frame. *)
Definition alice_consumer : LobbyConsumer := joined_consumer 3 alice test_lobby.
Definition bob_consumer : LobbyConsumer := joined_consumer 5 bob test_lobby.

Definition hello_data : list (string * json) :=
  [("type", JStr (py "chat_message")); ("message", JStr (py "  Hello "))].

(** A [moderation_ban] event whose target is alice. *)
Definition ban_alice_event : list (string * json) :=
  [("type", JStr (py "moderation_ban")); ("target_id", JInt 7);
   ("target_username", JStr (py "alice")); ("reason", JStr (py "spam"))].

(** alice, who is not a member of lobby 1, opens a socket to it on channel
    3 and a second one on channel 4; then the second socket goes away. *)
Definition alice_token : Token := token_valid (Some 7).

Definition alice_connected : System :=
  (sys_connect (initial sample_db 0) 3 1 alice_token).1.

Definition alice_twice : System := (sys_connect alice_connected 4 1 alice_token).1.

Definition alice_once_left : System :=
  (sys_disconnect alice_twice (joined_consumer 4 alice test_lobby) 1000).1.

(** alice is connected on channel 3 and joins lobby 1 through the REST
    surface; a further socket of hers is then refused. *)
Definition alice_request : Request :=
  mkRequest (Authenticated alice) (mkRequestData absent absent).

Definition alice_member : System :=
  mkSystem (set_db (db (world_of (join alice_request 1 (world alice_connected))))
              (world alice_connected))
           (consumers alice_connected).

Definition alice_refused : System := (sys_connect alice_member 4 1 alice_token).1.


Definition is_accept (e : effect) : bool :=
  match e with Accept => true | _ => false end.

(** carol bans alice from lobby 1. *)
Definition ban_request : Request :=
  mkRequest (Authenticated carol) (mkRequestData (value 7) (value (py "spam"))).

(** alice holds two sockets to lobby 1 and bob one. *)
Definition three_sockets : System :=
  (sys_connect alice_twice 5 1 (token_valid (Some 8))).1.

(** alice's second socket (channel 4) has registered her in the presence
    store and waits at an [await] of [connect]; meanwhile her first socket
    (channel 3) goes away and its [disconnect] runs. *)
Definition alice_second_registered : World :=
  world_of (add_user_presence (joined_consumer 4 alice test_lobby)
              (world alice_connected)).

Definition alice_first_gone : World :=
  world_of (disconnect alice_consumer 1000 alice_second_registered).

(** alice's only socket is sent a binary frame. *)
Definition alice_crashed : System * list effect :=
  sys_handle alice_connected alice_consumer (receive alice_consumer BinaryFrame).

(** *** Outcomes of inbound frames and of REST calls *)

(** The frame that [receive] sends for an exception with text [e]. *)
Definition exception_frame (e : pystr) : effect :=
  Send (JDict [("type", JStr (py "error"));
               ("message", JStr (py "Error processing message: " ++ e))]).

(** The [type] of an inbound frame is one of the three the consumer handles. *)
Definition known_type (t : pystr) : bool :=
  bool_decide (t = py "chat_message") || bool_decide (t = py "typing_start") ||
  bool_decide (t = py "typing_stop").

(** What [receive] does on the socket of an accepted consumer. *)
Inductive receive_outcome (u : User) (l : Lobby) (w : World) : list effect → Prop :=
  | outcome_nothing :
      receive_outcome u l w []
  | outcome_error frame :
      receive_outcome u l w [Send frame]
  | outcome_not_member :
      membership_exists (db w) (lobby_pk l) (user_id u) = false →
      receive_outcome u l w
        [error_frame "You are not a member of this lobby"; Close 4003]
  | outcome_chat m :
      membership_exists (db w) (lobby_pk l) (user_id u) = true →
      message_sender m = user_id u → message_lobby m = lobby_pk l →
      content m ≠ [] → (length (content m) ≤ 2000)%nat →
      receive_outcome u l w
        [GroupSend (lobby_group (lobby_pk l)) (chat_message_event m u)]
  | outcome_typing_start :
      receive_outcome u l w
        [GroupSend (lobby_group (lobby_pk l)) (typing_event "typing_start" u)]
  | outcome_typing_stop :
      receive_outcome u l w
        [GroupSend (lobby_group (lobby_pk l)) (typing_event "typing_stop" u)].

(** The event is handled by the consumer of any user without an exception,
    without closing the socket and without touching the world. *)
Definition handled (event : list (string * json)) : Prop :=
  ∀ self su w, user self = Some su →
    ∃ es, dispatch self event w = (inl tt, w, es) ∧ closes es = false.

(** The frame in which a consumer relays a chat message. *)
Definition chat_frame (m : Message) (u : User) : effect :=
  Send (JDict [("type", JStr (py "chat_message"));
               ("message",
                JDict [("id", JInt (message_id m)); ("content", JStr (content m));
                       ("sender", JDict [("id", JInt (user_id u));
                                         ("username", JStr (username u));
                                         ("is_premium", JBool (is_premium u))]);
                       ("created_at", JTime (message_created_at m))])]).

(** A view that answers without an exception and without an effect, and
    whose answer is 200. *)
Definition succeeds (m : M Response) : Prop :=
  ∀ w, ∃ resp w', m w = (inl resp, w', []) ∧ status_code resp = 200.

(** A view that answers without an exception and without an effect, and
    that leaves the world as it was unless its answer is 200. *)
Definition failsafe (m : M Response) : Prop :=
  ∀ w, ∃ resp w', m w = (inl resp, w', []) ∧ (status_code resp = 200 ∨ w' = w).

(** The actions whose failures change nothing. *)
Definition failsafe_actions : list (Request → Z → M Response) :=
  [join; leave; start; close; kick; unban; add_moderator; remove_moderator;
   transfer_ownership].

(** The database after [actor] has kicked [u]. *)
Definition kicked_db (d : DB) (pk : Z) (actor u : User) (reason : pystr) (t : Z) : DB :=
  create_event
    (mkLobbyEvent pk ev_kick (user_id actor) (Some (user_id u))
       (username u ++ py " kicked from lobby. Reason: " ++ reason)
       [("reason", JStr reason)] t)
    (set_memberships (delete (pk, user_id u) (memberships d)) d).

(** The database after [actor] has lifted the ban of [u]. *)
Definition unbanned_db (d : DB) (pk : Z) (actor u : User) (t : Z) : DB :=
  create_event
    (mkLobbyEvent pk ev_unban (user_id actor) (Some (user_id u))
       (username u ++ py " unbanned from lobby") [] t)
    (set_bans (delete (pk, user_id u) (bans d)) d).

(** The database after [actor] has set the role of the member [u] to
    [role], logging an event of type [ty] with the text [text]. *)
Definition role_db (d : DB) (pk : Z) (actor u : User) (role : Role) (ty : EventType)
    (text : pystr) (t : Z) : DB :=
  create_event
    (mkLobbyEvent pk ty (user_id actor) (Some (user_id u)) text [] t)
    (set_memberships (<[(pk, user_id u) := role]> (memberships d)) d).

(** The database after [actor] has handed lobby [lobby] over to [u]. *)
Definition transferred_db (d : DB) (lobby : Lobby) (actor u : User) (t : Z) : DB :=
  create_event
    (mkLobbyEvent (lobby_pk lobby) ev_transfer (user_id actor) (Some (user_id u))
       (py "Ownership transferred to " ++ username u) [] t)
    (set_memberships
       (<[(lobby_pk lobby, user_id u) := owner]>
          (<[(lobby_pk lobby, lobby_owner lobby) := member]> (memberships d)))
       (save_lobby d (with_owner (user_id u) lobby))).

(** The database after [actor] has set the status of [lobby] to [s]. *)
Definition status_db (d : DB) (lobby : Lobby) (actor : User) (s : Status)
    (text label : string) (t : Z) : DB :=
  create_event
    (mkLobbyEvent (lobby_pk lobby) ev_status_change (user_id actor) None (py text)
       [("status", JStr (py label))] t)
    (save_lobby d (with_status s lobby)).

(** The world after user [u] has joined lobby [pk]. *)
Definition joined_world (w : World) (pk : Z) (u : User) : World :=
  set_db (create_event
            (mkLobbyEvent pk ev_status_change (user_id u) None
               (username u ++ py " joined the lobby") [] (now w))
            (set_memberships (<[(pk, user_id u) := member]> (memberships (db w)))
               (db w))) w.

(** The ten actions that a client can post to a lobby. *)
Definition rest_actions : list (Request → Z → M Response) :=
  [join; leave; start; close; kick; ban; unban; add_moderator; remove_moderator;
   transfer_ownership].

(** One call of one of them. *)
Definition rest_step (w w' : World) : Prop :=
  ∃ view request pk, view ∈ rest_actions ∧ w' = world_of (view request pk w).

(** No lobby holds more memberships than [max_participants]. *)
Definition within_capacity (d : DB) : Prop :=
  ∀ pk l, get_lobby_row d pk = Some l →
    current_participants_count d l ≤ max_participants l.

(** In every lobby the membership of role [owner] is that of [lobby.owner],
    and no other. *)
Definition single_owner (d : DB) : Prop :=
  ∀ pk l uid, get_lobby_row d pk = Some l →
    (memberships d !! (pk, uid) = Some owner ↔ uid = lobby_owner l).

(** Lobby [pk] exists and is not open. *)
Definition not_open (pk : Z) (d : DB) : Prop :=
  ∃ l, get_lobby_row d pk = Some l ∧ status l ≠ open.

(** The actions that take a membership away from somebody else. *)
Definition removals : list (Request → Z → M Response) := [kick; ban].

(** * Properties *)

(** ** Join admission *)

Lemma membership_exists_spec (d : DB) (lid uid : Z) :
  membership_exists d lid uid = false ↔ memberships d !! (lid, uid) = None.
Proof.
  unfold membership_exists. rewrite bool_decide_eq_false, eq_None_not_Some. done.
Qed.

Lemma ban_exists_spec (d : DB) (lid uid : Z) :
  ban_exists d lid uid = false ↔ bans d !! (lid, uid) = None.
Proof.
  unfold ban_exists. rewrite bool_decide_eq_false, eq_None_not_Some. done.
Qed.

Lemma is_full_spec (d : DB) (l : Lobby) :
  is_full d l = false ↔ current_participants_count d l < max_participants l.
Proof. unfold is_full. rewrite Z.leb_gt. done. Qed.

Local Ltac admission_cases :=
  intuition (repeat match goal with H : is_Some _ |- _ => destruct H end;
             try congruence; try lia).

(** C1. [can_join] allows the join exactly when the lobby is open, has
    fewer members than [max_participants], holds no ban of the user and no
    membership of the user; the four checks run in this order and the
    reason returned is that of the first check that fails. *)
Theorem can_join_admission (d : DB) (l : Lobby) (u : User) :
  ((can_join d l u).1 = true ↔
     status l = open ∧
     current_participants_count d l < max_participants l ∧
     bans d !! (lobby_pk l, user_id u) = None ∧
     memberships d !! (lobby_pk l, user_id u) = None) ∧
  (status l ≠ open →
     can_join d l u = (false, py "Lobby is not open")) ∧
  (status l = open →
   max_participants l ≤ current_participants_count d l →
     can_join d l u = (false, py "Lobby is full")) ∧
  (status l = open →
   current_participants_count d l < max_participants l →
   is_Some (bans d !! (lobby_pk l, user_id u)) →
     can_join d l u = (false, py "You are banned from this lobby")) ∧
  (status l = open →
   current_participants_count d l < max_participants l →
   bans d !! (lobby_pk l, user_id u) = None →
   is_Some (memberships d !! (lobby_pk l, user_id u)) →
     can_join d l u = (false, py "Already in lobby")) ∧
  (status l = open →
   current_participants_count d l < max_participants l →
   bans d !! (lobby_pk l, user_id u) = None →
   memberships d !! (lobby_pk l, user_id u) = None →
     can_join d l u = (true, py "Can join")).
Proof.
  unfold can_join.
  destruct (decide (status l = open)) as [Hst|Hst].
  2:{ rewrite (bool_decide_eq_false_2 _ Hst). simpl. admission_cases. }
  rewrite (bool_decide_eq_true_2 _ Hst). simpl.
  destruct (is_full d l) eqn:Hfull.
  { assert (max_participants l ≤ current_participants_count d l) as Hle
      by (unfold is_full in Hfull; lia).
    simpl. admission_cases. }
  apply is_full_spec in Hfull.
  destruct (ban_exists d (lobby_pk l) (user_id u)) eqn:Hban.
  { assert (is_Some (bans d !! (lobby_pk l, user_id u))) as [b Hb]
      by (unfold ban_exists in Hban; by apply bool_decide_eq_true in Hban).
    simpl. admission_cases. }
  apply ban_exists_spec in Hban.
  destruct (membership_exists d (lobby_pk l) (user_id u)) eqn:Hmem.
  { assert (is_Some (memberships d !! (lobby_pk l, user_id u))) as [r Hr]
      by (unfold membership_exists in Hmem; by apply bool_decide_eq_true in Hmem).
    simpl. admission_cases. }
  apply membership_exists_spec in Hmem.
  simpl. admission_cases.
Qed.

(** A lobby that is full and from which the user is banned: the reason
    reported is that of the earlier check. *)
Example full_before_banned :
  can_join (mkDB sample_users {[ 1 := mkLobbyRow (py "Test") 5 true open 1 ]}
              {[ (1, 5) := owner ]} {[ (1, 7) := mkLobbyBan (py "spam") 5 0 ]}
              [] [] true)
    (mkLobby 1 (py "Test") 5 true open 1) alice
  = (false, py "Lobby is full").
Proof. vm_compute. reflexivity. Qed.

(** ** The rate limiter *)

Lemma check_rate_limit_unfold (channel : Z) (u : User) (l : Lobby) (w : World) :
  check_rate_limit (joined_consumer channel u l) w =
    let kept := recent (now w) (rate_window w (user_id u) (lobby_pk l)) in
    if bool_decide (3 ≤ length kept)%nat then (inl false, w, [])
    else (inl true,
          set_rate_limit (cache_set (rate_limit (cache w)) (now w)
                            (user_id u, lobby_pk l) (kept ++ [now w]) 10) w,
          []).
Proof.
  unfold check_rate_limit, joined_consumer, recent, rate_window. simpl.
  unfold mbind, M_bind, ask, update, mret, M_ret. simpl.
  case_bool_decide; reflexivity.
Qed.

Lemma recent_cons_keep (t x : Z) (xs : list Z) :
  t - seconds 2 < x → recent t (x :: xs) = x :: recent t xs.
Proof. intros Hx. unfold recent. by rewrite filter_cons_True. Qed.

Lemma recent_cons_drop (t x : Z) (xs : list Z) :
  x ≤ t - seconds 2 → recent t (x :: xs) = recent t xs.
Proof. intros Hx. unfold recent. rewrite filter_cons_False; [done | lia]. Qed.

Lemma recent_length (t : Z) (xs : list Z) : (length (recent t xs) ≤ length xs)%nat.
Proof. apply length_filter. Qed.

Lemma rate_window_written (w : World) (uid lid t : Z) (l : list Z) :
  rate_window
    (at_time t (set_rate_limit
                  (cache_set (rate_limit (cache w)) (now w) (uid, lid) l 10) w))
    uid lid
  = if t <? now w + seconds 10 then l else [].
Proof.
  unfold rate_window, cache_get, cache_set, at_time, set_rate_limit, set_cache. simpl.
  by rewrite lookup_insert_eq.
Qed.

Lemma rate_window_other (w : World) (uid lid : Z) (key : Z * Z) (l : list Z) :
  key ≠ (uid, lid) →
  rate_limit (cache (set_rate_limit
                       (cache_set (rate_limit (cache w)) (now w) (uid, lid) l 10) w))
    !! key = rate_limit (cache w) !! key.
Proof.
  intros Hne. unfold cache_set, set_rate_limit, set_cache. simpl.
  by rewrite lookup_insert_ne.
Qed.

Lemma recent_nil (t : Z) : recent t [] = [].
Proof. reflexivity. Qed.

Lemma written_at_time (w : World) (uid lid t0 t : Z) (l : list Z) :
  written w uid lid t0 l → written (at_time t w) uid lid t0 l.
Proof. intros Hw t'. apply Hw. Qed.

Lemma limiter_accepts (channel : Z) (u : User) (l : Lobby) (w : World) (t : Z) :
  (length (recent t (rate_window (at_time t w) (user_id u) (lobby_pk l))) < 3)%nat →
  result_of (check_rate_limit (joined_consumer channel u l) (at_time t w)) = inl true ∧
  written (world_of (check_rate_limit (joined_consumer channel u l) (at_time t w)))
    (user_id u) (lobby_pk l) t
    (recent t (rate_window (at_time t w) (user_id u) (lobby_pk l)) ++ [t]).
Proof.
  intros Hlen. rewrite check_rate_limit_unfold. cbn zeta.
  change (now (at_time t w)) with t.
  rewrite bool_decide_eq_false_2 by lia.
  split; [reflexivity|]. intros t'. unfold world_of. cbn [fst snd].
  apply (rate_window_written (at_time t w)).
Qed.

Lemma limiter_rejects (channel : Z) (u : User) (l : Lobby) (w : World) (t : Z) :
  (3 ≤ length (recent t (rate_window (at_time t w) (user_id u) (lobby_pk l))))%nat →
  result_of (check_rate_limit (joined_consumer channel u l) (at_time t w)) = inl false ∧
  world_of (check_rate_limit (joined_consumer channel u l) (at_time t w)) = at_time t w.
Proof.
  intros Hlen. rewrite check_rate_limit_unfold. cbn zeta.
  change (now (at_time t w)) with t.
  rewrite bool_decide_eq_true_2 by lia. done.
Qed.

(** C4 (as amended). [check_rate_limit] keeps the stored timestamps that are
    strictly newer than [now - 2s] (a timestamp aged exactly two seconds is
    dropped with the older ones), accepts and stores the kept timestamps
    followed by [now] iff fewer than 3 are kept, and otherwise rejects and
    changes nothing.  Hence, on a key with nothing recent, three calls
    within one window all succeed, a fourth in the same window is rejected
    and leaves the store as it was, and a call made once the window has
    passed succeeds again. *)
Theorem check_rate_limit_sliding_window (channel : Z) (u : User) (l : Lobby) (w : World) :
  let self := joined_consumer channel u l in
  let stored := rate_window w (user_id u) (lobby_pk l) in
  let kept := recent (now w) stored in
  let r := check_rate_limit self w in
  result_of r = inl (bool_decide (length kept < 3)%nat) ∧
  effects_of r = [] ∧
  (∀ t, t ∈ kept ↔ t ∈ stored ∧ now w - seconds 2 < t) ∧
  ((3 ≤ length kept)%nat → world_of r = w) ∧
  ((length kept < 3)%nat →
     rate_window (world_of r) (user_id u) (lobby_pk l) = kept ++ [now w] ∧
     (∀ key, key ≠ (user_id u, lobby_pk l) →
        rate_limit (cache (world_of r)) !! key = rate_limit (cache w) !! key) ∧
     lobby_presence (cache (world_of r)) = lobby_presence (cache w) ∧
     db (world_of r) = db w ∧ now (world_of r) = now w) ∧
  (∀ t1 t2 t3 t4 t5,
     recent t1 (rate_window (at_time t1 w) (user_id u) (lobby_pk l)) = [] →
     t1 ≤ t2 → t2 ≤ t3 → t3 ≤ t4 → t4 < t1 + seconds 2 →
     t4 ≤ t5 → t1 + seconds 2 ≤ t5 →
     let r1 := check_rate_limit self (at_time t1 w) in
     let r2 := check_rate_limit self (at_time t2 (world_of r1)) in
     let r3 := check_rate_limit self (at_time t3 (world_of r2)) in
     let r4 := check_rate_limit self (at_time t4 (world_of r3)) in
     let r5 := check_rate_limit self (at_time t5 (world_of r4)) in
     result_of r1 = inl true ∧ result_of r2 = inl true ∧
     result_of r3 = inl true ∧
     result_of r4 = inl false ∧ world_of r4 = at_time t4 (world_of r3) ∧
     result_of r5 = inl true).
Proof.
  intros self stored kept r. subst r self.
  rewrite check_rate_limit_unfold. fold stored. fold kept. cbn zeta.
  split_and!.
  - case_bool_decide; case_bool_decide; simpl; try done; lia.
  - by case_bool_decide.
  - intros t. unfold kept, recent. by rewrite list_elem_of_filter, (comm and).
  - intros Hge. by rewrite bool_decide_eq_true_2.
  - intros Hlt. rewrite bool_decide_eq_false_2 by lia. unfold world_of. simpl.
    split_and!; try done.
    + pose proof (rate_window_written w (user_id u) (lobby_pk l) (now w)
                    (kept ++ [now w])) as Hw.
      unfold at_time in Hw. simpl in Hw.
      rewrite (proj2 (Z.ltb_lt _ _)) in Hw by (unfold seconds; lia).
      exact Hw.
    + intros key Hkey. by apply rate_window_other.
  - clear stored kept. intros t1 t2 t3 t4 t5 Hfresh H12 H23 H34 H41 H45 H15.
    cbn zeta.
    assert (seconds 2 = 2000000) as S2 by reflexivity.
    assert (seconds 10 = 10000000) as S10 by reflexivity.
    set (self := joined_consumer channel u l).
    destruct (limiter_accepts channel u l w t1) as [R1 W1].
    { rewrite Hfresh. simpl. lia. }
    rewrite Hfresh in W1. fold self in R1, W1. simpl app in W1.
    set (w1 := world_of (check_rate_limit self (at_time t1 w))) in *.
    destruct (limiter_accepts channel u l w1 t2) as [R2 W2].
    { rewrite (W1 t2), (proj2 (Z.ltb_lt _ _)) by lia.
      pose proof (recent_length t2 [t1]). simpl in *. lia. }
    rewrite (W1 t2), (proj2 (Z.ltb_lt _ _)) in W2 by lia.
    rewrite recent_cons_keep, recent_nil in W2 by lia.
    fold self in R2, W2. simpl app in W2.
    set (w2 := world_of (check_rate_limit self (at_time t2 w1))) in *.
    destruct (limiter_accepts channel u l w2 t3) as [R3 W3].
    { rewrite (W2 t3), (proj2 (Z.ltb_lt _ _)) by lia.
      pose proof (recent_length t3 [t1; t2]). simpl in *. lia. }
    rewrite (W2 t3), (proj2 (Z.ltb_lt _ _)) in W3 by lia.
    rewrite !recent_cons_keep, recent_nil in W3 by lia.
    fold self in R3, W3. simpl app in W3.
    set (w3 := world_of (check_rate_limit self (at_time t3 w2))) in *.
    destruct (limiter_rejects channel u l w3 t4) as [R4 W4].
    { rewrite (W3 t4), (proj2 (Z.ltb_lt _ _)) by lia.
      rewrite !recent_cons_keep, recent_nil by lia. simpl. lia. }
    fold self in R4, W4. rewrite W4.
    destruct (limiter_accepts channel u l (at_time t4 w3) t5) as [R5 _].
    { change (at_time t5 (at_time t4 w3)) with (at_time t5 w3).
      rewrite (W3 t5). destruct (t5 <? t3 + seconds 10).
      - rewrite recent_cons_drop by lia.
        pose proof (recent_length t5 [t2; t3]). simpl in *. lia.
      - simpl. lia. }
    done.
Qed.

(** C4, counterexample to the claim as stated.  After three messages at 0,
    1 and 2 microseconds, a call at exactly two seconds finds three stored
    timestamps of which none is older than [now - 2s]; by the claim the
    remaining count is 3 and the call is rejected, but the consumer drops
    the timestamp aged exactly two seconds and accepts. *)
Lemma check_rate_limit_boundary_counterexample :
  let self := joined_consumer 3 alice test_lobby in
  let stored := rate_window boundary_world 7 1 in
  stored = [0; 1; 2] ∧
  filter (λ t : Z, ¬ (t < now boundary_world - seconds 2)) stored = [0; 1; 2] ∧
  allow_as_specified stored (now boundary_world) = (false, [0; 1; 2]) ∧
  result_of (check_rate_limit self boundary_world) = inl true ∧
  rate_window (world_of (check_rate_limit self boundary_world)) 7 1 = [1; 2; 2000000] ∧
  ¬ (result_of (check_rate_limit self boundary_world) = inl true ↔
     (length (filter (λ t : Z, ¬ (t < now boundary_world - seconds 2)%Z) stored) < 3)%nat).
Proof.
  assert (rate_window boundary_world 7 1 = [0; 1; 2]) as Hs by (vm_compute; reflexivity).
  cbn zeta. rewrite Hs.
  assert (result_of (check_rate_limit (joined_consumer 3 alice test_lobby) boundary_world)
          = inl true) as Hr by (vm_compute; reflexivity).
  split_and!; try (vm_compute; reflexivity).
  rewrite Hr. intros [Hlen _]. specialize (Hlen eq_refl). vm_compute in Hlen. lia.
Qed.

(** ** The chat message handler *)

Lemma check_rate_limit_cases (channel : Z) (u : User) (l : Lobby) (w : World) :
  check_rate_limit (joined_consumer channel u l) w = (inl false, w, []) ∨
  ∃ w1, check_rate_limit (joined_consumer channel u l) w = (inl true, w1, []) ∧
        db w1 = db w ∧ now w1 = now w.
Proof.
  rewrite check_rate_limit_unfold. cbn zeta.
  case_bool_decide; [by left | right]. eexists. split; [reflexivity | done].
Qed.

Lemma is_user_member_joined (channel : Z) (u : User) (l : Lobby) (w : World) :
  is_user_member (joined_consumer channel u l) w =
    (inl (membership_exists (db w) (lobby_pk l) (user_id u)), w, []).
Proof. reflexivity. Qed.

Lemma save_message_joined (channel : Z) (u : User) (l : Lobby) (text : pystr) (w : World) :
  save_message (joined_consumer channel u l) text w =
    if accepts_messages (db w) then
      (inl (Some (create_message (lobby_pk l) (user_id u) text (now w) (db w)).1),
       set_db (create_message (lobby_pk l) (user_id u) text (now w) (db w)).2 w, [])
    else (inl None, w, []).
Proof.
  unfold save_message, joined_consumer. cbn [lobby user].
  unfold mbind, M_bind, ask, update, mret, M_ret.
  destruct (accepts_messages (db w)); reflexivity.
Qed.

Lemma handle_chat_message_unfold (channel : Z) (u : User) (l : Lobby)
    (data : list (string * json)) (raw : pystr) (w : World) :
  dict_get data "message" = Some (JStr raw) ∨
  (dict_get data "message" = None ∧ raw = []) →
  let self := joined_consumer channel u l in
  handle_chat_message self data w =
    if bool_decide (strip raw = []) then
      (inl tt, w, [error_frame "Message cannot be empty"])
    else if bool_decide (2000 < length (strip raw))%nat then
      (inl tt, w, [error_frame "Message too long (max 2000 characters)"])
    else
      let w1 := world_of (check_rate_limit self w) in
      match result_of (check_rate_limit self w) with
      | inl false => (inl tt, w1, [error_frame "Rate limit exceeded. Please slow down."])
      | inl true =>
          if membership_exists (db w1) (lobby_pk l) (user_id u) then
            if accepts_messages (db w1) then
              let mw := create_message (lobby_pk l) (user_id u) (strip raw) (now w1) (db w1) in
              (inl tt, set_db mw.2 w1,
               [GroupSend (lobby_group (lobby_pk l)) (chat_message_event mw.1 u)])
            else (inl tt, w1, [error_frame "Failed to save message"])
          else
            (inl tt, w1, [error_frame "You are not a member of this lobby"; Close 4003])
      | inr e => (inr e, w1, [])
      end.
Proof.
  intros Hraw self.
  assert (∃ b w1, check_rate_limit self w = (inl b, w1, [])) as (b & w1 & Hc).
  { destruct (check_rate_limit_cases channel u l w) as [?|(? & ? & _)]; eauto. }
  unfold handle_chat_message.
  assert ((match dict_get data "message" with
           | None => mret []
           | Some (JStr s) => mret s
           | Some v => raise (attribute_error (type_name v) "strip")
           end : M pystr) = mret raw) as ->.
  { destruct Hraw as [-> | [-> ->]]; reflexivity. }
  unfold mbind, M_bind, mret, M_ret at 1.
  case_bool_decide; [reflexivity|].
  case_bool_decide; [reflexivity|].
  rewrite Hc. unfold world_of, result_of. cbn [fst snd].
  destruct b; cbn [negb]; [|reflexivity].
  subst self. rewrite is_user_member_joined.
  destruct (membership_exists (db w1) (lobby_pk l) (user_id u)); cbn [negb];
    [|reflexivity].
  rewrite save_message_joined.
  destruct (accepts_messages (db w1)); reflexivity.
Qed.

(** C5. [handle_chat_message] checks, in this order and stopping at the
    first failure with an [error] frame: (1) the trimmed content is empty;
    (2) it is longer than 2000 characters; (3) the rate limiter rejects;
    (4) the sender holds no membership any more, the only case that also
    closes the socket (code 4003); (5) the message cannot be saved, which
    neither closes nor broadcasts.  The [chat_message] event is sent to the
    group exactly when all five checks pass. *)
Theorem handle_chat_message_checks (channel : Z) (u : User) (l : Lobby)
    (data : list (string * json)) (raw : pystr) (w : World) :
  dict_get data "message" = Some (JStr raw) ∨
  (dict_get data "message" = None ∧ raw = []) →
  let self := joined_consumer channel u l in
  let text := strip raw in
  let limiter := check_rate_limit self w in
  let w1 := world_of limiter in
  let is_member := membership_exists (db w) (lobby_pk l) (user_id u) in
  let saved := create_message (lobby_pk l) (user_id u) text (now w) (db w) in
  let r := handle_chat_message self data w in
  (text = [] →
     r = (inl tt, w, [error_frame "Message cannot be empty"])) ∧
  (text ≠ [] → (2000 < length text)%nat →
     r = (inl tt, w, [error_frame "Message too long (max 2000 characters)"])) ∧
  (text ≠ [] → (length text ≤ 2000)%nat → result_of limiter = inl false →
     r = (inl tt, w, [error_frame "Rate limit exceeded. Please slow down."])) ∧
  (text ≠ [] → (length text ≤ 2000)%nat → result_of limiter = inl true →
   is_member = false →
     r = (inl tt, w1, [error_frame "You are not a member of this lobby"; Close 4003])) ∧
  (text ≠ [] → (length text ≤ 2000)%nat → result_of limiter = inl true →
   is_member = true → accepts_messages (db w) = false →
     r = (inl tt, w1, [error_frame "Failed to save message"])) ∧
  (text ≠ [] → (length text ≤ 2000)%nat → result_of limiter = inl true →
   is_member = true → accepts_messages (db w) = true →
     r = (inl tt, set_db saved.2 w1,
          [GroupSend (lobby_group (lobby_pk l)) (chat_message_event saved.1 u)])) ∧
  (closes (effects_of r) = true ↔
     text ≠ [] ∧ (length text ≤ 2000)%nat ∧ result_of limiter = inl true ∧
     is_member = false) ∧
  (broadcasts (effects_of r) = true ↔
     text ≠ [] ∧ (length text ≤ 2000)%nat ∧ result_of limiter = inl true ∧
     is_member = true ∧ accepts_messages (db w) = true).
Proof.
  intros Hraw self text limiter w1 is_member saved r.
  pose proof (handle_chat_message_unfold channel u l data raw w Hraw) as Hu.
  cbn zeta in Hu. fold self text limiter w1 in Hu. subst r. rewrite Hu. clear Hu.
  case_bool_decide as Hempty.
  { split_and!; intros; try done; try (split; [done | tauto]). }
  case_bool_decide as Hlong.
  { split_and!; intros; try done; try lia; split; try done; lia. }
  assert (length text ≤ 2000)%nat as Hlen by lia.
  destruct (check_rate_limit_cases channel u l w) as [Hrej | (w' & Hacc & Hdb & Hnow)].
  { subst w1 limiter. fold self in Hrej. rewrite Hrej.
    unfold result_of, world_of. cbn [fst snd].
    split_and!; intros; try done; split; try done; naive_solver. }
  subst w1 limiter. fold self in Hacc. rewrite Hacc.
  unfold result_of, world_of. cbn [fst snd]. rewrite Hdb, Hnow. fold is_member saved.
  destruct is_member.
  2:{ split_and!; intros; try done; split; try done; naive_solver. }
  destruct (accepts_messages (db w)).
  - split_and!; intros; try done; split; try done; naive_solver.
  - split_and!; intros; try done; split; try done; naive_solver.
Qed.

Lemma handle_chat_message_checks_witness :
  (dict_get hello_data "message" = Some (JStr (py "  Hello ")) ∨
   (dict_get hello_data "message" = None ∧ py "  Hello " = [])) ∧
  (broadcasts (effects_of (handle_chat_message alice_consumer hello_data
                             (world alice_member))) = true ↔
   strip (py "  Hello ") ≠ [] ∧ (length (strip (py "  Hello ")) ≤ 2000)%nat ∧
   result_of (check_rate_limit alice_consumer (world alice_member)) = inl true ∧
   membership_exists (db (world alice_member)) (lobby_pk test_lobby) (user_id alice)
     = true ∧
   accepts_messages (db (world alice_member)) = true).
Proof.
  assert (dict_get hello_data "message" = Some (JStr (py "  Hello ")) ∨
          (dict_get hello_data "message" = None ∧ py "  Hello " = [])) as H
    by (left; reflexivity).
  split; [exact H|].
  apply (handle_chat_message_checks 3 alice test_lobby hello_data
           (py "  Hello ") (world alice_member) H).
Defined.

(** alice, connected and by now a member, says hello: the trimmed text is
    saved and sent to the group. *)
Example hello_is_broadcast :
  effects_of (handle_chat_message alice_consumer hello_data (world alice_member)) =
    [GroupSend (lobby_group 1)
       (chat_message_event (mkMessage 1 1 7 (py "Hello") 0 false) alice)].
Proof. vm_compute. reflexivity. Qed.

(** ** Moderation events *)

Lemma dispatch_moderation_kick (self : LobbyConsumer) (event : list (string * json)) :
  dict_get event "type" = Some (JStr (py "moderation_kick")) →
  dispatch self event = moderation_kick self event.
Proof. intros Ht. unfold dispatch. rewrite Ht. reflexivity. Qed.

Lemma dispatch_moderation_ban (self : LobbyConsumer) (event : list (string * json)) :
  dict_get event "type" = Some (JStr (py "moderation_ban")) →
  dispatch self event = moderation_ban self event.
Proof. intros Ht. unfold dispatch. rewrite Ht. reflexivity. Qed.

Lemma moderation_kick_unfold (self : LobbyConsumer) (u : User)
    (event : list (string * json)) (target : Z) (w : World) :
  user self = Some (Authenticated u) →
  dict_get event "target_id" = Some (JInt target) →
  moderation_kick self event w =
    if target =? user_id u then
      (inl tt, w, [Send (moderation_self "moderation_kick"
                           "You have been kicked from the lobby" event);
                   Close 4003])
    else (inl tt, w, [Send (moderation_info "moderation_kick" (JInt target) event)]).
Proof.
  intros Hu Ht. unfold moderation_kick, dict_item, self_user_id.
  rewrite Ht, Hu. unfold mbind, M_bind, mret, M_ret. cbn [eq_user_id].
  destruct (target =? user_id u); reflexivity.
Qed.

Lemma moderation_ban_unfold (self : LobbyConsumer) (u : User)
    (event : list (string * json)) (target : Z) (w : World) :
  user self = Some (Authenticated u) →
  dict_get event "target_id" = Some (JInt target) →
  moderation_ban self event w =
    if target =? user_id u then
      (inl tt, w, [Send (moderation_self "moderation_ban"
                           "You have been banned from the lobby" event);
                   Close 4003])
    else (inl tt, w, [Send (moderation_info "moderation_ban" (JInt target) event)]).
Proof.
  intros Hu Ht. unfold moderation_ban, dict_item, self_user_id.
  rewrite Ht, Hu. unfold mbind, M_bind, mret, M_ret. cbn [eq_user_id].
  destruct (target =? user_id u); reflexivity.
Qed.

(** C2. A [moderation_kick] or [moderation_ban] event with target user
    [target], delivered to a consumer of the group.  The consumer of the
    target sends its client the event as a frame of the same [type] with
    the [reason] of the event (the empty string when the event has none) and
    the notice "You have been kicked/banned from the lobby", and then closes
    the socket with code 4003.  The consumer of any other user sends the
    informational variant, a frame of the same [type] with [target_id],
    [target_username] and [reason] of the event, and does not close.  The
    world is left as it was in both cases. *)
Theorem moderation_event_delivery (self : LobbyConsumer) (u : User)
    (event : list (string * json)) (target : Z) (w : World) :
  user self = Some (Authenticated u) →
  dict_get event "target_id" = Some (JInt target) →
  let reason := default (JStr []) (dict_get event "reason") in
  let target_username := default (JStr []) (dict_get event "target_username") in
  (dict_get event "type" = Some (JStr (py "moderation_kick")) →
     (user_id u = target →
        dispatch self event w =
          (inl tt, w,
           [Send (JDict [("type", JStr (py "moderation_kick")); ("reason", reason);
                         ("message", JStr (py "You have been kicked from the lobby"))]);
            Close 4003])) ∧
     (user_id u ≠ target →
        dispatch self event w =
          (inl tt, w,
           [Send (JDict [("type", JStr (py "moderation_kick"));
                         ("target_id", JInt target);
                         ("target_username", target_username);
                         ("reason", reason)])])) ∧
     (closes (effects_of (dispatch self event w)) = true ↔ user_id u = target)) ∧
  (dict_get event "type" = Some (JStr (py "moderation_ban")) →
     (user_id u = target →
        dispatch self event w =
          (inl tt, w,
           [Send (JDict [("type", JStr (py "moderation_ban")); ("reason", reason);
                         ("message", JStr (py "You have been banned from the lobby"))]);
            Close 4003])) ∧
     (user_id u ≠ target →
        dispatch self event w =
          (inl tt, w,
           [Send (JDict [("type", JStr (py "moderation_ban"));
                         ("target_id", JInt target);
                         ("target_username", target_username);
                         ("reason", reason)])])) ∧
     (closes (effects_of (dispatch self event w)) = true ↔ user_id u = target)).
Proof.
  intros Hu Ht reason target_username. subst reason target_username.
  split; intros Hty.
  - rewrite (dispatch_moderation_kick _ _ Hty),
      (moderation_kick_unfold self u event target w Hu Ht).
    unfold moderation_self, moderation_info, dict_get_str.
    destruct (Z.eqb_spec target (user_id u)) as [->|Hne].
    + split_and!; [done | done | by split].
    + split_and!; [congruence | done | split; [done | congruence]].
  - rewrite (dispatch_moderation_ban _ _ Hty),
      (moderation_ban_unfold self u event target w Hu Ht).
    unfold moderation_self, moderation_info, dict_get_str.
    destruct (Z.eqb_spec target (user_id u)) as [->|Hne].
    + split_and!; [done | done | by split].
    + split_and!; [congruence | done | split; [done | congruence]].
Qed.

Lemma moderation_event_delivery_witness :
  user bob_consumer = Some (Authenticated bob) ∧
  dict_get ban_alice_event "target_id" = Some (JInt 7) ∧
  dict_get ban_alice_event "type" = Some (JStr (py "moderation_ban")) ∧
  user_id bob ≠ 7 ∧
  dispatch bob_consumer ban_alice_event (sample_world 0) =
    (inl tt, sample_world 0,
     [Send (JDict [("type", JStr (py "moderation_ban")); ("target_id", JInt 7);
                   ("target_username", JStr (py "alice"));
                   ("reason", JStr (py "spam"))])]).
Proof.
  assert (user bob_consumer = Some (Authenticated bob)) as Hu by reflexivity.
  assert (dict_get ban_alice_event "target_id" = Some (JInt 7)) as Ht by reflexivity.
  assert (dict_get ban_alice_event "type" = Some (JStr (py "moderation_ban"))) as Hty
    by reflexivity.
  assert (user_id bob ≠ 7) as Hne by (vm_compute; discriminate).
  split_and!; [exact Hu | exact Ht | exact Hty | exact Hne |].
  exact (proj1 (proj2 (proj2 (moderation_event_delivery bob_consumer bob ban_alice_event
                                7 (sample_world 0) Hu Ht) Hty)) Hne).
Defined.

(** The ban of alice, seen by alice's consumer and by bob's. *)
Example ban_closes_the_target_only :
  effects_of (dispatch alice_consumer ban_alice_event (sample_world 0)) =
    [Send (JDict [("type", JStr (py "moderation_ban")); ("reason", JStr (py "spam"));
                  ("message", JStr (py "You have been banned from the lobby"))]);
     Close 4003] ∧
  effects_of (dispatch bob_consumer ban_alice_event (sample_world 0)) =
    [Send (JDict [("type", JStr (py "moderation_ban")); ("target_id", JInt 7);
                  ("target_username", JStr (py "alice"));
                  ("reason", JStr (py "spam"))])].
Proof. split; vm_compute; reflexivity. Qed.

(** ** Connecting *)

Lemma add_user_presence_unfold (self : LobbyConsumer) (u : User) (lid : Z) (w : World) :
  lobby_id self = Some lid → user self = Some (Authenticated u) →
  add_user_presence self w = (inl tt, registered w lid (user_id u), []).
Proof.
  intros Hl Hu. unfold add_user_presence, self_lobby_id, self_user.
  rewrite Hl, Hu. reflexivity.
Qed.

Lemma get_online_users_unfold (self : LobbyConsumer) (lid : Z) (w : World) :
  lobby_id self = Some lid →
  get_online_users self w = (inl (online_rows (db w) (online w lid)), w, []).
Proof.
  intros Hl. unfold get_online_users, self_lobby_id, online_rows. rewrite Hl.
  unfold mbind, M_bind, mret, M_ret, ask. cbn [fst snd]. fold (online w lid).
  case_bool_decide; reflexivity.
Qed.

Lemma get_lobby_row_pk (d : DB) (lid : Z) (l : Lobby) :
  get_lobby_row d lid = Some l → lobby_pk l = lid.
Proof.
  unfold get_lobby_row. destruct (lobbies d !! lid); intros; by simplify_eq/=.
Qed.

Lemma connect_unfold (channel : Z) (scope : Scope) (w : World) :
  let lid := url_lobby_id scope in
  let group := lobby_group lid in
  connect (new_consumer channel) scope w =
    match scope_user scope with
    | AnonymousUser =>
        (inl (mkLobbyConsumer channel (Some lid) (Some group) (Some AnonymousUser) None),
         w, [Close 4001])
    | Authenticated u =>
        match get_lobby_row (db w) lid with
        | None =>
            (inl (mkLobbyConsumer channel (Some lid) (Some group)
                    (Some (Authenticated u)) None),
             w, [Close 4004])
        | Some l =>
            if (can_join (db w) l u).1 then
              (inl (joined_consumer channel u l), registered w lid (user_id u),
               [GroupAdd group channel; Accept; GroupSend group (presence_join_event u);
                presence_list_frame
                  (online_rows (db w) (online (registered w lid (user_id u)) lid))])
            else
              (inl (joined_consumer channel u l), w,
               [Send (JDict [("type", JStr (py "error"));
                             ("message", JStr (can_join (db w) l u).2)]);
                Close 4003])
        end
    end.
Proof.
  intros lid group. unfold connect, new_consumer. cbn [channel_name lobby].
  fold lid group.
  destruct (scope_user scope) as [|u] eqn:Hsu; [reflexivity|].
  unfold get_lobby, self_lobby_id. cbn [lobby_id].
  unfold mbind, M_bind, mret, M_ret, ask. cbn [fst snd].
  destruct (get_lobby_row (db w) lid) as [l|] eqn:Hl; [|reflexivity].
  pose proof (get_lobby_row_pk _ _ _ Hl) as Hpk.
  unfold can_user_join, self_user. cbn [lobby user].
  unfold mbind, M_bind, mret, M_ret, ask. cbn [fst snd].
  destruct (can_join (db w) l u) as [can reason]. cbn [fst snd].
  destruct can; cbn [negb].
  2:{ unfold joined_consumer. rewrite Hpk. reflexivity. }
  unfold emit at 1 2. cbn [fst snd].
  rewrite (add_user_presence_unfold _ u lid) by reflexivity.
  unfold emit at 1. cbn [fst snd].
  rewrite (get_online_users_unfold _ lid) by reflexivity.
  unfold emit, joined_consumer. rewrite Hpk. reflexivity.
Qed.

Lemma seconds_pos (n : Z) : 0 < n → 0 < seconds n.
Proof. unfold seconds. lia. Qed.

Lemma online_registered (w : World) (lid uid : Z) :
  online (registered w lid uid) lid = {[uid]} ∪ online w lid.
Proof.
  unfold registered, online at 1, cache_get, cache_set, set_lobby_presence, set_cache.
  cbn [cache lobby_presence now]. rewrite lookup_insert_eq. cbn [expires_at cached_value].
  pose proof (seconds_pos 300). rewrite (proj2 (Z.ltb_lt _ _)) by lia. done.
Qed.

Lemma JWTAuthMiddleware_authenticated (d : DB) (t : Token) (u : User) :
  JWTAuthMiddleware d t = Authenticated u →
  ∃ row, users d !! user_id u = Some row ∧
         u = mkUser (user_id u) (row_username row) (row_is_premium row).
Proof.
  unfold JWTAuthMiddleware, get_user_row.
  destruct t as [| |[uid|]]; try done.
  case_bool_decide; [done|].
  destruct (users d !! uid) as [row|] eqn:Hrow; [|done].
  intros [= <-]. eauto.
Qed.

Lemma online_rows_elem (d : DB) (ids : gset Z) (uid : Z) (row : UserRow) :
  users d !! uid = Some row → uid ∈ ids →
  user_values (uid, row) ∈ online_rows d ids.
Proof.
  intros Hrow Hin. unfold online_rows.
  rewrite bool_decide_eq_false_2 by set_solver.
  apply list_elem_of_fmap. exists (uid, row). split; [done|].
  apply elem_of_map_to_list. by apply map_lookup_filter_Some.
Qed.

Lemma online_rows_elem_iff (d : DB) (ids : gset Z) (uid : Z) (row : UserRow) :
  users d !! uid = Some row →
  user_values (uid, row) ∈ online_rows d ids ↔ uid ∈ ids.
Proof.
  intros Hrow. split; [|by apply online_rows_elem].
  unfold online_rows. case_bool_decide; [by intros ?%elem_of_nil|].
  intros ([uid' row'] & Heq & Hin)%list_elem_of_fmap.
  apply elem_of_map_to_list, map_lookup_filter_Some in Hin as [_ Hin].
  unfold user_values in Heq. cbn in Heq, Hin. by simplify_eq.
Qed.

(** C8 (as amended). When [connect] accepts the socket and nothing else
    runs in between, its effects are, in this order: the consumer joins the
    group of the lobby, accepts, registers its user in the presence store,
    broadcasts [presence_join], and only then sends the joining client the
    [presence_list] frame with what [get_online_users] reads after the
    registration; the entry of the joining user (id, username, premium flag)
    is in that list.  Whenever the snapshot is read, the entry of the
    joining user is in it exactly when the user's id is in the presence set
    of the lobby at that moment. *)
Theorem connect_presence_list_includes_self (channel lid : Z) (token : Token) (w : World) :
  let group := lobby_group lid in
  let scope := mkScope lid (JWTAuthMiddleware (db w) token) in
  let r := connect (new_consumer channel) scope w in
  closes (effects_of r) = false →
  ∃ u self rows,
    scope_user scope = Authenticated u ∧
    result_of r = inl self ∧
    world_of r = world_of (add_user_presence self w) ∧
    user_id u ∈ online (world_of r) lid ∧
    effects_of r =
      [GroupAdd group channel; Accept;
       GroupSend group
         [("type", JStr (py "presence_join")); ("user_id", JInt (user_id u));
          ("username", JStr (username u)); ("is_premium", JBool (is_premium u))];
       Send (JDict [("type", JStr (py "presence_list")); ("users", JList rows)])] ∧
    get_online_users self (world_of r) = (inl rows, world_of r, []) ∧
    JDict [("id", JInt (user_id u)); ("username", JStr (username u));
           ("is_premium", JBool (is_premium u))] ∈ rows ∧
    ∀ w2 row, users (db w2) !! user_id u = Some row →
      ∃ rows2, get_online_users self w2 = (inl rows2, w2, []) ∧
        (JDict [("id", JInt (user_id u)); ("username", JStr (row_username row));
                ("is_premium", JBool (row_is_premium row))] ∈ rows2 ↔
         user_id u ∈ online w2 lid).
Proof.
  intros group scope r. subst r. rewrite connect_unfold. cbn zeta.
  cbn [url_lobby_id scope_user scope].
  destruct (JWTAuthMiddleware (db w) token) as [|u] eqn:Hauth; [done|].
  destruct (JWTAuthMiddleware_authenticated _ _ _ Hauth) as (row & Hrow & Hu).
  destruct (get_lobby_row (db w) lid) as [l|] eqn:Hl; [|done].
  pose proof (get_lobby_row_pk _ _ _ Hl) as Hpk.
  destruct (can_join (db w) l u).1; [|done].
  intros _. unfold world_of, effects_of, result_of. cbn [fst snd].
  assert (lobby_id (joined_consumer channel u l) = Some lid) as Hlid
    by (cbn; by rewrite Hpk).
  exists u, (joined_consumer channel u l),
    (online_rows (db w) (online (registered w lid (user_id u)) lid)).
  rewrite (add_user_presence_unfold _ u lid) by done.
  rewrite (get_online_users_unfold _ lid) by done.
  rewrite online_registered. cbn [fst snd].
  split_and!; try done.
  - set_solver.
  - rewrite Hu at 2 3. cbn [username is_premium].
    apply (online_rows_elem (db w) _ (user_id u) row); [done | set_solver].
  - intros w2 row2 Hrow2. eexists. split; [by apply get_online_users_unfold|].
    apply (online_rows_elem_iff (db w2) _ (user_id u) row2 Hrow2).
Qed.

Lemma connect_presence_list_includes_self_witness :
  closes (effects_of (connect (new_consumer 3)
                        (mkScope 1 (JWTAuthMiddleware (db (sample_world 0))
                                      (token_valid (Some 7))))
                        (sample_world 0))) = false ∧
  ∃ u rows,
    effects_of (connect (new_consumer 3)
                  (mkScope 1 (JWTAuthMiddleware (db (sample_world 0))
                                (token_valid (Some 7))))
                  (sample_world 0)) =
      [GroupAdd (lobby_group 1) 3; Accept;
       GroupSend (lobby_group 1)
         [("type", JStr (py "presence_join")); ("user_id", JInt (user_id u));
          ("username", JStr (username u)); ("is_premium", JBool (is_premium u))];
       Send (JDict [("type", JStr (py "presence_list")); ("users", JList rows)])] ∧
    JDict [("id", JInt (user_id u)); ("username", JStr (username u));
           ("is_premium", JBool (is_premium u))] ∈ rows.
Proof.
  assert (closes (effects_of (connect (new_consumer 3)
                        (mkScope 1 (JWTAuthMiddleware (db (sample_world 0))
                                      (token_valid (Some 7))))
                        (sample_world 0))) = false) as H
    by (vm_compute; reflexivity).
  split; [exact H|].
  destruct (connect_presence_list_includes_self 3 1 (token_valid (Some 7))
              (sample_world 0) H) as (u & self & rows & _ & _ & _ & _ & He & _ & Hin & _).
  exists u, rows. split; [exact He|exact Hin].
Defined.

(** C8, counterexample to the claim as stated.  Registration and snapshot
    are separated by the [await]s of [group_send] and of [get_online_users].
    alice holds a socket on channel 3 and opens a second one on channel 4:
    its [connect] accepts and registers her in the presence store; before it
    reads the snapshot, the socket on channel 3 goes away and its
    [disconnect] removes her id; the list that the joining socket is then
    sent is empty. *)
Lemma presence_list_after_teardown_counterexample :
  result_of (connect (new_consumer 4) (mkScope 1 (Authenticated alice))
               (world alice_connected)) = inl (joined_consumer 4 alice test_lobby) ∧
  closes (effects_of (connect (new_consumer 4) (mkScope 1 (Authenticated alice))
                        (world alice_connected))) = false ∧
  world_of (connect (new_consumer 4) (mkScope 1 (Authenticated alice))
              (world alice_connected)) = alice_second_registered ∧
  online alice_second_registered 1 = {[7]} ∧
  consumers alice_connected !! 3 = Some alice_consumer ∧
  online alice_first_gone 1 = ∅ ∧
  get_online_users (joined_consumer 4 alice test_lobby) alice_first_gone =
    (inl [], alice_first_gone, []).
Proof. split_and!; vm_compute; reflexivity. Qed.

(** alice joins lobby 1, where only carol is a member: the list she is sent
    holds her own entry. *)
Example alice_sees_herself :
  effects_of (connect (new_consumer 3) (mkScope 1 (Authenticated alice))
                (sample_world 0)) =
    [GroupAdd (lobby_group 1) 3; Accept;
     GroupSend (lobby_group 1) (presence_join_event alice);
     presence_list_frame
       [JDict [("id", JInt 7); ("username", JStr (py "alice"));
               ("is_premium", JBool false)]]].
Proof. vm_compute. reflexivity. Qed.

(** ** Handlers and the presence store *)

Lemma keeps_ret {A} (a : A) : keeps_presence (mret a).
Proof. done. Qed.

Lemma keeps_raise {A} (e : pystr) : keeps_presence (raise e : M A).
Proof. done. Qed.

Lemma keeps_emit (e : effect) : keeps_presence (emit e).
Proof. done. Qed.

Lemma keeps_ask {A} (f : World → A) : keeps_presence (ask f).
Proof. done. Qed.

Lemma keeps_update (f : World → World) :
  (∀ w, lobby_presence (cache (f w)) = lobby_presence (cache w) ∧ now (f w) = now w) →
  keeps_presence (update f).
Proof. intros Hf w. apply Hf. Qed.

Lemma keeps_bind {A B} (m : M A) (f : A → M B) :
  keeps_presence m → (∀ a, keeps_presence (f a)) → keeps_presence (m ≫= f).
Proof.
  intros Hm Hf w. unfold mbind, M_bind.
  specialize (Hm w). destruct (m w) as [[[a|e] w1] e1]; [|done].
  specialize (Hf a w1). destruct (f a w1) as [[r w2] e2].
  unfold world_of in *. cbn [fst snd] in *.
  destruct Hm, Hf. split; congruence.
Qed.

Lemma keeps_try_except {A} (m : M A) (h : pystr → M A) :
  keeps_presence m → (∀ e, keeps_presence (h e)) → keeps_presence (try_except m h).
Proof.
  intros Hm Hh w. unfold try_except.
  specialize (Hm w). destruct (m w) as [[[a|e] w1] e1]; [done|].
  specialize (Hh e w1). destruct (h e w1) as [[r w2] e2].
  unfold world_of in *. cbn [fst snd] in *.
  destruct Hm, Hh. split; congruence.
Qed.

Local Ltac keeps_step :=
  first [ apply keeps_ret | apply keeps_raise | apply keeps_emit | apply keeps_ask
        | apply keeps_bind; [|intros ?]
        | apply keeps_try_except; [|intros ?]
        | apply keeps_update; intros ?; split; reflexivity
        | case_match | case_bool_decide ].

Lemma keeps_send_error (message : pystr) : keeps_presence (send_error message).
Proof. apply keeps_emit. Qed.

Lemma keeps_check_rate_limit (self : LobbyConsumer) : keeps_presence (check_rate_limit self).
Proof. unfold check_rate_limit, self_user, self_lobby_id. repeat keeps_step. Qed.

Lemma keeps_handle_chat_message (self : LobbyConsumer) (data : list (string * json)) :
  keeps_presence (handle_chat_message self data).
Proof.
  unfold handle_chat_message, is_user_member, save_message, self_group, self_user, send_error.
  repeat first [ apply keeps_check_rate_limit | keeps_step ].
Qed.

Lemma keeps_receive (self : LobbyConsumer) (text : text_data) :
  keeps_presence (receive self text).
Proof.
  unfold receive, handle_typing_start, handle_typing_stop, self_group, self_user, send_error.
  repeat first [ apply keeps_handle_chat_message | keeps_step ].
Qed.

Lemma keeps_dispatch (self : LobbyConsumer) (event : list (string * json)) :
  keeps_presence (dispatch self event).
Proof.
  unfold dispatch, chat_message, presence_join, presence_leave, typing_start, typing_stop,
    typing_relay, moderation_kick, moderation_ban, system_status, dict_item, self_user_id.
  repeat keeps_step.
Qed.

Lemma try_except_returns {A} (m : M A) (h : pystr → M A) (w : World) :
  (∀ e w', returns (result_of (h e w')) = true) →
  returns (result_of (try_except m h w)) = true.
Proof.
  intros Hh. unfold try_except. destruct (m w) as [[[a|e] w1] e1]; [done|].
  specialize (Hh e w1). by destruct (h e w1) as [[r w2] e2].
Qed.

Lemma receive_returns (self : LobbyConsumer) (text : text_data) (w : World) :
  text ≠ BinaryFrame → returns (result_of (receive self text w)) = true.
Proof.
  destruct text as [|data|]; [done| |done].
  intros _. unfold receive. by apply try_except_returns.
Qed.

Lemma remove_user_presence_unfold (self : LobbyConsumer) (su : ScopeUser) (lid : Z) (w : World) :
  lobby_id self = Some lid → user self = Some su →
  remove_user_presence self w =
    (inl tt,
     unregistered w lid (match su with Authenticated u => Some (user_id u)
                                     | AnonymousUser => None end),
     []).
Proof.
  intros Hl Hu. unfold remove_user_presence, self_lobby_id, self_user_id, unregistered.
  rewrite Hl, Hu. destruct su; unfold mbind, M_bind, mret, M_ret, ask; cbn [fst snd];
    fold (online w lid); case_bool_decide; reflexivity.
Qed.

Lemma disconnect_unfold (self : LobbyConsumer) (su : ScopeUser) (lid : Z)
    (group : group_name) (code : Z) (w : World) :
  lobby_id self = Some lid → user self = Some su →
  lobby_group_name self = Some group →
  disconnect self code w =
    (inl tt, unregistered w lid (scope_user_id su), teardown_effects self).
Proof.
  intros Hl Hu Hg. unfold disconnect, teardown_effects. rewrite Hg, Hu.
  unfold mbind, M_bind. rewrite (remove_user_presence_unfold self su lid w Hl Hu).
  destruct su; reflexivity.
Qed.

Lemma online_unregistered_elem (w : World) (lid lid' uid' : Z) (x : option Z) :
  uid' ∈ online (unregistered w lid x) lid' →
  uid' ∈ online w lid' ∧ ¬ (lid' = lid ∧ x = Some uid').
Proof.
  unfold unregistered. case_bool_decide as Hne.
  - unfold online at 1, cache_get, cache_set, set_lobby_presence, set_cache.
    cbn [cache lobby_presence now].
    destruct (decide (lid' = lid)) as [->|Hl].
    + rewrite lookup_insert_eq. cbn [expires_at cached_value].
      pose proof (seconds_pos 300). rewrite (proj2 (Z.ltb_lt _ _)) by lia.
      destruct x as [k|]; cbn [discard]; set_solver.
    + rewrite lookup_insert_ne by done. intros Hin. split; [exact Hin | tauto].
  - unfold online at 1, cache_get, cache_delete, set_lobby_presence, set_cache.
    cbn [cache lobby_presence now].
    destruct (decide (lid' = lid)) as [->|Hl].
    + rewrite lookup_delete_eq. set_solver.
    + rewrite lookup_delete_ne by done. intros Hin. split; [exact Hin | tauto].
Qed.

Lemma online_registered_elem (w : World) (lid lid' uid uid' : Z) :
  uid' ∈ online (registered w lid uid) lid' →
  (lid' = lid ∧ uid' = uid) ∨ uid' ∈ online w lid'.
Proof.
  destruct (decide (lid' = lid)) as [->|Hl].
  - rewrite online_registered. set_solver.
  - unfold registered, online at 1, cache_get, cache_set, set_lobby_presence, set_cache.
    cbn [cache lobby_presence now]. rewrite lookup_insert_ne by done. by right.
Qed.

(** ** The presence invariant *)

Lemma joined_live (s : System) (channel : Z) (u : User) (l : Lobby) :
  consumers s !! channel = Some (joined_consumer channel u l) →
  live_session s (lobby_pk l) (user_id u).
Proof. intros Hc. exists channel, (joined_consumer channel u l), u. done. Qed.

Lemma live_session_delete (s : System) (w : World) (channel : Z) (u : User) (l : Lobby)
    (lid uid : Z) :
  consumers_joined s →
  consumers s !! channel = Some (joined_consumer channel u l) →
  live_session s lid uid →
  ¬ (lid = lobby_pk l ∧ Some (user_id u) = Some uid) →
  live_session (mkSystem w (delete channel (consumers s))) lid uid.
Proof.
  intros Hj Hc (ch' & self' & u' & Hc' & Hl' & Hu' & Hid) Hne.
  exists ch', self', u'. split_and!; try done. cbn [consumers].
  rewrite lookup_delete_ne; [done|]. intros <-.
  rewrite Hc in Hc'. simplify_eq. cbn in *. simplify_eq. tauto.
Qed.

Lemma live_session_world (s : System) (w : World) (lid uid : Z) :
  live_session s lid uid → live_session (mkSystem w (consumers s)) lid uid.
Proof. done. Qed.

(** The teardown of a live consumer keeps the invariant. *)
Lemma teardown_sound (dead : gset (Z * Z)) (s : System) (w1 : World) (channel : Z)
    (u : User) (l : Lobby) (code : Z) :
  consumers_joined s → presence_sound dead s →
  consumers s !! channel = Some (joined_consumer channel u l) →
  lobby_presence (cache w1) = lobby_presence (cache (world s)) →
  now w1 = now (world s) →
  presence_sound dead
    (mkSystem (world_of (disconnect (joined_consumer channel u l) code w1))
       (delete channel (consumers s))).
Proof.
  intros Hj Hp Hc Hpres Hnow lid uid.
  rewrite (disconnect_unfold _ (Authenticated u) (lobby_pk l) (lobby_group (lobby_pk l)))
    by done.
  unfold presence, world_of. cbn [fst snd world]. fold (online (unregistered w1 (lobby_pk l) (scope_user_id (Authenticated u))) lid).
  intros Hin. apply online_unregistered_elem in Hin as [Hin Hne].
  destruct (Hp lid uid) as [Hlive|Hdead].
  { unfold presence, online in *. by rewrite <- Hpres, <- Hnow. }
  - left. by apply (live_session_delete s _ channel u l).
  - by right.
Qed.

Lemma sys_handle_sound (dead : gset (Z * Z)) (s : System) (channel : Z)
    (self : LobbyConsumer) (h : M unit) :
  consumers_joined s → presence_sound dead s →
  consumers s !! channel = Some self →
  keeps_presence h →
  returns (result_of (h (world s))) = true →
  consumers_joined (sys_handle s self h).1 ∧
  presence_sound dead (sys_handle s self h).1.
Proof.
  intros Hj Hp Hc Hk Hr.
  destruct (Hj _ _ Hc) as (u & l & ->).
  unfold sys_handle. specialize (Hk (world s)).
  destruct (h (world s)) as [[[[]|e] w1] es]; [|done].
  unfold world_of in Hk. cbn [fst snd] in Hk. destruct Hk as [Hpres Hnow].
  destruct (closes es).
  - pose proof (teardown_sound dead s w1 channel u l 4003 Hj Hp Hc Hpres Hnow) as Ht.
    destruct (disconnect (joined_consumer channel u l) 4003 w1) as [[r w2] es2].
    cbn [fst snd channel_name joined_consumer] in *. split; [|exact Ht].
    intros ch' self' Hc'. cbn [consumers] in Hc'.
    apply lookup_delete_Some in Hc' as [_ Hc']. by apply Hj.
  - cbn [fst]. split; [exact Hj|].
    intros lid uid Hin.
    destruct (Hp lid uid) as [Hlive|Hdead]; [|by left; apply live_session_world|by right].
    unfold presence in *. cbn [world] in Hin. by rewrite <- Hpres, <- Hnow.
Qed.

(** A consumer that dies of an exception leaves its user in the presence
    set and joins the dead. *)
Lemma sys_handle_raise_sound (dead : gset (Z * Z)) (s : System) (channel : Z)
    (self : LobbyConsumer) (lid : Z) (u : User) (h : M unit) :
  consumers_joined s → presence_sound dead s →
  consumers s !! channel = Some self →
  lobby_id self = Some lid → user self = Some (Authenticated u) →
  keeps_presence h →
  returns (result_of (h (world s))) = false →
  consumers_joined (sys_handle s self h).1 ∧
  presence_sound ({[(lid, user_id u)]} ∪ dead) (sys_handle s self h).1.
Proof.
  intros Hj Hp Hc Hl Hu Hk Hr.
  destruct (Hj _ _ Hc) as (u' & l' & ->). cbn in Hl, Hu. simplify_eq.
  unfold sys_handle. specialize (Hk (world s)).
  destruct (h (world s)) as [[[[]|e] w1] es]; [done|].
  unfold world_of in Hk. cbn [fst snd] in Hk. destruct Hk as [Hpres Hnow].
  cbn [fst channel_name joined_consumer]. split.
  - intros ch' self' Hc'. cbn [consumers] in Hc'.
    apply lookup_delete_Some in Hc' as [_ Hc']. by apply Hj.
  - intros lid uid Hin.
    destruct (Hp lid uid) as [Hlive|Hdead].
    { unfold presence in *. cbn [world] in Hin. by rewrite <- Hpres, <- Hnow. }
    + destruct (decide (lid = lobby_pk l' ∧ Some (user_id u) = Some uid))
        as [[-> [= <-]]|Hne].
      * right. set_solver.
      * left. by apply (live_session_delete s _ channel u l').
    + right. set_solver.
Qed.

(** The teardown of a consumer that was never accepted keeps the invariant. *)
Lemma rejected_sound (dead : gset (Z * Z)) (s : System) (self : LobbyConsumer)
    (su : ScopeUser) (lid : Z) (group : group_name) (code : Z) :
  presence_sound dead s →
  lobby_id self = Some lid → user self = Some su → lobby_group_name self = Some group →
  presence_sound dead
    (mkSystem (world_of (disconnect self code (world s))) (consumers s)).
Proof.
  intros Hp Hl Hu Hg lid' uid'. rewrite (disconnect_unfold self su lid group) by done.
  unfold presence, world_of. cbn [fst snd world].
  fold (online (unregistered (world s) lid (scope_user_id su)) lid').
  intros Hin. apply online_unregistered_elem in Hin as [Hin _].
  destruct (Hp lid' uid' Hin) as [Hlive|Hdead]; [by left|by right].
Qed.

Lemma sys_connect_sound (dead : gset (Z * Z)) (s : System) (channel lid : Z) (t : Token) :
  consumers_joined s → presence_sound dead s →
  consumers s !! channel = None →
  consumers_joined (sys_connect s channel lid t).1 ∧
  presence_sound dead (sys_connect s channel lid t).1.
Proof.
  intros Hj Hp Hfresh. unfold sys_connect. rewrite connect_unfold. cbn zeta.
  cbn [url_lobby_id scope_user].
  destruct (JWTAuthMiddleware (db (world s)) t) as [|u].
  { cbn [closes existsb is_close orb].
    pose proof (rejected_sound dead s
                  (mkLobbyConsumer channel (Some lid) (Some (lobby_group lid))
                     (Some AnonymousUser) None)
                  AnonymousUser lid (lobby_group lid) 1006 Hp eq_refl eq_refl eq_refl) as Hr.
    destruct (disconnect _ 1006 (world s)) as [[r w2] es2]. by split. }
  destruct (get_lobby_row (db (world s)) lid) as [l|] eqn:Hl.
  2:{ cbn [closes existsb is_close orb].
      pose proof (rejected_sound dead s
                    (mkLobbyConsumer channel (Some lid) (Some (lobby_group lid))
                       (Some (Authenticated u)) None)
                    (Authenticated u) lid (lobby_group lid) 1006 Hp eq_refl eq_refl eq_refl)
        as Hr.
      destruct (disconnect _ 1006 (world s)) as [[r w2] es2]. by split. }
  pose proof (get_lobby_row_pk _ _ _ Hl) as Hpk.
  destruct (can_join (db (world s)) l u).1.
  2:{ cbn [closes existsb is_close orb].
      pose proof (rejected_sound dead s (joined_consumer channel u l)
                    (Authenticated u) (lobby_pk l) (lobby_group (lobby_pk l)) 1006 Hp
                    eq_refl eq_refl eq_refl) as Hr.
      destruct (disconnect _ 1006 (world s)) as [[r w2] es2]. by split. }
  cbn [closes existsb is_close orb presence_list_frame fst]. split.
  - intros ch' self' Hc'. cbn [consumers] in Hc'.
    destruct (decide (ch' = channel)) as [->|Hne].
    + rewrite lookup_insert_eq in Hc'. simplify_eq. eauto.
    + rewrite lookup_insert_ne in Hc' by done. by apply Hj.
  - intros lid' uid'. unfold presence. cbn [world].
    fold (online (registered (world s) lid (user_id u)) lid'). intros Hin.
    apply online_registered_elem in Hin as [[-> ->]|Hin].
    + left. exists channel, (joined_consumer channel u l), u. cbn [consumers].
      rewrite lookup_insert_eq. by rewrite <- Hpk.
    + destruct (Hp lid' uid' Hin) as [(ch' & self' & u' & Hc' & ?)|Hdead]; [|by right].
      left. exists ch', self', u'. split; [|done]. cbn [consumers].
      rewrite lookup_insert_ne; [done|]. intros <-. congruence.
Qed.

Lemma sys_disconnect_sound (dead : gset (Z * Z)) (s : System) (channel : Z)
    (self : LobbyConsumer) (code : Z) :
  consumers_joined s → presence_sound dead s →
  consumers s !! channel = Some self →
  consumers_joined (sys_disconnect s self code).1 ∧
  presence_sound dead (sys_disconnect s self code).1.
Proof.
  intros Hj Hp Hc. destruct (Hj _ _ Hc) as (u & l & ->). unfold sys_disconnect.
  pose proof (teardown_sound dead s (world s) channel u l code Hj Hp Hc eq_refl eq_refl)
    as Ht.
  destruct (disconnect (joined_consumer channel u l) code (world s)) as [[r w2] es2].
  cbn [fst snd channel_name joined_consumer] in *. split; [|exact Ht].
  intros ch' self' Hc'. cbn [consumers] in Hc'.
  apply lookup_delete_Some in Hc' as [_ Hc']. by apply Hj.
Qed.

Lemma online_later (w : World) (t lid uid : Z) :
  now w ≤ t → uid ∈ online (mkWorld (db w) (cache w) t) lid → uid ∈ online w lid.
Proof.
  intros Ht. unfold online, cache_get. cbn [cache now].
  destruct (lobby_presence (cache w) !! lid) as [e|]; [|done].
  destruct (Z.ltb_spec t (expires_at e)); [|set_solver].
  by rewrite (proj2 (Z.ltb_lt _ _)) by lia.
Qed.

Lemma graceful_step_step (s s' : System) : graceful_step s s' → step s s'.
Proof. destruct 1; by econstructor. Qed.

Lemma graceful_step_sound (dead : gset (Z * Z)) (s s' : System) :
  graceful_step s s' →
  consumers_joined s ∧ presence_sound dead s →
  consumers_joined s' ∧ presence_sound dead s'.
Proof.
  intros Hstep [Hj Hp]. destruct Hstep as
    [s channel lid t Hfresh | s channel self text Hc Hr | s channel self event Hc Hr
    | s channel self code Hc | s d | s t Ht].
  - by apply sys_connect_sound.
  - apply (sys_handle_sound dead s channel); try done. apply keeps_receive.
  - apply (sys_handle_sound dead s channel); try done. apply keeps_dispatch.
  - by apply (sys_disconnect_sound dead s channel).
  - split; [exact Hj|]. intros lid uid Hin.
    destruct (Hp lid uid Hin) as [Hlive|Hdead]; [by left|by right].
  - split; [exact Hj|]. intros lid uid Hin.
    destruct (Hp lid uid) as [Hlive|Hdead]; [|by left|by right].
    unfold presence in *. cbn [world] in Hin. by apply (online_later _ t).
Qed.

Lemma reachable_with_sound (dead : gset (Z * Z)) (s : System) :
  reachable_with dead s → consumers_joined s ∧ presence_sound dead s.
Proof.
  induction 1 as [d t | dead s s' _ IH Hstep
                 | dead s channel self text lid u _ [Hj Hp] Hc Hr Hl Hu
                 | dead s channel self event lid u _ [Hj Hp] Hc Hr Hl Hu].
  - split.
    + intros ch self Hc. cbn in Hc. by rewrite lookup_empty in Hc.
    + intros lid uid Hin. unfold presence, initial, cache_get in Hin. cbn in Hin.
      rewrite lookup_empty in Hin. set_solver.
  - by apply (graceful_step_sound dead s s').
  - apply (sys_handle_raise_sound dead s channel); try done. apply keeps_receive.
  - apply (sys_handle_raise_sound dead s channel); try done. apply keeps_dispatch.
Qed.

Lemma reachable_with_reachable (dead : gset (Z * Z)) (s : System) :
  reachable_with dead s → reachable s.
Proof.
  induction 1 as [d t | dead s s' _ IH Hstep
                 | dead s channel self text lid u _ IH Hc Hr Hl Hu
                 | dead s channel self event lid u _ IH Hc Hr Hl Hu].
  - constructor.
  - eapply reachable_step; [exact IH|]. by apply graceful_step_step.
  - eapply reachable_step; [exact IH|]. by apply (step_receive _ channel).
  - eapply reachable_step; [exact IH|]. by apply (step_event _ channel).
Qed.

Lemma reachable_reachable_with (s : System) :
  reachable s → ∃ dead, reachable_with dead s.
Proof.
  induction 1 as [d t | s s' _ [dead IH] Hstep]; [exists ∅; constructor|].
  destruct (reachable_with_sound dead s IH) as [Hj _].
  destruct Hstep as
    [s channel lid t Hfresh | s channel self text Hc | s channel self event Hc
    | s channel self code Hc | s d | s t Ht].
  - exists dead. eapply with_graceful_step; [exact IH|]. by constructor.
  - destruct (returns (result_of (receive self text (world s)))) eqn:Hr.
    + exists dead. eapply with_graceful_step; [exact IH|]. by econstructor.
    + destruct (Hj _ _ Hc) as (u & l & ->).
      exists ({[(lobby_pk l, user_id u)]} ∪ dead).
      by apply (with_frame_exception dead s channel).
  - destruct (returns (result_of (dispatch self event (world s)))) eqn:Hr.
    + exists dead. eapply with_graceful_step; [exact IH|]. by econstructor.
    + destruct (Hj _ _ Hc) as (u & l & ->).
      exists ({[(lobby_pk l, user_id u)]} ∪ dead).
      by apply (with_event_exception dead s channel).
  - exists dead. eapply with_graceful_step; [exact IH|]. by econstructor.
  - exists dead. eapply with_graceful_step; [exact IH|]. by constructor.
  - exists dead. eapply with_graceful_step; [exact IH|]. by constructor.
Qed.

(** C6 (as amended). Every reachable state is reached with a set [dead] of
    (lobby, user) pairs, those of the consumers that have died of an
    exception in a handler on the way, and there a user id is in the
    presence set of a lobby only if a live connection of that user to that
    lobby exists or the pair is among the dead.  In particular, where no
    consumer has died of an exception, a user id is in the presence set of a
    lobby only if a live connection of that user to that lobby exists. *)
Theorem presence_only_live (s : System) :
  reachable s →
  (∃ dead, reachable_with dead s) ∧
  (∀ dead, reachable_with dead s →
     ∀ lid uid, uid ∈ presence s lid → live_session s lid uid ∨ (lid, uid) ∈ dead) ∧
  (reachable_with ∅ s →
     ∀ lid uid, uid ∈ presence s lid → live_session s lid uid).
Proof.
  intros Hr. split_and!.
  - by apply reachable_reachable_with.
  - intros dead Hd. by destruct (reachable_with_sound dead s Hd) as [_ Hp].
  - intros Hd lid uid Hin. destruct (reachable_with_sound ∅ s Hd) as [_ Hp].
    destruct (Hp lid uid Hin) as [Hlive|Hdead]; [done|set_solver].
Qed.

Lemma alice_connected_gracefully : reachable_with ∅ alice_connected.
Proof.
  unfold alice_connected. eapply with_graceful_step; [apply with_initial|].
  by apply graceful_connect.
Qed.

Lemma alice_connected_reachable : reachable alice_connected.
Proof. apply (reachable_with_reachable ∅), alice_connected_gracefully. Qed.

Lemma presence_only_live_witness :
  reachable alice_connected ∧
  reachable_with ∅ alice_connected ∧
  ∀ lid uid, uid ∈ presence alice_connected lid → live_session alice_connected lid uid.
Proof.
  split; [exact alice_connected_reachable|].
  split; [exact alice_connected_gracefully|].
  exact (proj2 (proj2 (presence_only_live alice_connected alice_connected_reachable))
           alice_connected_gracefully).
Defined.

(** C6, counterexample to the claim as stated.  The presence set is a set
    of user ids without a count of connections: when alice holds two live
    connections to lobby 1 and one of them disconnects, her id leaves the
    presence set although the other connection is live (no consumer has
    died on the way).  A socket of hers that is refused (it never joined)
    removes her id as well.  And when her only socket is sent a binary
    frame, its consumer dies of the exception without [disconnect]: her id
    stays in the presence set and no connection of hers is live. *)
Lemma presence_iff_live_counterexample :
  (reachable_with ∅ alice_once_left ∧
   live_session alice_once_left 1 7 ∧
   7 ∉ presence alice_once_left 1) ∧
  (reachable alice_refused ∧
   live_session alice_refused 1 7 ∧
   7 ∈ presence alice_member 1 ∧
   7 ∉ presence alice_refused 1) ∧
  (reachable_with {[(1, 7)]} alice_crashed.1 ∧
   7 ∈ presence alice_crashed.1 1 ∧
   ¬ live_session alice_crashed.1 1 7) ∧
  ¬ (∀ s, reachable s → ∀ lid uid, uid ∈ presence s lid ↔ live_session s lid uid) ∧
  ¬ (∀ s, reachable s → ∀ lid uid, uid ∈ presence s lid → live_session s lid uid).
Proof.
  assert (reachable_with ∅ alice_twice) as Htwice.
  { unfold alice_twice. eapply with_graceful_step; [apply alice_connected_gracefully|].
    apply graceful_connect. vm_compute. reflexivity. }
  assert (reachable_with ∅ alice_once_left) as Hleft.
  { unfold alice_once_left. eapply with_graceful_step; [apply Htwice|].
    apply (graceful_disconnect _ 4). vm_compute. reflexivity. }
  assert (live_session alice_once_left 1 7) as Hlive.
  { exists 3, (joined_consumer 3 alice test_lobby), alice.
    split_and!; vm_compute; reflexivity. }
  assert (7 ∉ presence alice_once_left 1) as Hout.
  { assert (presence alice_once_left 1 = ∅) as -> by (vm_compute; reflexivity).
    set_solver. }
  assert (reachable alice_refused) as Hrefused.
  { unfold alice_refused. eapply reachable_step.
    - eapply reachable_step; [apply alice_connected_reachable|].
      apply (step_db alice_connected).
    - apply step_connect. vm_compute. reflexivity. }
  assert (live_session alice_refused 1 7) as Hlive'.
  { exists 3, (joined_consumer 3 alice test_lobby), alice.
    split_and!; vm_compute; reflexivity. }
  assert (7 ∈ presence alice_member 1) as Hin.
  { assert (presence alice_member 1 = {[7]}) as -> by (vm_compute; reflexivity).
    set_solver. }
  assert (7 ∉ presence alice_refused 1) as Hout'.
  { assert (presence alice_refused 1 = ∅) as -> by (vm_compute; reflexivity).
    set_solver. }
  assert (reachable_with {[(1, 7)]} alice_crashed.1) as Hcrashed.
  { unfold alice_crashed.
    replace ({[(1, 7)]} : gset (Z * Z))
      with ({[(1, user_id alice)]} ∪ ∅ : gset (Z * Z)) by set_solver.
    apply (with_frame_exception ∅ alice_connected 3 alice_consumer BinaryFrame 1 alice);
      [exact alice_connected_gracefully|vm_compute; reflexivity..]. }
  assert (7 ∈ presence alice_crashed.1 1) as Hstale.
  { assert (presence alice_crashed.1 1 = {[7]}) as -> by (vm_compute; reflexivity).
    set_solver. }
  assert (¬ live_session alice_crashed.1 1 7) as Hdead.
  { intros (ch & self & u & Hc & _).
    assert (consumers alice_crashed.1 = ∅) as Hnone by (vm_compute; reflexivity).
    rewrite Hnone in Hc. by rewrite lookup_empty in Hc. }
  split_and!; try assumption.
  - apply reachable_with_reachable in Hleft.
    intros Hall. apply Hout. by apply (Hall alice_once_left Hleft 1 7).
  - apply reachable_with_reachable in Hcrashed.
    intros Hall. apply Hdead. by apply (Hall alice_crashed.1 Hcrashed 1 7).
Qed.

(** ** Teardown *)

Lemma connect_attributes (channel : Z) (scope : Scope) (w0 : World) (self : LobbyConsumer) :
  result_of (connect (new_consumer channel) scope w0) = inl self →
  channel_name self = channel ∧
  lobby_id self = Some (url_lobby_id scope) ∧
  lobby_group_name self = Some (lobby_group (url_lobby_id scope)) ∧
  user self = Some (scope_user scope).
Proof.
  rewrite connect_unfold. cbn zeta. unfold result_of.
  destruct (scope_user scope) as [|u]; cbn [fst].
  { intros [= <-]. done. }
  destruct (get_lobby_row (db w0) (url_lobby_id scope)) as [l|] eqn:Hl; cbn [fst].
  2:{ intros [= <-]. done. }
  pose proof (get_lobby_row_pk _ _ _ Hl) as Hpk.
  destruct (can_join (db w0) l u).1; cbn [fst]; intros [= <-];
    unfold joined_consumer; cbn; by rewrite Hpk.
Qed.


Lemma unregistered_db (w : World) (lid : Z) (x : option Z) :
  db (unregistered w lid x) = db w.
Proof. unfold unregistered. by case_bool_decide. Qed.



(** The teardown of alice's accepted socket, effect by effect. *)
Example alice_leaves :
  effects_of (disconnect alice_consumer 1006 (sample_world 5)) =
    [GroupSend (lobby_group 1)
       [("type", JStr (py "presence_leave")); ("user_id", JInt 7);
        ("username", JStr (py "alice"))];
     GroupDiscard (lobby_group 1) 3].
Proof. vm_compute. reflexivity. Qed.


(** ** Delivery to the group *)

Lemma sys_group_send_fold (s : System) (g : group_name) (event : list (string * json)) :
  sys_group_send s g event = foldl (deliver event) (s, []) (group_members s g).
Proof. reflexivity. Qed.

Lemma deliver_ban (event : list (string * json)) (target : Z)
    (acc : System * list (Z * list effect)) (channel : Z) (u : User) (l : Lobby) :
  dict_get event "type" = Some (JStr (py "moderation_ban")) →
  dict_get event "target_id" = Some (JInt target) →
  let self := joined_consumer channel u l in
  ∃ w, deliver event acc self =
         (mkSystem w (if is_target target self then delete channel (consumers acc.1)
                      else consumers acc.1),
          acc.2 ++ [(channel, ban_delivery target event self)]).
Proof.
  intros Hty Ht self. unfold deliver, sys_handle, ban_delivery.
  rewrite (dispatch_moderation_ban _ _ Hty),
    (moderation_ban_unfold self u event target (world acc.1) eq_refl Ht).
  unfold is_target. cbn [user self joined_consumer].
  destruct (target =? user_id u).
  - cbn [closes existsb is_close orb].
    rewrite (disconnect_unfold self (Authenticated u) (lobby_pk l)
               (lobby_group (lobby_pk l))) by done.
    eexists. reflexivity.
  - cbn [closes existsb is_close orb]. destruct acc as [[w c] log]. eexists. reflexivity.
Qed.

Lemma deliver_ban_fold (event : list (string * json)) (target : Z)
    (members : list LobbyConsumer) (acc : System * list (Z * list effect)) :
  dict_get event "type" = Some (JStr (py "moderation_ban")) →
  dict_get event "target_id" = Some (JInt target) →
  Forall (λ self, ∃ u l, self = joined_consumer (channel_name self) u l) members →
  (foldl (deliver event) acc members).2 =
    acc.2 ++ ((λ self, (channel_name self, ban_delivery target event self)) <$> members) ∧
  ∀ channel,
    consumers (foldl (deliver event) acc members).1 !! channel =
      if existsb (hits target channel) members then None
      else consumers acc.1 !! channel.
Proof.
  intros Hty Ht Hjoined. revert acc.
  induction Hjoined as [|self members (u & l & Hself) _ IH]; intros acc.
  { cbn. by rewrite app_nil_r. }
  cbn [foldl]. rewrite Hself.
  destruct (deliver_ban event target acc (channel_name self) u l Hty Ht) as [w Hd].
  cbn zeta in Hd. rewrite Hd. rewrite <- Hself.
  destruct (IH (mkSystem w (if is_target target self
                            then delete (channel_name self) (consumers acc.1)
                            else consumers acc.1),
                acc.2 ++ [(channel_name self, ban_delivery target event self)]))
    as [IHlog IHcons].
  split.
  - rewrite IHlog. cbn [snd fmap list_fmap]. by rewrite <- app_assoc.
  - intros channel. rewrite IHcons. cbn [existsb fst consumers]. unfold hits at 2.
    destruct (existsb (hits target channel) members); [by rewrite orb_true_r|].
    rewrite orb_false_r. destruct (is_target target self).
    + case_bool_decide as Hch; cbn [andb].
      * rewrite <- Hch. apply lookup_delete_eq.
      * by rewrite lookup_delete_ne.
    + by rewrite andb_false_r.
Qed.

Lemma elem_of_group_members (s : System) (g : group_name) (self : LobbyConsumer) :
  self ∈ group_members s g ↔
  in_group g self = true ∧ ∃ channel, consumers s !! channel = Some self.
Proof.
  unfold group_members. rewrite list_elem_of_filter, list_elem_of_fmap.
  split.
  - intros [Hg ([ch self'] & -> & Hin)]. split; [done|]. exists ch.
    by apply elem_of_map_to_list.
  - intros [Hg [ch Hc]]. split; [done|]. exists (ch, self). split; [done|].
    by apply elem_of_map_to_list.
Qed.

(** A [moderation_ban] event sent to the group of a lobby: every consumer of
    the group is sent its frame; the consumers of the target user, and no
    others, are closed and leave the live consumers. *)
Lemma group_ban_closes_target_only (s : System) (g : group_name)
    (event : list (string * json)) (target : Z) :
  consumers_joined s →
  dict_get event "type" = Some (JStr (py "moderation_ban")) →
  dict_get event "target_id" = Some (JInt target) →
  (sys_group_send s g event).2 =
    (λ self, (channel_name self, ban_delivery target event self)) <$> group_members s g ∧
  ∀ channel self,
    consumers s !! channel = Some self →
    consumers (sys_group_send s g event).1 !! channel =
      if in_group g self && is_target target self then None else Some self.
Proof.
  intros Hj Hty Ht. rewrite sys_group_send_fold.
  assert (Forall (λ self, ∃ u l, self = joined_consumer (channel_name self) u l)
            (group_members s g)) as Hall.
  { apply Forall_forall. intros self [_ [ch Hc]]%elem_of_group_members.
    destruct (Hj _ _ Hc) as (u & l & ->). eauto. }
  destruct (deliver_ban_fold event target (group_members s g) (s, []) Hty Ht Hall)
    as [Hlog Hcons].
  split; [exact Hlog|]. intros channel self Hc. rewrite Hcons. cbn [fst]. rewrite Hc.
  assert (channel_name self = channel) as Hname
    by (destruct (Hj _ _ Hc) as (u & l & ->); done).
  destruct (in_group g self && is_target target self) eqn:E.
  - apply andb_true_iff in E as [Hg Htarget].
    assert (existsb (hits target channel) (group_members s g) = true) as ->; [|done].
    apply existsb_exists. exists self. split.
    + apply list_elem_of_In, elem_of_group_members. eauto.
    + unfold hits. rewrite Htarget, andb_true_r. by apply bool_decide_eq_true_2.
  - assert (existsb (hits target channel) (group_members s g) = false) as ->; [|done].
    apply not_true_is_false. intros (self' & Hin & Hhit)%existsb_exists.
    apply list_elem_of_In, elem_of_group_members in Hin as [Hg [ch' Hc']].
    unfold hits in Hhit. apply andb_true_iff in Hhit as [Hch Htarget].
    apply bool_decide_eq_true_1 in Hch.
    assert (ch' = channel) as -> by (destruct (Hj _ _ Hc') as (u & l & ->); done).
    rewrite Hc in Hc'. simplify_eq. by rewrite Hg, Htarget in E.
Qed.

(** The ban of alice reaches the three sockets of lobby 1: her two sockets
    are closed and torn down, bob's stays. *)
Example ban_of_alice_in_the_group :
  (sys_group_send three_sockets (lobby_group 1) ban_alice_event).2 =
    [(5, ban_delivery 7 ban_alice_event (joined_consumer 5 bob test_lobby));
     (3, ban_delivery 7 ban_alice_event (joined_consumer 3 alice test_lobby));
     (4, ban_delivery 7 ban_alice_event (joined_consumer 4 alice test_lobby))] ∧
  (sys_group_send three_sockets (lobby_group 1) ban_alice_event).2.*2 =
    [[Send (moderation_info "moderation_ban" (JInt 7) ban_alice_event)];
     [Send (moderation_self "moderation_ban" "You have been banned from the lobby"
              ban_alice_event);
      Close 4003;
      GroupSend (lobby_group 1) (presence_leave_event alice);
      GroupDiscard (lobby_group 1) 3];
     [Send (moderation_self "moderation_ban" "You have been banned from the lobby"
              ban_alice_event);
      Close 4003;
      GroupSend (lobby_group 1) (presence_leave_event alice);
      GroupDiscard (lobby_group 1) 4]] ∧
  consumers (sys_group_send three_sockets (lobby_group 1) ban_alice_event).1 =
    {[ 5 := joined_consumer 5 bob test_lobby ]}.
Proof. split_and!; vm_compute; reflexivity. Qed.

(** ** The REST actions *)

Lemma quiet_ask {A} (f : World → A) : quiet (ask f).
Proof. done. Qed.

Lemma quiet_update (f : World → World) :
  (∀ w, events (db (f w)) = events (db w) ∧ now (f w) = now w) → quiet (update f).
Proof. intros Hf w. specialize (Hf w). unfold update, world_of. cbn. tauto. Qed.

Lemma audited_response (ty : EventType) (pk : Z) (resp : Response) :
  status_code resp ≠ 200 → audited ty pk (mret resp).
Proof. intros Hs w. split; [done|]. exists resp. split; [done|]. by left. Qed.

Lemma audited_bind {A} (ty : EventType) (pk : Z) (m : M A) (f : A → M Response) :
  quiet m → (∀ a, audited ty pk (f a)) → audited ty pk (m ≫= f).
Proof.
  intros Hm Hf w. unfold mbind, M_bind.
  destruct (Hm w) as (Hr & He & Hev & Hnow).
  destruct (m w) as [[[a|e] w1] e1]; [|done].
  unfold effects_of, world_of, result_of in *. cbn [fst snd] in *. subst e1.
  destruct (Hf a w1) as (He2 & resp & Hres & Hcases).
  destruct (f a w1) as [[r w2] e2].
  unfold effects_of, world_of, result_of in *. cbn [fst snd] in *. subst e2 r.
  split; [done|]. exists resp. split; [done|].
  rewrite <- Hev, <- Hnow. exact Hcases.
Qed.

Lemma audited_log (ty : EventType) (pk actor : Z) (target : option Z)
    (text : pystr) (meta : list (string * json)) (reply : pystr) :
  audited ty pk (log_event pk ty actor target text meta;; mret (message_response reply)).
Proof.
  intros w. split; [done|]. exists (message_response reply). split; [done|]. right.
  split; [done|]. by eexists.
Qed.

Local Ltac audit :=
  repeat first
    [ apply audited_log
    | apply audited_response; discriminate
    | apply audited_bind;
        [ first [ apply quiet_ask | apply quiet_update; intros ?; split; reflexivity ]
        | intros ? ]
    | case_match
    | case_bool_decide ].

Lemma audited_detail_action (ty : EventType) (a : Action) (request : Request) (pk : Z)
    (body : User → Lobby → M Response) :
  (∀ u l, audited ty pk (body u l)) →
  audited ty pk (detail_action a request pk body).
Proof. intros Hb. unfold detail_action, error_response. audit; apply Hb. Qed.

Lemma audited_kick request pk : audited ev_kick pk (kick request pk).
Proof.
  apply audited_detail_action. intros u l. unfold error_response, serializer_errors. audit.
Qed.

Lemma audited_ban request pk : audited ev_ban pk (ban request pk).
Proof.
  apply audited_detail_action. intros u l. unfold error_response, serializer_errors. audit.
Qed.

Lemma audited_unban request pk : audited ev_unban pk (unban request pk).
Proof.
  apply audited_detail_action. intros u l. unfold error_response, serializer_errors. audit.
Qed.

Lemma audited_add_moderator request pk :
  audited ev_mod_add pk (add_moderator request pk).
Proof.
  apply audited_detail_action. intros u l. unfold error_response, serializer_errors. audit.
Qed.

Lemma audited_remove_moderator request pk :
  audited ev_mod_remove pk (remove_moderator request pk).
Proof.
  apply audited_detail_action. intros u l. unfold error_response, serializer_errors. audit.
Qed.

Lemma audited_transfer_ownership request pk :
  audited ev_transfer pk (transfer_ownership request pk).
Proof.
  apply audited_detail_action. intros u l. unfold error_response, serializer_errors. audit.
Qed.

Lemma audited_start request pk : audited ev_status_change pk (start request pk).
Proof. apply audited_detail_action. intros u l. audit. Qed.

Lemma audited_close request pk : audited ev_status_change pk (close request pk).
Proof. apply audited_detail_action. intros u l. audit. Qed.

Lemma audited_join request pk : audited ev_status_change pk (join request pk).
Proof. apply audited_detail_action. intros u l. unfold error_response. audit. Qed.

Lemma audited_leave request pk : audited ev_status_change pk (leave request pk).
Proof. apply audited_detail_action. intros u l. unfold error_response. audit. Qed.

(** What the eight moderation actions of the REST surface (kick, ban,
    unban, promote, demote, transfer, start, close) do beside their change
    of the tables: a successful action (status 200) appends exactly one
    [LobbyEvent] of its type for the lobby to the audit log, a failed one
    leaves the log as it was, and none of them sends anything to the
    channel layer. *)
Lemma moderation_actions_log_without_broadcast (ty : EventType)
    (view : Request → Z → M Response) (request : Request) (pk : Z) (w : World) :
  (ty, view) ∈ moderation_actions →
  effects_of (view request pk w) = [] ∧
  broadcasts (effects_of (view request pk w)) = false ∧
  ∃ resp, result_of (view request pk w) = inl resp ∧
    ((status_code resp ≠ 200 ∧
      events (db (world_of (view request pk w))) = events (db w)) ∨
     (status_code resp = 200 ∧
      ∃ e, events (db (world_of (view request pk w))) = events (db w) ++ [e] ∧
           event_type e = ty ∧ event_lobby e = pk ∧ event_created_at e = now w)).
Proof.
  intros Hin.
  assert (audited ty pk (view request pk)) as Ha.
  { unfold moderation_actions in Hin.
    apply elem_of_cons in Hin as [[= -> ->]|Hin]; [exact (audited_kick _ _)|].
    apply elem_of_cons in Hin as [[= -> ->]|Hin]; [exact (audited_ban _ _)|].
    apply elem_of_cons in Hin as [[= -> ->]|Hin]; [exact (audited_unban _ _)|].
    apply elem_of_cons in Hin as [[= -> ->]|Hin]; [exact (audited_add_moderator _ _)|].
    apply elem_of_cons in Hin as [[= -> ->]|Hin]; [exact (audited_remove_moderator _ _)|].
    apply elem_of_cons in Hin as [[= -> ->]|Hin]; [exact (audited_transfer_ownership _ _)|].
    apply elem_of_cons in Hin as [[= -> ->]|Hin]; [exact (audited_start _ _)|].
    apply elem_of_cons in Hin as [[= -> ->]|Hin]; [exact (audited_close _ _)|].
    by apply elem_of_nil in Hin. }
  destruct (Ha w) as [He Hr]. rewrite He. done.
Qed.

(** C3, the code at the failing input.  carol's ban of alice in lobby 1
    is answered with 200, her ban is recorded and one [ban] event is logged,
    and nothing is sent to the channel layer: no [moderation_ban] event
    reaches the group of the lobby, for which the consumers of the lobby
    have a handler. *)
Lemma rest_ban_sends_nothing :
  result_of (ban ban_request 1 (sample_world 0)) =
    inl (message_response (py "User alice banned successfully")) ∧
  ban_exists (db (world_of (ban ban_request 1 (sample_world 0)))) 1 7 = true ∧
  event_type <$> events (db (world_of (ban ban_request 1 (sample_world 0)))) = [ev_ban] ∧
  effects_of (ban ban_request 1 (sample_world 0)) = [] ∧
  ¬ (∃ group event,
       GroupSend group event ∈ effects_of (ban ban_request 1 (sample_world 0))) ∧
  (∀ w, closes (effects_of (dispatch alice_consumer ban_alice_event w)) = true).
Proof.
  assert (effects_of (ban ban_request 1 (sample_world 0)) = []) as He
    by (vm_compute; reflexivity).
  split_and!; try (vm_compute; reflexivity).
  rewrite He. intros (g & ev & Hin). by apply elem_of_nil in Hin.
Qed.

Lemma get_lobby_row_is_Some (d : DB) (pk : Z) :
  is_Some (get_lobby_row d pk) ↔ is_Some (lobbies d !! pk).
Proof. unfold get_lobby_row. by rewrite fmap_is_Some. Qed.

Lemma leave_unfold (request : Request) (pk : Z) (w : World) :
  leave request pk w =
    match request_user request with
    | AnonymousUser =>
        (inl (error_response 401 (py "Authentication credentials were not provided.")),
         w, [])
    | Authenticated u =>
        match get_lobby_row (db w) pk with
        | None => (inl (error_response 404 (py "Not found.")), w, [])
        | Some _ =>
            match memberships (db w) !! (pk, user_id u) with
            | Some role =>
                if bool_decide (role = owner) then
                  (inl (error_response 400
                          (py "Owner cannot leave lobby. Transfer ownership first.")),
                   w, [])
                else (inl (message_response (py "Left lobby successfully")),
                      left_world w pk u, [])
            | None => (inl (error_response 400 (py "Not in lobby")), w, [])
            end
        end
    end.
Proof.
  unfold leave, detail_action.
  destruct (request_user request) as [|u]; [reflexivity|].
  cbn [get_permissions forallb has_permission is_authenticated andb].
  unfold mbind, M_bind, ask, mret, M_ret. cbn [fst snd].
  destruct (get_lobby_row (db w) pk) as [l|]; [|reflexivity].
  cbn [forallb has_object_permission andb].
  destruct (memberships (db w) !! (pk, user_id u)) as [role|]; [|reflexivity].
  case_bool_decide; reflexivity.
Qed.

(** C10. [leave] by the owner of a lobby fails with an error and changes
    nothing: no membership is deleted.  Every failed [leave] leaves the
    world as it was; [leave] succeeds exactly for an authenticated member of
    an existing lobby whose role is not [owner], and then deletes that
    member's own membership. *)
Theorem leave_owner_cannot_leave (request : Request) (pk : Z) (w : World) :
  let r := leave request pk w in
  (∀ u, request_user request = Authenticated u →
        memberships (db w) !! (pk, user_id u) = Some owner →
        ∃ resp, r = (inl resp, w, []) ∧ status_code resp ≠ 200 ∧
          (is_Some (lobbies (db w) !! pk) →
           resp = error_response 400
                    (py "Owner cannot leave lobby. Transfer ownership first."))) ∧
  (∀ resp, result_of r = inl resp → status_code resp ≠ 200 → world_of r = w) ∧
  (∀ resp, result_of r = inl resp → status_code resp = 200 →
     ∃ u role,
       request_user request = Authenticated u ∧
       is_Some (lobbies (db w) !! pk) ∧
       memberships (db w) !! (pk, user_id u) = Some role ∧ role ≠ owner ∧
       memberships (db (world_of r)) = delete (pk, user_id u) (memberships (db w)) ∧
       memberships (db (world_of r)) !! (pk, user_id u) = None) ∧
  (∀ u role,
     request_user request = Authenticated u →
     is_Some (lobbies (db w) !! pk) →
     memberships (db w) !! (pk, user_id u) = Some role → role ≠ owner →
     result_of r = inl (message_response (py "Left lobby successfully"))).
Proof.
  intros r. subst r. rewrite leave_unfold. unfold result_of, world_of.
  destruct (request_user request) as [|u].
  { cbn [fst snd]. split_and!; intros; simplify_eq/=; try done. }
  pose proof (get_lobby_row_is_Some (db w) pk) as Hrow.
  destruct (get_lobby_row (db w) pk) as [l|].
  2:{ assert (¬ is_Some (lobbies (db w) !! pk)) as Hno
        by (rewrite <- Hrow; by intros [? ?]).
      cbn [fst snd]. split_and!; intros; simplify_eq/=; try done.
      eexists. split; [reflexivity|]. split; [done|]. intros; tauto. }
  assert (is_Some (lobbies (db w) !! pk)) as Hyes by (apply Hrow; eauto).
  destruct (memberships (db w) !! (pk, user_id u)) as [role|] eqn:Hm.
  2:{ cbn [fst snd]. split_and!; intros; simplify_eq/=; try done. }
  case_bool_decide as Hrole; cbn [fst snd].
  - subst role. split_and!; intros; simplify_eq/=; try done.
    eexists. split; [reflexivity|]. done.
  - split_and!; intros; simplify_eq/=; try done.
    exists u, role. split_and!; try done. apply lookup_delete_eq.
Qed.

Lemma get_user_row_id (d : DB) (uid : Z) (u : User) :
  get_user_row d uid = Some u → user_id u = uid.
Proof. unfold get_user_row. destruct (users d !! uid); intros; by simplify_eq/=. Qed.

Lemma validated_user_id_exists (d : DB) (data : RequestData) (uid : Z) :
  validated_user_id d data = Some uid → is_Some (get_user_row d uid).
Proof.
  unfold validated_user_id, get_user_row. intros Hv. repeat case_match; simplify_eq.
  rewrite fmap_is_Some. by eapply bool_decide_eq_true_1.
Qed.

Lemma ban_unfold (request : Request) (pk : Z) (w : World) :
  ban request pk w =
    match request_user request with
    | AnonymousUser =>
        (inl (error_response 401 (py "Authentication credentials were not provided.")),
         w, [])
    | Authenticated actor =>
        match get_lobby_row (db w) pk with
        | None => (inl (error_response 404 (py "Not found.")), w, [])
        | Some lobby =>
            match validated_user_id (db w) (request_data request),
                  validated_reason (request_data request) with
            | Some uid, Some reason =>
                match get_user_row (db w) uid with
                | None => (inl (error_response 404 (py "User not found")), w, [])
                | Some u =>
                    if bool_decide (lobby_owner lobby = uid) then
                      (inl (error_response 400 (py "Cannot ban lobby owner")), w, [])
                    else
                      match bans (db w) !! (pk, uid) with
                      | None =>
                          (inl (message_response
                                  (py "User " ++ username u ++ py " banned successfully")),
                           set_db (banned_db (db w) pk actor u reason (now w)) w, [])
                      | Some _ =>
                          (inl (error_response 400 (py "User already banned")),
                           set_db (set_memberships
                                     (delete (pk, uid) (memberships (db w))) (db w)) w,
                           [])
                      end
                end
            | _, _ => (inl serializer_errors, w, [])
            end
        end
    end.
Proof.
  unfold ban, detail_action.
  destruct (request_user request) as [|actor]; [reflexivity|].
  cbn [get_permissions forallb has_permission is_authenticated andb].
  unfold mbind, M_bind, ask, mret, M_ret. cbn [fst snd].
  destruct (get_lobby_row (db w) pk) as [lobby|]; [|reflexivity].
  cbn [forallb has_object_permission andb].
  destruct (validated_user_id (db w) (request_data request)) as [uid|]; [|reflexivity].
  destruct (validated_reason (request_data request)) as [reason|]; [|reflexivity].
  destruct (get_user_row (db w) uid) as [u|] eqn:Hu; [|reflexivity].
  pose proof (get_user_row_id _ _ _ Hu) as Hid.
  case_bool_decide; [reflexivity|].
  unfold update. cbn [fst snd set_db set_memberships db bans].
  destruct (bans (db w) !! (pk, uid)) as [b|]; [reflexivity|].
  unfold banned_db, ban_event. rewrite Hid. reflexivity.
Qed.

(** C9. A successful [ban] of user [u] in lobby [pk] first deletes the
    membership of [(pk, u)], then creates the ban: afterwards [u] is banned
    and holds no membership.  A successful ban was not banned before; when
    [u] is banned already, [ban] answers "User already banned" and the ban
    table is left as it was (no second ban), the membership being deleted
    all the same. *)
Theorem ban_removes_membership (request : Request) (pk : Z) (w : World) :
  let r := ban request pk w in
  (∀ resp, result_of r = inl resp → status_code resp = 200 →
     ∃ actor u reason,
       request_user request = Authenticated actor ∧
       validated_user_id (db w) (request_data request) = Some (user_id u) ∧
       bans (db w) !! (pk, user_id u) = None ∧
       db (world_of r) = banned_db (db w) pk actor u reason (now w) ∧
       memberships (db (world_of r)) = delete (pk, user_id u) (memberships (db w)) ∧
       bans (db (world_of r)) =
         <[(pk, user_id u) := mkLobbyBan reason (user_id actor) (now w)]> (bans (db w)) ∧
       membership_exists (db (world_of r)) pk (user_id u) = false ∧
       ban_exists (db (world_of r)) pk (user_id u) = true) ∧
  (∀ actor lobby uid reason b,
     request_user request = Authenticated actor →
     get_lobby_row (db w) pk = Some lobby →
     validated_user_id (db w) (request_data request) = Some uid →
     validated_reason (request_data request) = Some reason →
     lobby_owner lobby ≠ uid →
     bans (db w) !! (pk, uid) = Some b →
       result_of r = inl (error_response 400 (py "User already banned")) ∧
       bans (db (world_of r)) = bans (db w) ∧
       membership_exists (db (world_of r)) pk uid = false ∧
       ban_exists (db (world_of r)) pk uid = true) ∧
  (∀ actor lobby uid reason,
     request_user request = Authenticated actor →
     get_lobby_row (db w) pk = Some lobby →
     validated_user_id (db w) (request_data request) = Some uid →
     validated_reason (request_data request) = Some reason →
     lobby_owner lobby ≠ uid →
     bans (db w) !! (pk, uid) = None →
       ∃ resp, result_of r = inl resp ∧ status_code resp = 200).
Proof.
  intros r. subst r. rewrite ban_unfold. unfold result_of, world_of.
  destruct (request_user request) as [|actor].
  { cbn [fst snd]. split_and!; intros; simplify_eq/=. }
  destruct (get_lobby_row (db w) pk) as [lobby|].
  2:{ cbn [fst snd]. split_and!; intros; simplify_eq/=. }
  destruct (validated_user_id (db w) (request_data request)) as [uid|] eqn:Hv.
  2:{ cbn [fst snd]. split_and!; intros; simplify_eq/=. }
  destruct (validated_reason (request_data request)) as [reason|].
  2:{ cbn [fst snd]. split_and!; intros; simplify_eq/=. }
  destruct (validated_user_id_exists _ _ _ Hv) as [u Hu]. rewrite Hu.
  pose proof (get_user_row_id _ _ _ Hu) as Hid.
  case_bool_decide as Howner.
  { cbn [fst snd]. split_and!; intros; simplify_eq/=. }
  destruct (bans (db w) !! (pk, uid)) as [b|] eqn:Hb; cbn [fst snd].
  - split_and!; intros; simplify_eq/=.
    split_and!; try done.
    + unfold membership_exists. cbn. rewrite lookup_delete_eq.
      apply bool_decide_eq_false_2. by intros [? ?].
    + unfold ban_exists. cbn. rewrite Hb. by apply bool_decide_eq_true_2.
  - split_and!; intros; simplify_eq/=; [|eauto].
    exists actor, u, reason. split_and!; try done.
    + unfold membership_exists. cbn. rewrite lookup_delete_eq.
      apply bool_decide_eq_false_2. by intros [? ?].
    + unfold ban_exists. cbn. rewrite lookup_insert_eq. by apply bool_decide_eq_true_2.
Qed.

(** * Further properties of the code *)

(** ** Inbound frames *)

Lemma try_except_inl {A} (m : M A) (h : pystr → M A) (w w1 : World) (a : A)
    (es : list effect) :
  m w = (inl a, w1, es) → try_except m h w = (inl a, w1, es).
Proof. intros Hm. unfold try_except. by rewrite Hm. Qed.

Lemma try_except_inr {A} (m : M A) (h : pystr → M A) (w w1 : World) (e : pystr) :
  m w = (inr e, w1, []) → try_except m h w = h e w1.
Proof.
  intros Hm. unfold try_except. rewrite Hm. by destruct (h e w1) as [[r w2] es].
Qed.

(** X1. A frame that [receive] cannot use is answered with one [error]
    frame and changes nothing: "Invalid JSON" for text that is not JSON,
    "Error processing message: '<type>' object has no attribute 'get'" for
    JSON that is not an object, and "Unknown message type" for an object
    whose [type] is absent, not a string, or none of [chat_message],
    [typing_start] and [typing_stop]. *)
Theorem receive_malformed (self : LobbyConsumer) (w : World) :
  receive self InvalidJSON w = (inl tt, w, [error_frame "Invalid JSON"]) ∧
  (∀ data, (∀ d, data ≠ JDict d) →
     receive self (Parsed data) w =
       (inl tt, w, [exception_frame (attribute_error (type_name data) "get")])) ∧
  (∀ d, dict_get d "type" = None →
     receive self (Parsed (JDict d)) w =
       (inl tt, w, [error_frame "Unknown message type"])) ∧
  (∀ d v, dict_get d "type" = Some v → (∀ t, v = JStr t → known_type t = false) →
     receive self (Parsed (JDict d)) w =
       (inl tt, w, [error_frame "Unknown message type"])).
Proof.
  split_and!.
  - reflexivity.
  - intros data Hdata. unfold receive.
    rewrite (try_except_inr _ _ w w (attribute_error (type_name data) "get")).
    + reflexivity.
    + destruct data; try reflexivity. by destruct (Hdata d).
  - intros d Hd. unfold receive. rewrite Hd. reflexivity.
  - intros d v Hd Hv. unfold receive. rewrite Hd.
    destruct v as [| | |t| | |]; try reflexivity.
    specialize (Hv t eq_refl). unfold known_type in Hv.
    apply orb_false_iff in Hv as [Hv H3]. apply orb_false_iff in Hv as [H1 H2].
    rewrite H1, H2, H3. reflexivity.
Qed.

Lemma handle_chat_message_raises (self : LobbyConsumer) (d : list (string * json))
    (v : json) (w : World) :
  dict_get d "message" = Some v → (∀ s, v ≠ JStr s) →
  handle_chat_message self d w = (inr (attribute_error (type_name v) "strip"), w, []).
Proof.
  intros Hd Hv. unfold handle_chat_message. rewrite Hd.
  destruct v as [| | |s| | |]; try reflexivity. by destruct (Hv s).
Qed.

Lemma handle_chat_message_outcome (channel : Z) (u : User) (l : Lobby)
    (d : list (string * json)) (raw : pystr) (w : World) :
  dict_get d "message" = Some (JStr raw) ∨ (dict_get d "message" = None ∧ raw = []) →
  ∃ w1, result_of (handle_chat_message (joined_consumer channel u l) d w) = inl tt ∧
        world_of (handle_chat_message (joined_consumer channel u l) d w) = w1 ∧
        receive_outcome u l w
          (effects_of (handle_chat_message (joined_consumer channel u l) d w)).
Proof.
  intros Hraw. pose proof (handle_chat_message_unfold channel u l d raw w Hraw) as Hu.
  cbn zeta in Hu. rewrite Hu. clear Hu.
  case_bool_decide as Hempty; [eexists; split_and!; [done..|constructor]|].
  case_bool_decide as Hlong; [eexists; split_and!; [done..|constructor]|].
  destruct (check_rate_limit_cases channel u l w) as [Hrej | (w' & Hacc & Hdb & Hnow)].
  { rewrite Hrej. eexists; split_and!; [done..|constructor]. }
  rewrite Hacc. unfold result_of, world_of, effects_of. cbn [fst snd]. rewrite Hdb.
  destruct (membership_exists (db w) (lobby_pk l) (user_id u)) eqn:Hmem.
  2:{ eexists; split_and!; [done..|by constructor]. }
  destruct (accepts_messages (db w)).
  - eexists; split_and!; [done..|]. constructor; try done. cbn. lia.
  - eexists; split_and!; [done..|constructor].
Qed.

Lemma receive_joined_outcome (channel : Z) (u : User) (l : Lobby) (text : text_data)
    (w : World) :
  (text ≠ BinaryFrame →
   result_of (receive (joined_consumer channel u l) text w) = inl tt) ∧
  receive_outcome u l w (effects_of (receive (joined_consumer channel u l) text w)).
Proof.
  destruct text as [|data|]; [split; [done|constructor]| |split; [done|constructor]].
  destruct data as [| | | | | |d];
    try (split; [done|constructor]).
  unfold receive.
  destruct (dict_get d "type") as [v|] eqn:Hty; [|split; [done|constructor]].
  destruct v as [| | |t| | |]; try (split; [done|constructor]).
  case_bool_decide as Hchat.
  2:{ case_bool_decide; [split; [done|constructor]|].
      case_bool_decide; split; try done; constructor. }
  destruct (dict_get d "message") as [v|] eqn:Hmsg.
  - assert ((∃ s, v = JStr s) ∨ (∀ s, v ≠ JStr s)) as [[s ->]|Hno]
      by (destruct v; eauto; right; done).
    + destruct (handle_chat_message_outcome channel u l d s w (or_introl Hmsg))
        as (w1 & Hr & Hw & Ho).
      destruct (handle_chat_message (joined_consumer channel u l) d w)
        as [[r w2] es] eqn:Hh.
      unfold result_of, world_of, effects_of in *. cbn [fst snd] in *. subst r.
      rewrite (try_except_inl _ _ w w2 tt es Hh). done.
    + rewrite (try_except_inr _ _ w w (attribute_error (type_name v) "strip")).
      * split; [done|constructor].
      * by apply handle_chat_message_raises.
  - destruct (handle_chat_message_outcome channel u l d [] w
                (or_intror (conj Hmsg eq_refl))) as (w1 & Hr & Hw & Ho).
    destruct (handle_chat_message (joined_consumer channel u l) d w)
      as [[r w2] es] eqn:Hh.
    unfold result_of, world_of, effects_of in *. cbn [fst snd] in *. subst r.
    rewrite (try_except_inl _ _ w w2 tt es Hh). done.
Qed.

(** X2. On the socket of an accepted consumer [receive] raises for a
    binary frame, and for nothing else: the call fails before the body is
    entered, nothing is sent and nothing changes (the consumer dies of the
    exception).  Every text frame is answered without an exception.
    [receive] closes the socket only with code 4003 after the error "You are
    not a member of this lobby", and only when the user holds no membership;
    for a member it never closes.  Whatever it broadcasts is one event to
    the group of the consumer's own lobby. *)
Theorem receive_closes_only_non_members (channel : Z) (u : User) (l : Lobby)
    (text : text_data) (w : World) :
  let r := receive (joined_consumer channel u l) text w in
  (text = BinaryFrame → ∃ e, r = (inr e, w, [])) ∧
  (text ≠ BinaryFrame → result_of r = inl tt) ∧
  (closes (effects_of r) = true →
     membership_exists (db w) (lobby_pk l) (user_id u) = false ∧
     effects_of r = [error_frame "You are not a member of this lobby"; Close 4003]) ∧
  (membership_exists (db w) (lobby_pk l) (user_id u) = true →
     closes (effects_of r) = false) ∧
  (broadcasts (effects_of r) = true → ∃ ev,
     effects_of r = [GroupSend (lobby_group (lobby_pk l)) ev]).
Proof.
  intros r. subst r.
  destruct (receive_joined_outcome channel u l text w) as [Hr Ho].
  split; [intros ->; by eexists|]. split; [exact Hr|].
  destruct Ho as [ | frame | Hmem | m Hmem _ _ _ _ | |]; cbn.
  - split_and!; try done.
  - split_and!; try done.
  - split_and!; try done. intros Hm. congruence.
  - split_and!; try done. eauto.
  - split_and!; try done. eauto.
  - split_and!; try done. eauto.
Qed.

Lemma handled_chat_message (m : Message) (u : User) : handled (chat_message_event m u).
Proof. intros self su w Hu. eexists. split; [reflexivity|done]. Qed.

Lemma handled_presence_join (u : User) : handled (presence_join_event u).
Proof. intros self su w Hu. eexists. split; [reflexivity|done]. Qed.

Lemma handled_presence_leave (u : User) : handled (presence_leave_event u).
Proof. intros self su w Hu. eexists. split; [reflexivity|done]. Qed.

Lemma typing_start_dispatch (self : LobbyConsumer) (su : ScopeUser) (u : User) (w : World) :
  user self = Some su →
  dispatch self (typing_event "typing_start" u) w =
    (inl tt, w,
     if eq_user_id (JInt (user_id u)) (scope_user_id su) then []
     else [Send (JDict [("type", JStr (py "typing_start")); ("user_id", JInt (user_id u));
                        ("username", JStr (username u))])]).
Proof.
  intros Hu.
  change (dispatch self (typing_event "typing_start" u) w)
    with (typing_relay "typing_start" self (typing_event "typing_start" u) w).
  unfold typing_relay, self_user_id. rewrite Hu.
  destruct su as [|u']; cbn [scope_user_id eq_user_id]; [reflexivity|].
  unfold mbind, M_bind. cbn [dict_item typing_event dict_get String.eqb].
  cbn. destruct (user_id u =? user_id u'); reflexivity.
Qed.

Lemma typing_stop_dispatch (self : LobbyConsumer) (su : ScopeUser) (u : User) (w : World) :
  user self = Some su →
  dispatch self (typing_event "typing_stop" u) w =
    (inl tt, w,
     if eq_user_id (JInt (user_id u)) (scope_user_id su) then []
     else [Send (JDict [("type", JStr (py "typing_stop")); ("user_id", JInt (user_id u));
                        ("username", JStr (username u))])]).
Proof.
  intros Hu.
  change (dispatch self (typing_event "typing_stop" u) w)
    with (typing_relay "typing_stop" self (typing_event "typing_stop" u) w).
  unfold typing_relay, self_user_id. rewrite Hu.
  destruct su as [|u']; cbn [scope_user_id eq_user_id]; [reflexivity|].
  unfold mbind, M_bind. cbn. destruct (user_id u =? user_id u'); reflexivity.
Qed.

Lemma handled_typing_start (u : User) : handled (typing_event "typing_start" u).
Proof.
  intros self su w Hu. rewrite (typing_start_dispatch self su u w Hu).
  eexists. split; [reflexivity|]. by destruct (eq_user_id _ _).
Qed.

Lemma handled_typing_stop (u : User) : handled (typing_event "typing_stop" u).
Proof.
  intros self su w Hu. rewrite (typing_stop_dispatch self su u w Hu).
  eexists. split; [reflexivity|]. by destruct (eq_user_id _ _).
Qed.

(** X3. A typing indicator is sent to the group of the lobby without a
    check and without a change of the world; when the event arrives, every
    consumer relays it to its socket but the consumers of the user who
    types, which send nothing. *)
Theorem typing_not_echoed (channel channel' : Z) (u u' : User) (l l' : Lobby)
    (w w' : World) :
  let self' := joined_consumer channel' u' l' in
  handle_typing_start (joined_consumer channel u l) w =
    (inl tt, w, [GroupSend (lobby_group (lobby_pk l)) (typing_event "typing_start" u)]) ∧
  handle_typing_stop (joined_consumer channel u l) w =
    (inl tt, w, [GroupSend (lobby_group (lobby_pk l)) (typing_event "typing_stop" u)]) ∧
  (user_id u' = user_id u →
     dispatch self' (typing_event "typing_start" u) w' = (inl tt, w', []) ∧
     dispatch self' (typing_event "typing_stop" u) w' = (inl tt, w', [])) ∧
  (user_id u' ≠ user_id u →
     dispatch self' (typing_event "typing_start" u) w' =
       (inl tt, w',
        [Send (JDict [("type", JStr (py "typing_start")); ("user_id", JInt (user_id u));
                      ("username", JStr (username u))])]) ∧
     dispatch self' (typing_event "typing_stop" u) w' =
       (inl tt, w',
        [Send (JDict [("type", JStr (py "typing_stop")); ("user_id", JInt (user_id u));
                      ("username", JStr (username u))])])).
Proof.
  intros self'.
  rewrite (typing_start_dispatch self' (Authenticated u') u w' eq_refl),
    (typing_stop_dispatch self' (Authenticated u') u w' eq_refl).
  cbn [scope_user_id eq_user_id].
  split_and!; try reflexivity.
  - intros ->. by rewrite Z.eqb_refl.
  - intros Hne. by rewrite (proj2 (Z.eqb_neq _ _)) by done.
Qed.

(** X4. Every event that a consumer sends to a group (from [receive], from
    [connect] and from [disconnect]) goes to the group of its own lobby and
    is one that [dispatch] handles on any consumer without an exception,
    without closing the socket and without a change of the world. *)
Theorem group_events_are_handled (channel : Z) :
  (∀ u l text w g ev,
     GroupSend g ev ∈ effects_of (receive (joined_consumer channel u l) text w) →
     g = lobby_group (lobby_pk l) ∧ handled ev) ∧
  (∀ scope w g ev,
     GroupSend g ev ∈ effects_of (connect (new_consumer channel) scope w) →
     g = lobby_group (url_lobby_id scope) ∧ handled ev) ∧
  (∀ scope w0 self code w g ev,
     result_of (connect (new_consumer channel) scope w0) = inl self →
     GroupSend g ev ∈ effects_of (disconnect self code w) →
     g = lobby_group (url_lobby_id scope) ∧ handled ev).
Proof.
  split_and!.
  - intros u l text w g ev Hin.
    destruct (receive_joined_outcome channel u l text w) as [_ Ho].
    destruct Ho as [ | frame | Hmem | m Hmem _ _ _ _ | |];
      repeat (apply elem_of_cons in Hin as [Hin|Hin]; simplify_eq);
      try (by apply elem_of_nil in Hin); split; try done.
    + apply handled_chat_message.
    + apply handled_typing_start.
    + apply handled_typing_stop.
  - intros scope w g ev. rewrite connect_unfold. cbn zeta.
    destruct (scope_user scope) as [|u]; cbn [effects_of snd].
    { intros Hin. repeat (apply elem_of_cons in Hin as [Hin|Hin]; simplify_eq).
      by apply elem_of_nil in Hin. }
    destruct (get_lobby_row (db w) (url_lobby_id scope)) as [l|]; cbn [effects_of snd].
    2:{ intros Hin. repeat (apply elem_of_cons in Hin as [Hin|Hin]; simplify_eq).
        by apply elem_of_nil in Hin. }
    destruct (can_join (db w) l u).1; unfold effects_of; cbn [snd]; intros Hin;
      repeat (apply elem_of_cons in Hin as [Hin|Hin]; simplify_eq);
      try (by apply elem_of_nil in Hin).
    split; [done|apply handled_presence_join].
  - intros scope w0 self code w g ev Hself.
    destruct (connect_attributes _ _ _ _ Hself) as (Hch & Hl & Hg & Hu).
    rewrite (disconnect_unfold self (scope_user scope) (url_lobby_id scope)
               (lobby_group (url_lobby_id scope))) by done.
    unfold effects_of, teardown_effects. cbn [snd]. rewrite Hg, Hu.
    destruct (scope_user scope) as [|u]; intros Hin;
      repeat (apply elem_of_cons in Hin as [Hin|Hin]; simplify_eq);
      try (by apply elem_of_nil in Hin).
    split; [done|apply handled_presence_leave].
Qed.

(** X5. A chat message that is broadcast was saved first, as the last
    message of the table, with the trimmed text, the sender, the lobby and
    the current time, not deleted; every consumer that the event reaches,
    the sender's own included, relays it in a [chat_message] frame with the
    id, the content, the sender and the time of the saved message. *)
Theorem chat_message_reaches_everyone (channel : Z) (u : User) (l : Lobby)
    (data : list (string * json)) (raw : pystr) (w : World) :
  dict_get data "message" = Some (JStr raw) →
  broadcasts (effects_of (handle_chat_message (joined_consumer channel u l) data w))
    = true →
  ∃ m,
    effects_of (handle_chat_message (joined_consumer channel u l) data w) =
      [GroupSend (lobby_group (lobby_pk l)) (chat_message_event m u)] ∧
    content m = strip raw ∧ message_sender m = user_id u ∧
    message_lobby m = lobby_pk l ∧ message_created_at m = now w ∧ is_deleted m = false ∧
    messages (db (world_of (handle_chat_message (joined_consumer channel u l) data w)))
      = messages (db w) ++ [m] ∧
    ∀ self' w', dispatch self' (chat_message_event m u) w' = (inl tt, w', [chat_frame m u]).
Proof.
  intros Hraw.
  pose proof (handle_chat_message_unfold channel u l data raw w (or_introl Hraw)) as Hu.
  cbn zeta in Hu. rewrite Hu. clear Hu.
  case_bool_decide; [done|]. case_bool_decide; [done|].
  destruct (check_rate_limit_cases channel u l w) as [Hrej | (w1 & Hacc & Hdb & Hnow)].
  { by rewrite Hrej. }
  rewrite Hacc. unfold result_of, world_of, effects_of. cbn [fst snd]. rewrite Hdb, Hnow.
  destruct (membership_exists (db w) (lobby_pk l) (user_id u)); [|done].
  destruct (accepts_messages (db w)); [|done].
  intros _. eexists. split; [reflexivity|]. split_and!; try reflexivity.
Qed.

Lemma chat_message_reaches_everyone_witness :
  dict_get hello_data "message" = Some (JStr (py "  Hello ")) ∧
  broadcasts (effects_of (handle_chat_message alice_consumer hello_data
                            (world alice_member))) = true ∧
  ∃ m, effects_of (handle_chat_message alice_consumer hello_data (world alice_member)) =
         [GroupSend (lobby_group 1) (chat_message_event m alice)] ∧
       content m = strip (py "  Hello ").
Proof.
  assert (dict_get hello_data "message" = Some (JStr (py "  Hello "))) as H1
    by reflexivity.
  assert (broadcasts (effects_of (handle_chat_message alice_consumer hello_data
                                    (world alice_member))) = true) as H2
    by (vm_compute; reflexivity).
  split; [exact H1|]. split; [exact H2|].
  destruct (chat_message_reaches_everyone 3 alice test_lobby hello_data (py "  Hello ")
              (world alice_member) H1 H2) as (m & He & Hc & _).
  exists m. split; [exact He|exact Hc].
Defined.

(** ** More on the rate limiter *)

Lemma recent_all_old (t : Z) (l : list Z) :
  Forall (λ x, x ≤ t - seconds 2) l → recent t l = [].
Proof.
  induction 1 as [|x l Hx _ IH]; [done|]. by rewrite recent_cons_drop.
Qed.

Lemma recent_elem (t x : Z) (l : list Z) : x ∈ recent t l ↔ t - seconds 2 < x ∧ x ∈ l.
Proof. unfold recent. by rewrite list_elem_of_filter. Qed.

Lemma rate_window_after_accept (w : World) (uid lid : Z) (kept : list Z) :
  rate_window
    (set_rate_limit (cache_set (rate_limit (cache w)) (now w) (uid, lid) kept 10) w)
    uid lid = kept.
Proof.
  unfold rate_window, cache_get, cache_set, set_rate_limit, set_cache.
  cbn [cache rate_limit now]. rewrite lookup_insert_eq. cbn [expires_at cached_value].
  rewrite (proj2 (Z.ltb_lt _ _)); [done|]. unfold seconds. lia.
Qed.

(** X6. After an accepted call of [check_rate_limit] the key holds at
    most three timestamps, all of them newer than [now - 2s], the last one
    being [now]: one more than the stored timestamps that were recent. *)
Theorem rate_window_bounded (channel : Z) (u : User) (l : Lobby) (w : World) :
  let r := check_rate_limit (joined_consumer channel u l) w in
  let stored := rate_window (world_of r) (user_id u) (lobby_pk l) in
  result_of r = inl true →
  (length stored ≤ 3)%nat ∧
  last stored = Some (now w) ∧
  (∀ t, t ∈ stored → now w - seconds 2 < t) ∧
  length stored = S (length (recent (now w) (rate_window w (user_id u) (lobby_pk l)))).
Proof.
  intros r stored. subst r stored. rewrite check_rate_limit_unfold. cbn zeta.
  case_bool_decide as Hlen; [done|]. intros _.
  unfold world_of. cbn [fst snd]. rewrite rate_window_after_accept.
  split_and!.
  - rewrite length_app. cbn. lia.
  - by rewrite last_snoc.
  - intros t [Hin|Hin]%elem_of_app.
    + by apply recent_elem in Hin as [? _].
    + apply list_elem_of_singleton in Hin as ->. unfold seconds. lia.
  - rewrite length_app. cbn. lia.
Qed.

Lemma rate_window_bounded_witness :
  result_of (check_rate_limit alice_consumer (sample_world 0)) = inl true ∧
  (length (rate_window (world_of (check_rate_limit alice_consumer (sample_world 0)))
             7 1) ≤ 3)%nat.
Proof.
  assert (result_of (check_rate_limit alice_consumer (sample_world 0)) = inl true) as H
    by (vm_compute; reflexivity).
  split; [exact H|].
  exact (proj1 (rate_window_bounded 3 alice test_lobby (sample_world 0) H)).
Defined.

(** X7. The ten-second timeout of the rate-limit key changes no verdict:
    when no stored timestamp lies in the future and the clock does not run
    backwards, a later call counts the same recent timestamps whether the
    key has expired in between or not. *)
Theorem rate_limit_timeout_is_harmless (channel : Z) (u : User) (l : Lobby)
    (w : World) (t : Z) :
  let r := check_rate_limit (joined_consumer channel u l) w in
  let stored := rate_window (world_of r) (user_id u) (lobby_pk l) in
  result_of r = inl true →
  Forall (λ x, x ≤ now w) stored →
  now w ≤ t →
  recent t (rate_window (at_time t (world_of r)) (user_id u) (lobby_pk l)) =
    recent t stored.
Proof.
  intros r stored. subst r stored. rewrite check_rate_limit_unfold. cbn zeta.
  case_bool_decide as Hlen; [done|]. intros _.
  unfold world_of. cbn [fst snd]. rewrite rate_window_after_accept.
  intros Hold Ht. rewrite rate_window_written.
  destruct (Z.ltb_spec t (now w + seconds 10)) as [|Hexp]; [done|].
  symmetry. rewrite recent_nil. apply recent_all_old.
  eapply Forall_impl; [exact Hold|]. cbn. intros x Hx. unfold seconds in *. lia.
Qed.

Lemma rate_limit_timeout_is_harmless_witness :
  result_of (check_rate_limit alice_consumer (sample_world 0)) = inl true ∧
  recent (seconds 11)
    (rate_window (at_time (seconds 11)
                    (world_of (check_rate_limit alice_consumer (sample_world 0)))) 7 1) =
  recent (seconds 11)
    (rate_window (world_of (check_rate_limit alice_consumer (sample_world 0))) 7 1).
Proof.
  assert (result_of (check_rate_limit alice_consumer (sample_world 0)) = inl true) as H1
    by (vm_compute; reflexivity).
  assert (Forall (λ x, x ≤ now (sample_world 0))
            (rate_window (world_of (check_rate_limit alice_consumer (sample_world 0)))
               (user_id alice) (lobby_pk test_lobby))) as H2.
  { replace (rate_window (world_of (check_rate_limit alice_consumer (sample_world 0)))
               (user_id alice) (lobby_pk test_lobby)) with [0]
      by (vm_compute; reflexivity).
    constructor; [vm_compute; discriminate|constructor]. }
  assert (now (sample_world 0) ≤ seconds 11) as H3 by (vm_compute; discriminate).
  split; [exact H1|].
  exact (rate_limit_timeout_is_harmless 3 alice test_lobby (sample_world 0) (seconds 11)
           H1 H2 H3).
Defined.

(** ** More on the presence store *)

Lemma online_registered_other (w : World) (lid lid' uid : Z) :
  lid' ≠ lid → online (registered w lid uid) lid' = online w lid'.
Proof.
  intros Hne. unfold registered, online at 1, cache_get, cache_set, set_lobby_presence,
    set_cache. cbn [cache lobby_presence now]. by rewrite lookup_insert_ne.
Qed.

Lemma online_unregistered (w : World) (lid : Z) (x : option Z) :
  online (unregistered w lid x) lid = discard (online w lid) x.
Proof.
  unfold unregistered. case_bool_decide as Hne.
  - unfold online at 1, cache_get, cache_set, set_lobby_presence, set_cache.
    cbn [cache lobby_presence now]. rewrite lookup_insert_eq.
    cbn [expires_at cached_value].
    pose proof (seconds_pos 300). by rewrite (proj2 (Z.ltb_lt _ _)) by lia.
  - unfold online at 1, cache_get, cache_delete, set_lobby_presence, set_cache.
    cbn [cache lobby_presence now]. rewrite lookup_delete_eq.
    by rewrite Hne.
Qed.

Lemma online_unregistered_other (w : World) (lid lid' : Z) (x : option Z) :
  lid' ≠ lid → online (unregistered w lid x) lid' = online w lid'.
Proof.
  intros Hne. unfold unregistered. case_bool_decide.
  - unfold online at 1, cache_get, cache_set, set_lobby_presence, set_cache.
    cbn [cache lobby_presence now]. by rewrite lookup_insert_ne.
  - unfold online at 1, cache_get, cache_delete, set_lobby_presence, set_cache.
    cbn [cache lobby_presence now]. by rewrite lookup_delete_ne.
Qed.

(** X8. [add_user_presence] inserts the user into the presence set of the
    consumer's lobby and touches nothing else (the other lobbies, the
    database, the rate-limit keys); it writes the key with a timeout of 300
    seconds from the time of the call.  Every call does so: a second call
    at a later time [t] writes the key again with the expiry [t + 300s],
    leaving what readers see as it was when the key was still alive and
    starting again from the user alone when it had expired; at the same
    reading of the clock the second call changes nothing at all. *)
Theorem add_user_presence_refreshes (channel : Z) (u : User) (l : Lobby) (w : World)
    (t : Z) :
  let self := joined_consumer channel u l in
  let r1 := add_user_presence self w in
  let r2 := add_user_presence self (at_time t (world_of r1)) in
  result_of r1 = inl tt ∧ effects_of r1 = [] ∧
  online (world_of r1) (lobby_pk l) = {[user_id u]} ∪ online w (lobby_pk l) ∧
  (∀ lid', lid' ≠ lobby_pk l → online (world_of r1) lid' = online w lid') ∧
  db (world_of r1) = db w ∧ rate_limit (cache (world_of r1)) = rate_limit (cache w) ∧
  lobby_presence (cache (world_of r1)) !! lobby_pk l =
    Some (mkCached ({[user_id u]} ∪ online w (lobby_pk l)) (now w + seconds 300)) ∧
  lobby_presence (cache (world_of r2)) !! lobby_pk l =
    Some (mkCached ({[user_id u]} ∪ online (at_time t (world_of r1)) (lobby_pk l))
            (t + seconds 300)) ∧
  (t < now w + seconds 300 →
     online (world_of r2) (lobby_pk l) = online (world_of r1) (lobby_pk l)) ∧
  (now w + seconds 300 ≤ t → online (world_of r2) (lobby_pk l) = {[user_id u]}) ∧
  (t = now w → world_of r2 = world_of r1).
Proof.
  intros self r1 r2. subst r1 r2 self.
  rewrite !(add_user_presence_unfold _ u (lobby_pk l)) by done.
  unfold result_of, effects_of, world_of. cbn [fst snd].
  set (w1 := registered w (lobby_pk l) (user_id u)).
  assert (lobby_presence (cache w1) !! lobby_pk l =
            Some (mkCached ({[user_id u]} ∪ online w (lobby_pk l))
                    (now w + seconds 300))) as Hkey.
  { unfold w1, registered, set_lobby_presence, set_cache, cache_set.
    cbn [cache lobby_presence]. apply lookup_insert_eq. }
  assert (∀ t', online (at_time t' w1) (lobby_pk l) =
                  if t' <? now w + seconds 300
                  then {[user_id u]} ∪ online w (lobby_pk l) else ∅) as Hread.
  { intros t'. unfold online at 1, cache_get, at_time. cbn [cache now].
    by rewrite Hkey. }
  assert (online w1 (lobby_pk l) = {[user_id u]} ∪ online w (lobby_pk l)) as Hw1
    by apply online_registered.
  split_and!; try done.
  - intros lid' Hne. by apply online_registered_other.
  - unfold registered, set_lobby_presence, set_cache, cache_set.
    cbn [cache lobby_presence now at_time]. apply lookup_insert_eq.
  - intros Ht. rewrite online_registered, Hread, Hw1.
    rewrite (proj2 (Z.ltb_lt _ _)) by done. set_solver.
  - intros Ht. rewrite online_registered, Hread.
    rewrite (proj2 (Z.ltb_ge _ _)) by done. set_solver.
  - intros ->.
    assert (at_time (now w) w1 = w1) as -> by reflexivity.
    unfold registered at 1. rewrite Hw1.
    unfold w1, registered, set_lobby_presence, set_cache, cache_set.
    cbn [db cache now rate_limit lobby_presence]. rewrite insert_insert_eq.
    do 4 f_equal. set_solver.
Qed.

(** X9. [remove_user_presence] removes the user from the presence set of
    the consumer's lobby and nobody else, leaves the other lobbies alone,
    never leaves an empty set under the key (the key is deleted instead),
    and a second call changes nothing that a reader sees. *)
Theorem remove_user_presence_evicts (channel : Z) (u : User) (l : Lobby) (w : World) :
  let self := joined_consumer channel u l in
  let r1 := remove_user_presence self w in
  let r2 := remove_user_presence self (world_of r1) in
  result_of r1 = inl tt ∧ effects_of r1 = [] ∧
  online (world_of r1) (lobby_pk l) = online w (lobby_pk l) ∖ {[user_id u]} ∧
  (∀ lid', lid' ≠ lobby_pk l → online (world_of r1) lid' = online w lid') ∧
  (∀ e, lobby_presence (cache (world_of r1)) !! lobby_pk l = Some e →
        cached_value e ≠ ∅) ∧
  (online w (lobby_pk l) ⊆ {[user_id u]} →
     lobby_presence (cache (world_of r1)) !! lobby_pk l = None) ∧
  (∀ lid', online (world_of r2) lid' = online (world_of r1) lid').
Proof.
  intros self r1 r2. subst r1 r2 self.
  rewrite !(remove_user_presence_unfold _ (Authenticated u) (lobby_pk l)) by done.
  unfold result_of, effects_of, world_of. cbn [fst snd].
  split_and!; try done.
  - apply online_unregistered.
  - intros lid' Hne. by apply online_unregistered_other.
  - intros e. unfold unregistered. case_bool_decide as Hne.
    + unfold set_lobby_presence, set_cache, cache_set. cbn [cache lobby_presence].
      rewrite lookup_insert_eq. by intros [= <-].
    + unfold set_lobby_presence, set_cache, cache_delete. cbn [cache lobby_presence].
      by rewrite lookup_delete_eq.
  - intros Hsub. unfold unregistered.
    rewrite bool_decide_eq_false_2 by (cbn [discard]; set_solver).
    unfold set_lobby_presence, set_cache, cache_delete. cbn [cache lobby_presence].
    apply lookup_delete_eq.
  - intros lid'. destruct (decide (lid' = lobby_pk l)) as [->|Hne].
    + rewrite !online_unregistered. cbn [discard]. set_solver.
    + by rewrite !online_unregistered_other.
Qed.

(** X10. The presence key lives 300 seconds from its last write, whoever
    is connected: a socket accepted at time [now] is in the presence set
    then, and once the clock reads [now + 300s] or more, with no other
    socket opened or closed, the set reads empty although the connection is
    still live. *)
Theorem presence_expires (s : System) (channel lid : Z) (token : Token) (t : Z) :
  let s1 := (sys_connect s channel lid token).1 in
  let s2 := mkSystem (mkWorld (db (world s1)) (cache (world s1)) t) (consumers s1) in
  consumers s !! channel = None →
  closes (sys_connect s channel lid token).2 = false →
  now (world s) + seconds 300 ≤ t →
  step s s1 ∧ step s1 s2 ∧
  presence s2 lid = ∅ ∧
  ∃ u, JWTAuthMiddleware (db (world s)) token = Authenticated u ∧
       user_id u ∈ presence s1 lid ∧
       live_session s2 lid (user_id u).
Proof.
  intros s1 s2 Hfresh Hacc Ht.
  assert (step s s1) as Hstep1 by (by apply step_connect).
  subst s1 s2. unfold sys_connect in *. rewrite connect_unfold in *. cbn zeta in *.
  cbn [url_lobby_id scope_user] in *.
  destruct (JWTAuthMiddleware (db (world s)) token) as [|u].
  { cbn [closes existsb is_close orb] in Hacc.
    by destruct (disconnect _ 1006 (world s)) as [[? ?] ?]. }
  destruct (get_lobby_row (db (world s)) lid) as [l|] eqn:Hl.
  2:{ cbn [closes existsb is_close orb] in Hacc.
      by destruct (disconnect _ 1006 (world s)) as [[? ?] ?]. }
  pose proof (get_lobby_row_pk _ _ _ Hl) as Hpk.
  destruct (can_join (db (world s)) l u).1.
  2:{ cbn [closes existsb is_close orb] in Hacc.
      by destruct (disconnect _ 1006 (world s)) as [[? ?] ?]. }
  cbn [closes existsb is_close orb presence_list_frame fst] in *.
  split; [exact Hstep1|]. split.
  { apply (step_clock (mkSystem (registered (world s) lid (user_id u))
                         (<[channel:=joined_consumer channel u l]> (consumers s)))).
    cbn. pose proof (seconds_pos 300). lia. }
  split.
  - unfold presence, cache_get, registered, set_lobby_presence, set_cache, cache_set.
    cbn [world cache lobby_presence now]. rewrite lookup_insert_eq.
    cbn [expires_at cached_value]. by rewrite (proj2 (Z.ltb_ge _ _)) by lia.
  - exists u. split; [done|]. split.
    + unfold presence. cbn [world].
      fold (online (registered (world s) lid (user_id u)) lid).
      rewrite online_registered. set_solver.
    + exists channel, (joined_consumer channel u l), u. cbn [consumers].
      rewrite lookup_insert_eq. by rewrite <- Hpk.
Qed.

Lemma presence_expires_witness :
  consumers (initial sample_db 0) !! 3 = None ∧
  closes (sys_connect (initial sample_db 0) 3 1 alice_token).2 = false ∧
  presence (mkSystem (mkWorld (db (world alice_connected)) (cache (world alice_connected))
                        (seconds 300))
              (consumers alice_connected)) 1 = ∅.
Proof.
  assert (consumers (initial sample_db 0) !! 3 = None) as H1 by reflexivity.
  assert (closes (sys_connect (initial sample_db 0) 3 1 alice_token).2 = false) as H2
    by (vm_compute; reflexivity).
  assert (now (world (initial sample_db 0)) + seconds 300 ≤ seconds 300) as H3
    by (vm_compute; discriminate).
  split; [exact H1|]. split; [exact H2|].
  exact (proj1 (proj2 (proj2 (presence_expires (initial sample_db 0) 3 1 alice_token
                                (seconds 300) H1 H2 H3)))).
Defined.

(** ** The authentication middleware and the outcomes of [connect] *)

(** X11. The middleware resolves a user exactly for a valid token whose
    [user_id] claim is a non-zero key of the user table, and the user is
    then the row under that key; every other token gives the anonymous
    user. *)
Theorem JWTAuthMiddleware_resolves (d : DB) (t : Token) (u : User) :
  JWTAuthMiddleware d t = Authenticated u ↔
  t = token_valid (Some (user_id u)) ∧ user_id u ≠ 0 ∧
  ∃ row, users d !! user_id u = Some row ∧
         username u = row_username row ∧ is_premium u = row_is_premium row.
Proof.
  unfold JWTAuthMiddleware, get_user_row. split.
  - destruct t as [| |[uid|]]; try done.
    case_bool_decide as Hz; [done|].
    destruct (users d !! uid) as [row|] eqn:Hrow; [|done].
    intros [= <-]. cbn. eauto 10.
  - intros (-> & Hz & row & Hrow & Hn & Hp).
    rewrite bool_decide_eq_false_2 by done. rewrite Hrow. cbn.
    destruct u as [i n p]. cbn in *. by subst.
Qed.

(** X12. A socket whose token resolves to no user is closed with code
    4001; its teardown discards it from the group and sends nothing else,
    and the live consumers, the database, the clock, the rate-limit keys
    and what readers see of every presence set stay as they were. *)
Theorem anonymous_socket_is_invisible (s : System) (channel lid : Z) (token : Token) :
  JWTAuthMiddleware (db (world s)) token = AnonymousUser →
  (sys_connect s channel lid token).2 = [Close 4001; GroupDiscard (lobby_group lid) channel] ∧
  consumers (sys_connect s channel lid token).1 = consumers s ∧
  db (world (sys_connect s channel lid token).1) = db (world s) ∧
  now (world (sys_connect s channel lid token).1) = now (world s) ∧
  rate_limit (cache (world (sys_connect s channel lid token).1)) =
    rate_limit (cache (world s)) ∧
  ∀ lid', presence (sys_connect s channel lid token).1 lid' = presence s lid'.
Proof.
  intros Hanon. unfold sys_connect. rewrite connect_unfold. cbn zeta.
  cbn [url_lobby_id scope_user]. rewrite Hanon.
  cbn [closes existsb is_close orb].
  rewrite (disconnect_unfold _ AnonymousUser lid (lobby_group lid)) by done.
  cbn [fst snd app teardown_effects lobby_group_name user channel_name scope_user_id].
  split_and!; try done.
  - apply unregistered_db.
  - unfold unregistered. by case_bool_decide.
  - unfold unregistered. by case_bool_decide.
  - intros lid'. unfold presence. cbn [world].
    fold (online (unregistered (world s) lid None) lid') (online (world s) lid').
    destruct (decide (lid' = lid)) as [->|Hne].
    + by rewrite online_unregistered.
    + by rewrite online_unregistered_other.
Qed.

Lemma anonymous_socket_is_invisible_witness :
  JWTAuthMiddleware (db (world (initial sample_db 0))) token_missing = AnonymousUser ∧
  (sys_connect (initial sample_db 0) 3 1 token_missing).2 =
    [Close 4001; GroupDiscard (lobby_group 1) 3].
Proof.
  assert (JWTAuthMiddleware (db (world (initial sample_db 0))) token_missing
          = AnonymousUser) as H by reflexivity.
  split; [exact H|].
  exact (proj1 (anonymous_socket_is_invisible (initial sample_db 0) 3 1 token_missing H)).
Defined.

Lemma can_join_true (d : DB) (l : Lobby) (u : User) :
  (can_join d l u).1 = true →
  status l = open ∧ is_full d l = false ∧
  ban_exists d (lobby_pk l) (user_id u) = false ∧
  membership_exists d (lobby_pk l) (user_id u) = false.
Proof.
  unfold can_join. case_bool_decide; cbn [negb]; [|done].
  destruct (is_full d l); [done|].
  destruct (ban_exists d (lobby_pk l) (user_id u)); [done|].
  by destruct (membership_exists d (lobby_pk l) (user_id u)).
Qed.

(** X13. [connect] accepts the socket exactly for an authenticated user
    whom [can_join] admits to an existing lobby.  Otherwise it changes
    nothing, broadcasts nothing, and closes with 4001 (no user), 4004 (no
    such lobby) or, after an [error] frame with the reason of [can_join],
    4003. *)
Theorem connect_outcomes (channel : Z) (scope : Scope) (w : World) :
  let lid := url_lobby_id scope in
  let r := connect (new_consumer channel) scope w in
  (closes (effects_of r) = false ↔
     ∃ u l, scope_user scope = Authenticated u ∧ get_lobby_row (db w) lid = Some l ∧
            (can_join (db w) l u).1 = true) ∧
  (closes (effects_of r) = false ↔ existsb is_accept (effects_of r) = true) ∧
  (closes (effects_of r) = true →
     world_of r = w ∧ broadcasts (effects_of r) = false ∧
     ((scope_user scope = AnonymousUser ∧ effects_of r = [Close 4001]) ∨
      (get_lobby_row (db w) lid = None ∧ effects_of r = [Close 4004]) ∨
      (∃ u l, scope_user scope = Authenticated u ∧ get_lobby_row (db w) lid = Some l ∧
              (can_join (db w) l u).1 = false ∧
              effects_of r =
                [Send (JDict [("type", JStr (py "error"));
                              ("message", JStr (can_join (db w) l u).2)]);
                 Close 4003]))).
Proof.
  intros lid r. subst r. rewrite connect_unfold. cbn zeta. fold lid.
  destruct (scope_user scope) as [|u].
  { unfold effects_of, world_of. cbn. split_and!.
    - split; [done|]. by intros (? & ? & ? & _).
    - done.
    - intros _. split_and!; try done. by left. }
  destruct (get_lobby_row (db w) lid) as [l|].
  2:{ unfold effects_of, world_of. cbn. split_and!.
      - split; [done|]. by intros (? & ? & _ & ? & _).
      - done.
      - intros _. split_and!; try done. right. by left. }
  destruct (can_join (db w) l u).1 eqn:Hcan.
  - unfold effects_of, world_of. cbn. split_and!; try done.
    split; [|done]. intros _. exists u, l. done.
  - unfold effects_of, world_of. cbn. split_and!.
    + split; [done|]. intros (u' & l' & [= <-] & [= <-] & Htrue). congruence.
    + done.
    + intros _. split_and!; try done. right. right. exists u, l. done.
Qed.

(** X14. The socket that [connect] accepts belongs to a user without a
    membership ([can_join] refuses members).  Unless a membership is created
    in between, no chat message on it is broadcast, and one that passes the
    checks of content and rate is answered with "You are not a member of
    this lobby" and the close 4003. *)
Theorem accepted_consumer_cannot_chat (channel : Z) (scope : Scope) (w : World)
    (self : LobbyConsumer) (data : list (string * json)) (raw : pystr) :
  let w1 := world_of (connect (new_consumer channel) scope w) in
  result_of (connect (new_consumer channel) scope w) = inl self →
  closes (effects_of (connect (new_consumer channel) scope w)) = false →
  dict_get data "message" = Some (JStr raw) ∨
  (dict_get data "message" = None ∧ raw = []) →
  broadcasts (effects_of (handle_chat_message self data w1)) = false ∧
  (strip raw ≠ [] → (length (strip raw) ≤ 2000)%nat →
   result_of (check_rate_limit self w1) = inl true →
     effects_of (handle_chat_message self data w1) =
       [error_frame "You are not a member of this lobby"; Close 4003]).
Proof.
  intros w1. subst w1. rewrite connect_unfold. cbn zeta.
  destruct (scope_user scope) as [|u]; [done|].
  destruct (get_lobby_row (db w) (url_lobby_id scope)) as [l|] eqn:Hl; [|done].
  destruct (can_join (db w) l u).1 eqn:Hcan; [|done].
  unfold result_of, world_of, effects_of. cbn [fst snd].
  intros [= <-] _ Hraw.
  destruct (can_join_true _ _ _ Hcan) as (_ & _ & _ & Hmem).
  set (w1 := registered w (url_lobby_id scope) (user_id u)).
  assert (db w1 = db w) as Hdb by done.
  pose proof (handle_chat_message_unfold channel u l data raw w1 Hraw) as Hu.
  cbn zeta in Hu. rewrite Hu. clear Hu.
  case_bool_decide; [done|]. case_bool_decide; [split; [done|lia]|].
  destruct (check_rate_limit_cases channel u l w1) as [Hrej | (w2 & Hacc & Hdb2 & Hnow)].
  { rewrite Hrej. unfold result_of. cbn. split; [done|]. intros _ _ [=]. }
  rewrite Hacc. unfold result_of, world_of. cbn [fst snd]. rewrite Hdb2, Hdb, Hmem. done.
Qed.

Lemma accepted_consumer_cannot_chat_witness :
  result_of (connect (new_consumer 3) (mkScope 1 (Authenticated alice)) (sample_world 0))
    = inl alice_consumer ∧
  closes (effects_of (connect (new_consumer 3) (mkScope 1 (Authenticated alice))
                        (sample_world 0))) = false ∧
  broadcasts
    (effects_of
       (handle_chat_message alice_consumer hello_data
          (world_of (connect (new_consumer 3) (mkScope 1 (Authenticated alice))
                       (sample_world 0))))) = false.
Proof.
  assert (result_of (connect (new_consumer 3) (mkScope 1 (Authenticated alice))
                       (sample_world 0)) = inl alice_consumer) as H1
    by (vm_compute; reflexivity).
  assert (closes (effects_of (connect (new_consumer 3) (mkScope 1 (Authenticated alice))
                                (sample_world 0))) = false) as H2
    by (vm_compute; reflexivity).
  assert (dict_get hello_data "message" = Some (JStr (py "  Hello ")) ∨
          (dict_get hello_data "message" = None ∧ py "  Hello " = [])) as H3
    by (left; reflexivity).
  split; [exact H1|]. split; [exact H2|].
  exact (proj1 (accepted_consumer_cannot_chat 3 (mkScope 1 (Authenticated alice))
                  (sample_world 0) alice_consumer hello_data (py "  Hello ") H1 H2 H3)).
Defined.

(** ** More on the REST actions *)

Lemma succeeds_message (text : pystr) : succeeds (mret (message_response text)).
Proof. intros w. by eexists _, _. Qed.

Lemma succeeds_update (f : World → World) (k : M Response) :
  succeeds k → succeeds (update f;; k).
Proof.
  intros Hk w. unfold mbind, M_bind, update.
  destruct (Hk (f w)) as (resp & w' & -> & Hs). by eexists _, _.
Qed.

Lemma succeeds_log (lid : Z) (ty : EventType) (actor : Z) (target : option Z)
    (text : pystr) (meta : list (string * json)) (k : M Response) :
  succeeds k → succeeds (log_event lid ty actor target text meta;; k).
Proof. apply succeeds_update. Qed.

Lemma failsafe_succeeds (m : M Response) : succeeds m → failsafe m.
Proof. intros Hm w. destruct (Hm w) as (resp & w' & -> & Hs). eexists _, _. eauto. Qed.

Lemma failsafe_response (resp : Response) : failsafe (mret resp).
Proof. intros w. eexists _, _. split; [reflexivity|by right]. Qed.

Lemma failsafe_ask {A} (f : World → A) (k : A → M Response) :
  (∀ a, failsafe (k a)) → failsafe (ask f ≫= k).
Proof.
  intros Hk w. unfold mbind, M_bind, ask.
  destruct (Hk (f w) w) as (resp & w' & -> & Hs). by eexists _, _.
Qed.

Local Ltac failsafe_tac :=
  repeat first
    [ apply failsafe_response
    | apply failsafe_ask; intros ?
    | solve [ apply failsafe_succeeds;
              repeat first [ apply succeeds_message | apply succeeds_log
                           | apply succeeds_update ] ]
    | case_match
    | case_bool_decide ].

Lemma failsafe_detail_action (a : Action) (request : Request) (pk : Z)
    (body : User → Lobby → M Response) :
  (∀ u l, failsafe (body u l)) → failsafe (detail_action a request pk body).
Proof. intros Hb. unfold detail_action. failsafe_tac; apply Hb. Qed.

Lemma failsafe_actions_failsafe (view : Request → Z → M Response) (request : Request)
    (pk : Z) :
  view ∈ failsafe_actions → failsafe (view request pk).
Proof.
  intros Hin. unfold failsafe_actions in Hin.
  repeat (apply elem_of_cons in Hin as [->|Hin];
          [apply failsafe_detail_action; intros u l; failsafe_tac|]).
  by apply elem_of_nil in Hin.
Qed.

(** X15. Join, leave, start, close, kick, unban, the two moderator
    actions and the transfer of ownership answer every request without an
    exception and without an effect, and a request that they do not answer
    with 200 leaves the database, the cache and the clock exactly as they
    were.  ([ban] is not among them: it deletes the membership before it
    finds the user banned already.) *)
Theorem failed_actions_change_nothing (view : Request → Z → M Response)
    (request : Request) (pk : Z) (w : World) :
  view ∈ failsafe_actions →
  ∃ resp, result_of (view request pk w) = inl resp ∧
          effects_of (view request pk w) = [] ∧
          (status_code resp ≠ 200 → world_of (view request pk w) = w).
Proof.
  intros Hin. destruct (failsafe_actions_failsafe view request pk Hin w)
    as (resp & w' & -> & Hs).
  exists resp. split_and!; try done. intros Hne. by destruct Hs.
Qed.

Lemma failed_actions_change_nothing_witness :
  leave ∈ failsafe_actions ∧
  ∃ resp, result_of (leave alice_request 1 (sample_world 0)) = inl resp ∧
          effects_of (leave alice_request 1 (sample_world 0)) = [] ∧
          (status_code resp ≠ 200 →
           world_of (leave alice_request 1 (sample_world 0)) = sample_world 0).
Proof.
  assert (leave ∈ failsafe_actions) as H.
  { unfold failsafe_actions. apply list_elem_of_further, list_elem_of_here. }
  split; [exact H|].
  exact (failed_actions_change_nothing leave alice_request 1 (sample_world 0) H).
Defined.

Lemma detail_action_unfold (a : Action) (request : Request) (pk : Z)
    (body : User → Lobby → M Response) (w : World) :
  get_permissions a = [IsAuthenticated] →
  detail_action a request pk body w =
    match request_user request with
    | AnonymousUser =>
        (inl (error_response 401 (py "Authentication credentials were not provided.")),
         w, [])
    | Authenticated u =>
        match get_lobby_row (db w) pk with
        | None => (inl (error_response 404 (py "Not found.")), w, [])
        | Some l => body u l w
        end
    end.
Proof.
  intros Hperm. unfold detail_action. rewrite Hperm.
  destruct (request_user request) as [|u]; [reflexivity|].
  cbn [forallb has_permission is_authenticated andb].
  unfold mbind, M_bind, ask, mret, M_ret. cbn [fst snd].
  destruct (get_lobby_row (db w) pk) as [l|]; [|reflexivity].
  cbn [forallb has_object_permission andb].
  by destruct (body u l w) as [[r w2] es].
Qed.

Lemma kick_unfold (request : Request) (pk : Z) (w : World) :
  kick request pk w =
    match request_user request with
    | AnonymousUser =>
        (inl (error_response 401 (py "Authentication credentials were not provided.")),
         w, [])
    | Authenticated actor =>
        match get_lobby_row (db w) pk with
        | None => (inl (error_response 404 (py "Not found.")), w, [])
        | Some lobby =>
            match validated_user_id (db w) (request_data request),
                  validated_reason (request_data request) with
            | Some uid, Some reason =>
                match get_user_row (db w) uid with
                | None => (inl (error_response 404 (py "User not found")), w, [])
                | Some u =>
                    match memberships (db w) !! (pk, uid) with
                    | None => (inl (error_response 400 (py "User not in lobby")), w, [])
                    | Some role =>
                        if bool_decide (role = owner) then
                          (inl (error_response 400 (py "Cannot kick lobby owner")), w, [])
                        else
                          (inl (message_response
                                  (py "User " ++ username u ++ py " kicked successfully")),
                           set_db (kicked_db (db w) pk actor u reason (now w)) w, [])
                    end
                end
            | _, _ => (inl serializer_errors, w, [])
            end
        end
    end.
Proof.
  unfold kick. rewrite detail_action_unfold by done.
  destruct (request_user request) as [|actor]; [reflexivity|].
  destruct (get_lobby_row (db w) pk) as [lobby|]; [|reflexivity].
  unfold mbind, M_bind, ask, mret, M_ret. cbn [fst snd].
  destruct (validated_user_id (db w) (request_data request)) as [uid|]; [|reflexivity].
  destruct (validated_reason (request_data request)) as [reason|]; [|reflexivity].
  destruct (get_user_row (db w) uid) as [u|] eqn:Hu; [|reflexivity].
  pose proof (get_user_row_id _ _ _ Hu) as Hid.
  destruct (memberships (db w) !! (pk, uid)) as [role|]; [|reflexivity].
  case_bool_decide; [reflexivity|].
  unfold kicked_db. rewrite Hid. reflexivity.
Qed.

Lemma unban_unfold (request : Request) (pk : Z) (w : World) :
  unban request pk w =
    match request_user request with
    | AnonymousUser =>
        (inl (error_response 401 (py "Authentication credentials were not provided.")),
         w, [])
    | Authenticated actor =>
        match get_lobby_row (db w) pk with
        | None => (inl (error_response 404 (py "Not found.")), w, [])
        | Some lobby =>
            match validated_user_id (db w) (request_data request) with
            | Some uid =>
                match get_user_row (db w) uid with
                | None => (inl (error_response 404 (py "User not found")), w, [])
                | Some u =>
                    match bans (db w) !! (pk, uid) with
                    | None => (inl (error_response 400 (py "User not banned")), w, [])
                    | Some _ =>
                        (inl (message_response
                                (py "User " ++ username u ++ py " unbanned successfully")),
                         set_db (unbanned_db (db w) pk actor u (now w)) w, [])
                    end
                end
            | None => (inl serializer_errors, w, [])
            end
        end
    end.
Proof.
  unfold unban. rewrite detail_action_unfold by done.
  destruct (request_user request) as [|actor]; [reflexivity|].
  destruct (get_lobby_row (db w) pk) as [lobby|]; [|reflexivity].
  unfold mbind, M_bind, ask, mret, M_ret. cbn [fst snd].
  destruct (validated_user_id (db w) (request_data request)) as [uid|]; [|reflexivity].
  destruct (get_user_row (db w) uid) as [u|] eqn:Hu; [|reflexivity].
  pose proof (get_user_row_id _ _ _ Hu) as Hid.
  destruct (bans (db w) !! (pk, uid)) as [b|]; [|reflexivity].
  unfold unbanned_db. rewrite Hid. reflexivity.
Qed.

Lemma add_moderator_unfold (request : Request) (pk : Z) (w : World) :
  add_moderator request pk w =
    match request_user request with
    | AnonymousUser =>
        (inl (error_response 401 (py "Authentication credentials were not provided.")),
         w, [])
    | Authenticated actor =>
        match get_lobby_row (db w) pk with
        | None => (inl (error_response 404 (py "Not found.")), w, [])
        | Some lobby =>
            match validated_user_id (db w) (request_data request) with
            | Some uid =>
                match get_user_row (db w) uid with
                | None => (inl (error_response 404 (py "User not found")), w, [])
                | Some u =>
                    match memberships (db w) !! (pk, uid) with
                    | None => (inl (error_response 400 (py "User not in lobby")), w, [])
                    | Some role =>
                        if bool_decide (role = owner) then
                          (inl (error_response 400 (py "Owner is already a moderator")),
                           w, [])
                        else
                          (inl (message_response
                                  (py "User " ++ username u ++ py " promoted to moderator")),
                           set_db (role_db (db w) pk actor u moderator ev_mod_add
                                     (username u ++ py " promoted to moderator") (now w)) w,
                           [])
                    end
                end
            | None => (inl serializer_errors, w, [])
            end
        end
    end.
Proof.
  unfold add_moderator. rewrite detail_action_unfold by done.
  destruct (request_user request) as [|actor]; [reflexivity|].
  destruct (get_lobby_row (db w) pk) as [lobby|]; [|reflexivity].
  unfold mbind, M_bind, ask, mret, M_ret. cbn [fst snd].
  destruct (validated_user_id (db w) (request_data request)) as [uid|]; [|reflexivity].
  destruct (get_user_row (db w) uid) as [u|] eqn:Hu; [|reflexivity].
  pose proof (get_user_row_id _ _ _ Hu) as Hid.
  destruct (memberships (db w) !! (pk, uid)) as [role|]; [|reflexivity].
  case_bool_decide; [reflexivity|].
  unfold role_db. rewrite Hid. reflexivity.
Qed.

Lemma remove_moderator_unfold (request : Request) (pk : Z) (w : World) :
  remove_moderator request pk w =
    match request_user request with
    | AnonymousUser =>
        (inl (error_response 401 (py "Authentication credentials were not provided.")),
         w, [])
    | Authenticated actor =>
        match get_lobby_row (db w) pk with
        | None => (inl (error_response 404 (py "Not found.")), w, [])
        | Some lobby =>
            match validated_user_id (db w) (request_data request) with
            | Some uid =>
                match get_user_row (db w) uid with
                | None => (inl (error_response 404 (py "User not found")), w, [])
                | Some u =>
                    match memberships (db w) !! (pk, uid) with
                    | None => (inl (error_response 400 (py "User not in lobby")), w, [])
                    | Some role =>
                        if bool_decide (role = moderator) then
                          (inl (message_response
                                  (py "User " ++ username u ++ py " demoted from moderator")),
                           set_db (role_db (db w) pk actor u member ev_mod_remove
                                     (username u ++ py " demoted from moderator") (now w)) w,
                           [])
                        else
                          (inl (error_response 400 (py "User is not a moderator")), w, [])
                    end
                end
            | None => (inl serializer_errors, w, [])
            end
        end
    end.
Proof.
  unfold remove_moderator. rewrite detail_action_unfold by done.
  destruct (request_user request) as [|actor]; [reflexivity|].
  destruct (get_lobby_row (db w) pk) as [lobby|]; [|reflexivity].
  unfold mbind, M_bind, ask, mret, M_ret. cbn [fst snd].
  destruct (validated_user_id (db w) (request_data request)) as [uid|]; [|reflexivity].
  destruct (get_user_row (db w) uid) as [u|] eqn:Hu; [|reflexivity].
  pose proof (get_user_row_id _ _ _ Hu) as Hid.
  destruct (memberships (db w) !! (pk, uid)) as [role|]; [|reflexivity].
  case_bool_decide; cbn [negb]; [|reflexivity].
  unfold role_db. rewrite Hid. reflexivity.
Qed.

Lemma transfer_ownership_unfold (request : Request) (pk : Z) (w : World) :
  transfer_ownership request pk w =
    match request_user request with
    | AnonymousUser =>
        (inl (error_response 401 (py "Authentication credentials were not provided.")),
         w, [])
    | Authenticated actor =>
        match get_lobby_row (db w) pk with
        | None => (inl (error_response 404 (py "Not found.")), w, [])
        | Some lobby =>
            match validated_user_id (db w) (request_data request) with
            | Some uid =>
                match get_user_row (db w) uid with
                | None => (inl (error_response 404 (py "User not found")), w, [])
                | Some u =>
                    match memberships (db w) !! (pk, uid),
                          memberships (db w) !! (pk, lobby_owner lobby) with
                    | Some _, Some _ =>
                        (inl (message_response
                                (py "Ownership transferred to " ++ username u)),
                         set_db (transferred_db (db w) lobby actor u (now w)) w, [])
                    | _, _ => (inl (error_response 400 (py "User not in lobby")), w, [])
                    end
                end
            | None => (inl serializer_errors, w, [])
            end
        end
    end.
Proof.
  unfold transfer_ownership. rewrite detail_action_unfold by done.
  destruct (request_user request) as [|actor]; [reflexivity|].
  destruct (get_lobby_row (db w) pk) as [lobby|] eqn:Hl; [|reflexivity].
  pose proof (get_lobby_row_pk _ _ _ Hl) as Hpk.
  unfold mbind, M_bind, ask, mret, M_ret. cbn [fst snd].
  destruct (validated_user_id (db w) (request_data request)) as [uid|]; [|reflexivity].
  destruct (get_user_row (db w) uid) as [u|] eqn:Hu; [|reflexivity].
  pose proof (get_user_row_id _ _ _ Hu) as Hid.
  destruct (memberships (db w) !! (pk, uid)) as [role|]; [|reflexivity].
  destruct (memberships (db w) !! (pk, lobby_owner lobby)) as [role'|]; [|reflexivity].
  unfold transferred_db. rewrite Hid, Hpk. reflexivity.
Qed.

Lemma start_unfold (request : Request) (pk : Z) (w : World) :
  start request pk w =
    match request_user request with
    | AnonymousUser =>
        (inl (error_response 401 (py "Authentication credentials were not provided.")),
         w, [])
    | Authenticated actor =>
        match get_lobby_row (db w) pk with
        | None => (inl (error_response 404 (py "Not found.")), w, [])
        | Some lobby =>
            (inl (message_response (py "Game started")),
             set_db (status_db (db w) lobby actor in_game "Game started" "in_game" (now w))
               w, [])
        end
    end.
Proof.
  unfold start. rewrite detail_action_unfold by done.
  destruct (request_user request) as [|actor]; [reflexivity|].
  destruct (get_lobby_row (db w) pk) as [lobby|] eqn:Hl; [|reflexivity].
  pose proof (get_lobby_row_pk _ _ _ Hl) as Hpk.
  unfold status_db. rewrite Hpk. reflexivity.
Qed.

Lemma close_unfold (request : Request) (pk : Z) (w : World) :
  close request pk w =
    match request_user request with
    | AnonymousUser =>
        (inl (error_response 401 (py "Authentication credentials were not provided.")),
         w, [])
    | Authenticated actor =>
        match get_lobby_row (db w) pk with
        | None => (inl (error_response 404 (py "Not found.")), w, [])
        | Some lobby =>
            (inl (message_response (py "Lobby closed")),
             set_db (status_db (db w) lobby actor closed "Lobby closed" "closed" (now w))
               w, [])
        end
    end.
Proof.
  unfold close. rewrite detail_action_unfold by done.
  destruct (request_user request) as [|actor]; [reflexivity|].
  destruct (get_lobby_row (db w) pk) as [lobby|] eqn:Hl; [|reflexivity].
  pose proof (get_lobby_row_pk _ _ _ Hl) as Hpk.
  unfold status_db. rewrite Hpk. reflexivity.
Qed.

Lemma join_unfold (request : Request) (pk : Z) (w : World) :
  join request pk w =
    match request_user request with
    | AnonymousUser =>
        (inl (error_response 401 (py "Authentication credentials were not provided.")),
         w, [])
    | Authenticated u =>
        match get_lobby_row (db w) pk with
        | None => (inl (error_response 404 (py "Not found.")), w, [])
        | Some l =>
            if (can_join (db w) l u).1 then
              (inl (message_response (py "Joined lobby successfully")),
               joined_world w pk u, [])
            else (inl (error_response 400 (can_join (db w) l u).2), w, [])
        end
    end.
Proof.
  unfold join. rewrite detail_action_unfold by done.
  destruct (request_user request) as [|u]; [reflexivity|].
  destruct (get_lobby_row (db w) pk) as [l|] eqn:Hl; [|reflexivity].
  pose proof (get_lobby_row_pk _ _ _ Hl) as Hpk.
  unfold mbind, M_bind, ask. cbn [fst snd].
  destruct (can_join (db w) l u) as [can reason] eqn:Hcan. cbn [fst snd].
  destruct can; cbn [negb]; [|reflexivity].
  assert ((can_join (db w) l u).1 = true) as Hc by (by rewrite Hcan).
  apply can_join_true in Hc as (_ & _ & _ & Hmem).
  apply membership_exists_spec in Hmem. rewrite Hpk in Hmem. rewrite Hmem.
  reflexivity.
Qed.

(** ** Counting the participants *)

Lemma count_insert_new (d : DB) (l : Lobby) (uid : Z) (r : Role) :
  memberships d !! (lobby_pk l, uid) = None →
  current_participants_count
    (set_memberships (<[(lobby_pk l, uid) := r]> (memberships d)) d) l =
  current_participants_count d l + 1.
Proof.
  intros Hnone. unfold current_participants_count. cbn [memberships set_memberships].
  rewrite map_filter_insert_True by done.
  rewrite map_size_insert_None; [lia|].
  apply map_lookup_filter_None. by left.
Qed.

Lemma count_insert_old (d : DB) (l : Lobby) (k : Z * Z) (r : Role) :
  is_Some (memberships d !! k) →
  current_participants_count (set_memberships (<[k := r]> (memberships d)) d) l =
  current_participants_count d l.
Proof.
  intros [r0 Hsome]. unfold current_participants_count. cbn [memberships set_memberships].
  destruct (decide (k.1 = lobby_pk l)) as [Heq|Hne].
  - rewrite map_filter_insert_True by done.
    rewrite map_size_insert_Some; [done|].
    exists r0. by apply map_lookup_filter_Some.
  - by rewrite map_filter_insert_not by (intros y; exact Hne).
Qed.

Lemma count_insert_other (d : DB) (l : Lobby) (k : Z * Z) (r : Role) :
  k.1 ≠ lobby_pk l →
  current_participants_count (set_memberships (<[k := r]> (memberships d)) d) l =
  current_participants_count d l.
Proof.
  intros Hne. unfold current_participants_count. cbn [memberships set_memberships].
  by rewrite map_filter_insert_not by (intros y; exact Hne).
Qed.

Lemma count_delete_le (d : DB) (l : Lobby) (k : Z * Z) :
  current_participants_count (set_memberships (delete k (memberships d)) d) l ≤
  current_participants_count d l.
Proof.
  unfold current_participants_count. cbn [memberships set_memberships].
  rewrite map_filter_delete, map_size_delete.
  destruct (filter _ (memberships d) !! k); cbn; lia.
Qed.

Lemma count_delete_member (d : DB) (l : Lobby) (uid : Z) :
  is_Some (memberships d !! (lobby_pk l, uid)) →
  current_participants_count
    (set_memberships (delete (lobby_pk l, uid) (memberships d)) d) l =
  current_participants_count d l - 1.
Proof.
  intros [r Hsome]. unfold current_participants_count. cbn [memberships set_memberships].
  rewrite map_filter_delete.
  assert (filter (λ kv : Z * Z * Role, kv.1.1 = lobby_pk l) (memberships d)
            !! (lobby_pk l, uid) = Some r) as Hf by (by apply map_lookup_filter_Some).
  rewrite map_size_delete_Some by eauto.
  assert (size (filter (λ kv : Z * Z * Role, kv.1.1 = lobby_pk l) (memberships d)) ≠ 0%nat).
  { intros H0. apply map_size_empty_inv in H0. rewrite H0 in Hf. by rewrite lookup_empty in Hf. }
  lia.
Qed.

Lemma count_same_memberships (d d' : DB) (l l' : Lobby) :
  memberships d' = memberships d → lobby_pk l' = lobby_pk l →
  current_participants_count d' l' = current_participants_count d l.
Proof. intros Hm Hpk. unfold current_participants_count. by rewrite Hm, Hpk. Qed.

Lemma get_lobby_row_save (d : DB) (l : Lobby) (pk : Z) :
  get_lobby_row (save_lobby d l) pk =
    if bool_decide (pk = lobby_pk l) then
      Some (mkLobby pk (lobby_name l) (lobby_owner l) (is_public l) (status l)
              (max_participants l))
    else get_lobby_row d pk.
Proof.
  unfold get_lobby_row, save_lobby. cbn [lobbies]. case_bool_decide as Hpk.
  - subst pk. by rewrite lookup_insert_eq.
  - by rewrite lookup_insert_ne.
Qed.

(** ** Invariants of the REST surface *)

Section rest_invariant.
Variable I : DB → Prop.
Hypothesis I_event : ∀ e d, I d → I (create_event e d).
Hypothesis I_bans : ∀ b d, I d → I (set_bans b d).
Hypothesis I_join : ∀ d l u,
  get_lobby_row d (lobby_pk l) = Some l → (can_join d l u).1 = true → I d →
  I (set_memberships (<[(lobby_pk l, user_id u) := member]> (memberships d)) d).
Hypothesis I_remove : ∀ d pk l uid,
  get_lobby_row d pk = Some l →
  memberships d !! (pk, uid) ≠ Some owner ∨ lobby_owner l ≠ uid → I d →
  I (set_memberships (delete (pk, uid) (memberships d)) d).
Hypothesis I_role : ∀ d pk uid role role',
  memberships d !! (pk, uid) = Some role → role ≠ owner → role' ≠ owner → I d →
  I (set_memberships (<[(pk, uid) := role']> (memberships d)) d).
Hypothesis I_transfer : ∀ d l uid,
  get_lobby_row d (lobby_pk l) = Some l →
  is_Some (memberships d !! (lobby_pk l, uid)) →
  is_Some (memberships d !! (lobby_pk l, lobby_owner l)) → I d →
  I (set_memberships
       (<[(lobby_pk l, uid) := owner]>
          (<[(lobby_pk l, lobby_owner l) := member]> (memberships d)))
       (save_lobby d (with_owner uid l))).
Hypothesis I_status : ∀ d l s,
  get_lobby_row d (lobby_pk l) = Some l → s ≠ open → I d →
  I (save_lobby d (with_status s l)).

Lemma rest_actions_keep (view : Request → Z → M Response) (request : Request) (pk : Z)
    (w : World) :
  view ∈ rest_actions → I (db w) → I (db (world_of (view request pk w))).
Proof.
  intros Hin Hinv. unfold rest_actions in Hin.
  apply elem_of_cons in Hin as [->|Hin].
  { rewrite join_unfold. unfold world_of.
    destruct (request_user request) as [|u]; [done|].
    destruct (get_lobby_row (db w) pk) as [l|] eqn:Hl; [|done].
    pose proof (get_lobby_row_pk _ _ _ Hl) as Hpk.
    destruct (can_join (db w) l u).1 eqn:Hcan; [|done].
    cbn [fst snd]. unfold joined_world. cbn [db set_db]. apply I_event.
    rewrite <- Hpk in *. by apply I_join. }
  apply elem_of_cons in Hin as [->|Hin].
  { rewrite leave_unfold. unfold world_of.
    destruct (request_user request) as [|u]; [done|].
    destruct (get_lobby_row (db w) pk) as [l|] eqn:Hl; [|done].
    destruct (memberships (db w) !! (pk, user_id u)) as [role|] eqn:Hm; [|done].
    case_bool_decide as Hrole; [done|].
    cbn [fst snd]. unfold left_world. cbn [db set_db]. apply I_event.
    apply (I_remove _ _ l); [done| |done]. left. rewrite Hm. congruence. }
  apply elem_of_cons in Hin as [->|Hin].
  { rewrite start_unfold. unfold world_of.
    destruct (request_user request) as [|u]; [done|].
    destruct (get_lobby_row (db w) pk) as [l|] eqn:Hl; [|done].
    pose proof (get_lobby_row_pk _ _ _ Hl) as Hpk.
    cbn [fst snd]. unfold status_db. cbn [db set_db]. apply I_event.
    rewrite <- Hpk in *. by apply I_status. }
  apply elem_of_cons in Hin as [->|Hin].
  { rewrite close_unfold. unfold world_of.
    destruct (request_user request) as [|u]; [done|].
    destruct (get_lobby_row (db w) pk) as [l|] eqn:Hl; [|done].
    pose proof (get_lobby_row_pk _ _ _ Hl) as Hpk.
    cbn [fst snd]. unfold status_db. cbn [db set_db]. apply I_event.
    rewrite <- Hpk in *. by apply I_status. }
  apply elem_of_cons in Hin as [->|Hin].
  { rewrite kick_unfold. unfold world_of.
    destruct (request_user request) as [|actor]; [done|].
    destruct (get_lobby_row (db w) pk) as [l|] eqn:Hl; [|done].
    destruct (validated_user_id (db w) (request_data request)) as [uid|]; [|done].
    destruct (validated_reason (request_data request)) as [reason|]; [|done].
    destruct (get_user_row (db w) uid) as [u|] eqn:Hu; [|done].
    pose proof (get_user_row_id _ _ _ Hu) as Hid.
    destruct (memberships (db w) !! (pk, uid)) as [role|] eqn:Hm; [|done].
    case_bool_decide as Hrole; [done|].
    cbn [fst snd]. unfold kicked_db. cbn [db set_db]. apply I_event. rewrite Hid.
    apply (I_remove _ _ l); [done| |done]. left. rewrite Hm. congruence. }
  apply elem_of_cons in Hin as [->|Hin].
  { rewrite ban_unfold. unfold world_of.
    destruct (request_user request) as [|actor]; [done|].
    destruct (get_lobby_row (db w) pk) as [l|] eqn:Hl; [|done].
    destruct (validated_user_id (db w) (request_data request)) as [uid|]; [|done].
    destruct (validated_reason (request_data request)) as [reason|]; [|done].
    destruct (get_user_row (db w) uid) as [u|] eqn:Hu; [|done].
    pose proof (get_user_row_id _ _ _ Hu) as Hid.
    case_bool_decide as Howner; [done|].
    destruct (bans (db w) !! (pk, uid)) as [b|]; cbn [fst snd db set_db].
    - apply (I_remove _ _ l); [done| |done]. by right.
    - unfold banned_db. apply I_event, I_bans. rewrite Hid.
      apply (I_remove _ _ l); [done| |done]. by right. }
  apply elem_of_cons in Hin as [->|Hin].
  { rewrite unban_unfold. unfold world_of.
    destruct (request_user request) as [|actor]; [done|].
    destruct (get_lobby_row (db w) pk) as [l|] eqn:Hl; [|done].
    destruct (validated_user_id (db w) (request_data request)) as [uid|]; [|done].
    destruct (get_user_row (db w) uid) as [u|] eqn:Hu; [|done].
    destruct (bans (db w) !! (pk, uid)) as [b|]; [|done].
    cbn [fst snd db set_db]. unfold unbanned_db. by apply I_event, I_bans. }
  apply elem_of_cons in Hin as [->|Hin].
  { rewrite add_moderator_unfold. unfold world_of.
    destruct (request_user request) as [|actor]; [done|].
    destruct (get_lobby_row (db w) pk) as [l|] eqn:Hl; [|done].
    destruct (validated_user_id (db w) (request_data request)) as [uid|]; [|done].
    destruct (get_user_row (db w) uid) as [u|] eqn:Hu; [|done].
    pose proof (get_user_row_id _ _ _ Hu) as Hid.
    destruct (memberships (db w) !! (pk, uid)) as [role|] eqn:Hm; [|done].
    case_bool_decide as Hrole; [done|].
    cbn [fst snd db set_db]. unfold role_db. apply I_event. rewrite Hid.
    by apply (I_role _ _ _ role). }
  apply elem_of_cons in Hin as [->|Hin].
  { rewrite remove_moderator_unfold. unfold world_of.
    destruct (request_user request) as [|actor]; [done|].
    destruct (get_lobby_row (db w) pk) as [l|] eqn:Hl; [|done].
    destruct (validated_user_id (db w) (request_data request)) as [uid|]; [|done].
    destruct (get_user_row (db w) uid) as [u|] eqn:Hu; [|done].
    pose proof (get_user_row_id _ _ _ Hu) as Hid.
    destruct (memberships (db w) !! (pk, uid)) as [role|] eqn:Hm; [|done].
    case_bool_decide as Hrole; [|done].
    cbn [fst snd db set_db]. unfold role_db. apply I_event. rewrite Hid.
    apply (I_role _ _ _ role); try done. by subst role. }
  apply elem_of_cons in Hin as [->|Hin].
  { rewrite transfer_ownership_unfold. unfold world_of.
    destruct (request_user request) as [|actor]; [done|].
    destruct (get_lobby_row (db w) pk) as [l|] eqn:Hl; [|done].
    pose proof (get_lobby_row_pk _ _ _ Hl) as Hpk.
    destruct (validated_user_id (db w) (request_data request)) as [uid|]; [|done].
    destruct (get_user_row (db w) uid) as [u|] eqn:Hu; [|done].
    pose proof (get_user_row_id _ _ _ Hu) as Hid.
    destruct (memberships (db w) !! (pk, uid)) as [role|] eqn:Hm; [|done].
    destruct (memberships (db w) !! (pk, lobby_owner l)) as [role'|] eqn:Hm'; [|done].
    cbn [fst snd db set_db]. unfold transferred_db. apply I_event. rewrite Hid.
    rewrite <- Hpk in *. apply I_transfer; eauto. }
  by apply elem_of_nil in Hin.
Qed.

End rest_invariant.

Lemma within_capacity_event (e : LobbyEvent) (d : DB) :
  within_capacity d → within_capacity (create_event e d).
Proof. intros Hinv pk l Hl. exact (Hinv pk l Hl). Qed.

Lemma within_capacity_bans (b : gmap (Z * Z) LobbyBan) (d : DB) :
  within_capacity d → within_capacity (set_bans b d).
Proof. intros Hinv pk l Hl. exact (Hinv pk l Hl). Qed.

Lemma within_capacity_join (d : DB) (l : Lobby) (u : User) :
  get_lobby_row d (lobby_pk l) = Some l → (can_join d l u).1 = true →
  within_capacity d →
  within_capacity
    (set_memberships (<[(lobby_pk l, user_id u) := member]> (memberships d)) d).
Proof.
  intros Hl Hcan Hinv pk l' Hl'.
  change (get_lobby_row d pk = Some l') in Hl'.
  apply can_join_true in Hcan as (_ & Hfull & _ & Hmem).
  apply is_full_spec in Hfull. apply membership_exists_spec in Hmem.
  pose proof (get_lobby_row_pk _ _ _ Hl') as Hpk.
  destruct (decide (pk = lobby_pk l)) as [->|Hne].
  - assert (l' = l) as -> by congruence. rewrite count_insert_new by done. lia.
  - rewrite count_insert_other by (cbn; congruence). by apply (Hinv pk).
Qed.

Lemma within_capacity_remove (d : DB) (k : Z * Z) :
  within_capacity d →
  within_capacity (set_memberships (delete k (memberships d)) d).
Proof.
  intros Hinv pk l Hl. change (get_lobby_row d pk = Some l) in Hl.
  pose proof (count_delete_le d l k). specialize (Hinv pk l Hl). lia.
Qed.

Lemma within_capacity_role (d : DB) (k : Z * Z) (role : Role) :
  is_Some (memberships d !! k) → within_capacity d →
  within_capacity (set_memberships (<[k := role]> (memberships d)) d).
Proof.
  intros Hsome Hinv pk l Hl. change (get_lobby_row d pk = Some l) in Hl.
  rewrite count_insert_old by done. by apply (Hinv pk).
Qed.

Lemma within_capacity_save (d : DB) (l l' : Lobby) :
  get_lobby_row d (lobby_pk l) = Some l →
  lobby_pk l' = lobby_pk l → max_participants l' = max_participants l →
  within_capacity d → within_capacity (save_lobby d l').
Proof.
  intros Hl Hpk Hmax Hinv pk l2. rewrite get_lobby_row_save.
  case_bool_decide as Heq.
  - intros [= <-]. subst pk.
    rewrite (count_same_memberships d (save_lobby d l') l) by (by rewrite ?Hpk).
    rewrite Hmax. cbn [max_participants]. by apply (Hinv (lobby_pk l)).
  - intros Hl2. rewrite (count_same_memberships d (save_lobby d l') l2) by done.
    by apply (Hinv pk).
Qed.

Lemma within_capacity_memberships (d d' : DB) :
  lobbies d' = lobbies d → memberships d' = memberships d →
  within_capacity d → within_capacity d'.
Proof.
  intros Hlob Hmem Hinv pk l Hl. unfold get_lobby_row in Hl. rewrite Hlob in Hl.
  rewrite (count_same_memberships d d' l) by done. by apply (Hinv pk).
Qed.

Lemma rest_action_keeps_capacity (view : Request → Z → M Response) (request : Request)
    (pk : Z) (w : World) :
  view ∈ rest_actions → within_capacity (db w) →
  within_capacity (db (world_of (view request pk w))).
Proof.
  apply rest_actions_keep.
  - apply within_capacity_event.
  - apply within_capacity_bans.
  - apply within_capacity_join.
  - intros d pk' l uid _ _. apply within_capacity_remove.
  - intros d pk' uid role role' Hm _ _. apply within_capacity_role. eauto.
  - intros d l uid Hl Hm Hm' Hinv.
    set (d1 := save_lobby d (with_owner uid l)).
    assert (within_capacity d1) as H1 by (by apply (within_capacity_save d l)).
    set (d2 := set_memberships
                 (<[(lobby_pk l, lobby_owner l) := member]> (memberships d1)) d1).
    assert (within_capacity d2) as H2 by (by apply within_capacity_role).
    apply (within_capacity_memberships
             (set_memberships (<[(lobby_pk l, uid) := owner]> (memberships d2)) d2));
      [done..|].
    apply within_capacity_role; [|done].
    subst d2 d1. cbn [memberships set_memberships save_lobby].
    destruct (decide ((lobby_pk l, lobby_owner l) = (lobby_pk l, uid))) as [->|Hne].
    + rewrite lookup_insert_eq. eauto.
    + by rewrite lookup_insert_ne.
  - intros d l s Hl _. by apply (within_capacity_save d l).
Qed.

Lemma sample_db_lobby (pk : Z) (l : Lobby) :
  get_lobby_row sample_db pk = Some l → pk = 1 ∧ l = test_lobby.
Proof.
  unfold get_lobby_row, sample_db. cbn [lobbies].
  intros (row & Hrow & ->)%fmap_Some.
  by apply lookup_singleton_Some in Hrow as [<- <-].
Qed.

Lemma sample_db_within_capacity : within_capacity sample_db.
Proof.
  intros pk l (-> & ->)%sample_db_lobby. by vm_compute.
Qed.

Lemma alice_joins : rtc rest_step (sample_world 0) (world_of (join alice_request 1 (sample_world 0))).
Proof.
  apply rtc_once. exists join, alice_request, 1. split; [|reflexivity].
  unfold rest_actions. apply list_elem_of_here.
Qed.

(** X16. No sequence of calls of the ten lobby actions makes a lobby hold
    more memberships than its [max_participants], when none did before. *)
Theorem rest_actions_keep_capacity (w w' : World) :
  rtc rest_step w w' → within_capacity (db w) → within_capacity (db w').
Proof.
  induction 1 as [|w1 w2 w3 (view & request & pk & Hin & ->) _ IH]; [done|].
  intros Hinv. apply IH. by apply rest_action_keeps_capacity.
Qed.

Lemma rest_actions_keep_capacity_witness :
  rtc rest_step (sample_world 0) (world_of (join alice_request 1 (sample_world 0))) ∧
  within_capacity (db (sample_world 0)) ∧
  within_capacity (db (world_of (join alice_request 1 (sample_world 0)))).
Proof.
  split; [exact alice_joins|]. split; [exact sample_db_within_capacity|].
  exact (rest_actions_keep_capacity _ _ alice_joins sample_db_within_capacity).
Defined.

Lemma single_owner_memberships (d d' : DB) :
  lobbies d' = lobbies d → memberships d' = memberships d →
  single_owner d → single_owner d'.
Proof.
  intros Hlob Hmem Hinv pk l uid Hl. unfold get_lobby_row in Hl. rewrite Hlob in Hl.
  rewrite Hmem. by apply Hinv.
Qed.

Lemma single_owner_join (d : DB) (l : Lobby) (u : User) :
  get_lobby_row d (lobby_pk l) = Some l → (can_join d l u).1 = true →
  single_owner d →
  single_owner
    (set_memberships (<[(lobby_pk l, user_id u) := member]> (memberships d)) d).
Proof.
  intros Hl Hcan Hinv pk l' uid Hl'. change (get_lobby_row d pk = Some l') in Hl'.
  apply can_join_true in Hcan as (_ & _ & _ & Hmem).
  apply membership_exists_spec in Hmem. cbn [memberships set_memberships].
  destruct (decide ((lobby_pk l, user_id u) = (pk, uid))) as [[= <- <-]|Hne].
  - rewrite lookup_insert_eq. assert (l' = l) as -> by congruence.
    split; [done|]. intros Howner.
    apply (Hinv (lobby_pk l) l (user_id u) Hl) in Howner. congruence.
  - rewrite lookup_insert_ne by done. by apply Hinv.
Qed.

Lemma single_owner_remove (d : DB) (pk : Z) (l : Lobby) (uid : Z) :
  get_lobby_row d pk = Some l →
  memberships d !! (pk, uid) ≠ Some owner ∨ lobby_owner l ≠ uid →
  single_owner d →
  single_owner (set_memberships (delete (pk, uid) (memberships d)) d).
Proof.
  intros Hl Hno Hinv pk' l' uid' Hl'. change (get_lobby_row d pk' = Some l') in Hl'.
  cbn [memberships set_memberships].
  destruct (decide ((pk, uid) = (pk', uid'))) as [[= <- <-]|Hne].
  - rewrite lookup_delete_eq. assert (l' = l) as -> by congruence.
    split; [done|]. intros ->. destruct Hno as [Hno|Hno]; [|done].
    destruct Hno. by apply (Hinv pk l).
  - rewrite lookup_delete_ne by done. by apply Hinv.
Qed.

Lemma single_owner_role (d : DB) (pk uid : Z) (role role' : Role) :
  memberships d !! (pk, uid) = Some role → role ≠ owner → role' ≠ owner →
  single_owner d →
  single_owner (set_memberships (<[(pk, uid) := role']> (memberships d)) d).
Proof.
  intros Hm Hrole Hrole' Hinv pk' l' uid' Hl'.
  change (get_lobby_row d pk' = Some l') in Hl'. cbn [memberships set_memberships].
  destruct (decide ((pk, uid) = (pk', uid'))) as [[= <- <-]|Hne].
  - rewrite lookup_insert_eq. split; [congruence|]. intros ->.
    assert (memberships d !! (pk, lobby_owner l') = Some owner) by (by apply (Hinv pk l')).
    congruence.
  - rewrite lookup_insert_ne by done. by apply Hinv.
Qed.

Lemma single_owner_transfer (d : DB) (l : Lobby) (uid : Z) :
  get_lobby_row d (lobby_pk l) = Some l → single_owner d →
  single_owner
    (set_memberships
       (<[(lobby_pk l, uid) := owner]>
          (<[(lobby_pk l, lobby_owner l) := member]> (memberships d)))
       (save_lobby d (with_owner uid l))).
Proof.
  intros Hl Hinv pk l' uid'.
  change (get_lobby_row (save_lobby d (with_owner uid l)) pk = Some l' →
          <[(lobby_pk l, uid) := owner]>
            (<[(lobby_pk l, lobby_owner l) := member]> (memberships d)) !! (pk, uid')
            = Some owner ↔ uid' = lobby_owner l').
  rewrite get_lobby_row_save. cbn [lobby_pk with_owner].
  case_bool_decide as Hpk.
  - intros [= <-]. subst pk. cbn [lobby_owner].
    destruct (decide (uid = uid')) as [->|Hne]; [by rewrite lookup_insert_eq|].
    rewrite lookup_insert_ne by congruence.
    destruct (decide (lobby_owner l = uid')) as [<-|Hne'].
    + rewrite lookup_insert_eq. split; [done|]. intros Heq. by destruct Hne.
    + rewrite lookup_insert_ne by congruence.
      rewrite (Hinv (lobby_pk l) l uid' Hl). split; intros; by subst.
  - intros Hl'. rewrite !lookup_insert_ne by congruence. by apply Hinv.
Qed.

Lemma single_owner_status (d : DB) (l : Lobby) (s : Status) :
  get_lobby_row d (lobby_pk l) = Some l → single_owner d →
  single_owner (save_lobby d (with_status s l)).
Proof.
  intros Hl Hinv pk l' uid. rewrite get_lobby_row_save. cbn [lobby_pk with_status].
  change (memberships (save_lobby d (with_status s l))) with (memberships d).
  case_bool_decide as Hpk.
  - intros [= <-]. subst pk. cbn [lobby_owner]. by apply Hinv.
  - intros Hl'. by apply Hinv.
Qed.

Lemma rest_action_keeps_single_owner (view : Request → Z → M Response)
    (request : Request) (pk : Z) (w : World) :
  view ∈ rest_actions → single_owner (db w) →
  single_owner (db (world_of (view request pk w))).
Proof.
  apply rest_actions_keep.
  - intros e d. by apply single_owner_memberships.
  - intros b d. by apply single_owner_memberships.
  - apply single_owner_join.
  - apply single_owner_remove.
  - apply single_owner_role.
  - intros d l uid Hl _ _. by apply single_owner_transfer.
  - intros d l s Hl _. by apply single_owner_status.
Qed.

Lemma sample_db_single_owner : single_owner sample_db.
Proof.
  intros pk l uid (-> & ->)%sample_db_lobby. unfold sample_db.
  cbn [memberships lobby_owner test_lobby]. rewrite lookup_singleton_Some.
  split; [by intros [[= <-] _]|by intros ->].
Qed.

(** X17. Through every sequence of calls of the ten lobby actions each
    lobby keeps exactly one membership of role [owner], that of
    [lobby.owner], when it was so before. *)
Theorem rest_actions_keep_single_owner (w w' : World) :
  rtc rest_step w w' → single_owner (db w) → single_owner (db w').
Proof.
  induction 1 as [|w1 w2 w3 (view & request & pk & Hin & ->) _ IH]; [done|].
  intros Hinv. apply IH. by apply rest_action_keeps_single_owner.
Qed.

Lemma rest_actions_keep_single_owner_witness :
  rtc rest_step (sample_world 0) (world_of (join alice_request 1 (sample_world 0))) ∧
  single_owner (db (sample_world 0)) ∧
  single_owner (db (world_of (join alice_request 1 (sample_world 0)))).
Proof.
  split; [exact alice_joins|]. split; [exact sample_db_single_owner|].
  exact (rest_actions_keep_single_owner _ _ alice_joins sample_db_single_owner).
Defined.

Lemma not_open_memberships (pk : Z) (d d' : DB) :
  lobbies d' = lobbies d → not_open pk d → not_open pk d'.
Proof.
  intros Hlob (l & Hl & Hs). exists l. split; [|done].
  unfold get_lobby_row in *. by rewrite Hlob.
Qed.

Lemma not_open_save (pk : Z) (d : DB) (l l' : Lobby) :
  get_lobby_row d (lobby_pk l) = Some l → lobby_pk l' = lobby_pk l →
  (status l ≠ open → status l' ≠ open) →
  not_open pk d → not_open pk (save_lobby d l').
Proof.
  intros Hl Hpk Hs (l0 & Hl0 & Hs0). unfold not_open. rewrite get_lobby_row_save.
  case_bool_decide as Heq.
  - eexists. split; [reflexivity|]. cbn [status]. apply Hs.
    rewrite Hpk in Heq. subst pk. congruence.
  - eauto.
Qed.

Lemma rest_action_keeps_not_open (lid : Z) (view : Request → Z → M Response)
    (request : Request) (pk : Z) (w : World) :
  view ∈ rest_actions → not_open lid (db w) →
  not_open lid (db (world_of (view request pk w))).
Proof.
  apply rest_actions_keep.
  - intros e d. by apply not_open_memberships.
  - intros b d. by apply not_open_memberships.
  - intros d l u _ _. by apply not_open_memberships.
  - intros d pk' l uid _ _. by apply not_open_memberships.
  - intros d pk' uid role role' _ _ _. by apply not_open_memberships.
  - intros d l uid Hl _ _ Hinv.
    apply (not_open_memberships lid (save_lobby d (with_owner uid l))); [done|].
    by apply (not_open_save lid d l).
  - intros d l s Hl Hs. apply (not_open_save lid d l); try done.
Qed.

Lemma not_open_can_join (pk : Z) (d : DB) (l : Lobby) (u : User) :
  not_open pk d → get_lobby_row d pk = Some l →
  can_join d l u = (false, py "Lobby is not open").
Proof.
  intros (l' & Hl' & Hs) Hl. assert (l' = l) as -> by congruence.
  unfold can_join. by rewrite bool_decide_eq_false_2.
Qed.

Lemma rest_steps_keep_not_open (lid : Z) (w w' : World) :
  rtc rest_step w w' → not_open lid (db w) → not_open lid (db w').
Proof.
  induction 1 as [|w1 w2 w3 (view & request & pk & Hin & ->) _ IH]; [done|].
  intros Hinv. apply IH. by apply rest_action_keeps_not_open.
Qed.

Lemma alice_joins_late :
  rtc rest_step (world_of (start alice_request 1 (sample_world 0)))
    (world_of (join alice_request 1 (world_of (start alice_request 1 (sample_world 0))))).
Proof.
  apply rtc_once. exists join, alice_request, 1. split; [|reflexivity].
  unfold rest_actions. apply list_elem_of_here.
Qed.

(** X18. A lobby that [start] or [close] has answered with 200 is shut
    for good as far as the ten lobby actions go: whatever calls of them
    follow, the lobby is there, its status is not [open], and [can_join]
    refuses everybody with "Lobby is not open". *)
Theorem started_or_closed_lobby_stays_shut (view : Request → Z → M Response)
    (request : Request) (pk : Z) (w w' : World) (resp : Response) :
  view = start ∨ view = close →
  result_of (view request pk w) = inl resp → status_code resp = 200 →
  rtc rest_step (world_of (view request pk w)) w' →
  ∃ l, get_lobby_row (db w') pk = Some l ∧ status l ≠ open ∧
       ∀ u, can_join (db w') l u = (false, py "Lobby is not open").
Proof.
  intros Hview Hres Hok Hsteps.
  assert (not_open pk (db (world_of (view request pk w)))) as Hshut.
  { destruct Hview as [-> | ->].
    - rewrite start_unfold in *. unfold result_of, world_of in *.
      destruct (request_user request) as [|actor]; [by simplify_eq/=|].
      destruct (get_lobby_row (db w) pk) as [l|] eqn:Hl; [|by simplify_eq/=].
      pose proof (get_lobby_row_pk _ _ _ Hl) as Hpk.
      cbn [fst snd db set_db]. unfold status_db.
      apply (not_open_memberships pk (save_lobby (db w) (with_status in_game l)));
        [done|].
      unfold not_open. rewrite get_lobby_row_save. cbn [lobby_pk with_status].
      rewrite bool_decide_eq_true_2 by done. eexists. split; [reflexivity|done].
    - rewrite close_unfold in *. unfold result_of, world_of in *.
      destruct (request_user request) as [|actor]; [by simplify_eq/=|].
      destruct (get_lobby_row (db w) pk) as [l|] eqn:Hl; [|by simplify_eq/=].
      pose proof (get_lobby_row_pk _ _ _ Hl) as Hpk.
      cbn [fst snd db set_db]. unfold status_db.
      apply (not_open_memberships pk (save_lobby (db w) (with_status closed l)));
        [done|].
      unfold not_open. rewrite get_lobby_row_save. cbn [lobby_pk with_status].
      rewrite bool_decide_eq_true_2 by done. eexists. split; [reflexivity|done]. }
  pose proof (rest_steps_keep_not_open pk _ _ Hsteps Hshut) as Hshut'.
  destruct Hshut' as (l & Hl & Hs). exists l. split_and!; try done.
  intros u. apply (not_open_can_join pk); [|done]. by exists l.
Qed.

Lemma started_or_closed_lobby_stays_shut_witness :
  result_of (start alice_request 1 (sample_world 0)) =
    inl (message_response (py "Game started")) ∧
  ∃ l, get_lobby_row
         (db (world_of (join alice_request 1
                          (world_of (start alice_request 1 (sample_world 0)))))) 1
         = Some l ∧
       status l ≠ open.
Proof.
  assert (start = start ∨ start = close) as H0 by (left; reflexivity).
  assert (result_of (start alice_request 1 (sample_world 0)) =
            inl (message_response (py "Game started"))) as H1
    by (vm_compute; reflexivity).
  assert (status_code (message_response (py "Game started")) = 200) as H2
    by reflexivity.
  split; [exact H1|].
  destruct (started_or_closed_lobby_stays_shut start alice_request 1 (sample_world 0) _ _
              H0 H1 H2 alice_joins_late) as (l & Hl & Hs & _).
  exists l. split; assumption.
Defined.

(** ** Joining, leaving and the moderation round trips *)

Lemma can_join_member (d : DB) (l : Lobby) (u : User) :
  is_Some (memberships d !! (lobby_pk l, user_id u)) → (can_join d l u).1 = false.
Proof.
  intros [r Hsome]. destruct (can_join d l u).1 eqn:Hcan; [|done].
  apply can_join_true in Hcan as (_ & _ & _ & Hmem).
  apply membership_exists_spec in Hmem. congruence.
Qed.

(** X19. A [join] answered with 200 takes exactly one free place of an
    open lobby for a user who was neither banned nor a member: the
    membership is created with role [member], the count of participants
    grows by one and stays within [max_participants], and the same request
    sent again is refused with 400 and changes nothing. *)
Theorem join_fills_one_place (request : Request) (pk : Z) (w : World) (resp : Response) :
  result_of (join request pk w) = inl resp → status_code resp = 200 →
  let w' := world_of (join request pk w) in
  ∃ u l,
    request_user request = Authenticated u ∧ get_lobby_row (db w) pk = Some l ∧
    status l = open ∧ ban_exists (db w) pk (user_id u) = false ∧
    memberships (db w) !! (pk, user_id u) = None ∧
    memberships (db w') = <[(pk, user_id u) := member]> (memberships (db w)) ∧
    get_lobby_row (db w') pk = Some l ∧
    current_participants_count (db w') l = current_participants_count (db w) l + 1 ∧
    current_participants_count (db w') l ≤ max_participants l ∧
    ∃ resp', result_of (join request pk w') = inl resp' ∧ status_code resp' = 400 ∧
             world_of (join request pk w') = w'.
Proof.
  intros Hres Hok w'. subst w'. rewrite join_unfold in Hres |- *.
  unfold result_of, world_of in *.
  destruct (request_user request) as [|u] eqn:Hreq; [by simplify_eq/=|].
  destruct (get_lobby_row (db w) pk) as [l|] eqn:Hl; [|by simplify_eq/=].
  pose proof (get_lobby_row_pk _ _ _ Hl) as Hpk.
  destruct (can_join (db w) l u).1 eqn:Hcan; [|by simplify_eq/=].
  apply can_join_true in Hcan as (Hopen & Hfull & Hban & Hmem).
  apply is_full_spec in Hfull. apply membership_exists_spec in Hmem.
  rewrite Hpk in Hban, Hmem. cbn [fst snd].
  assert (current_participants_count (db (joined_world w pk u)) l =
          current_participants_count (db w) l + 1) as Hcount.
  { rewrite <- Hpk in Hmem |- *. exact (count_insert_new (db w) l (user_id u) member Hmem). }
  exists u, l. split_and!; try done; [lia|].
  rewrite join_unfold, Hreq.
  change (get_lobby_row (db (joined_world w pk u)) pk) with (get_lobby_row (db w) pk).
  rewrite Hl. rewrite can_join_member.
  - eexists. split_and!; reflexivity.
  - rewrite Hpk. unfold joined_world. cbn [db set_db memberships create_event
      set_memberships]. rewrite lookup_insert_eq. eauto.
Qed.

Lemma join_fills_one_place_witness :
  result_of (join alice_request 1 (sample_world 0)) =
    inl (message_response (py "Joined lobby successfully")) ∧
  ∃ u l, request_user alice_request = Authenticated u ∧
         get_lobby_row (db (sample_world 0)) 1 = Some l ∧
         status l = open.
Proof.
  assert (result_of (join alice_request 1 (sample_world 0)) =
            inl (message_response (py "Joined lobby successfully"))) as H1
    by (vm_compute; reflexivity).
  assert (status_code (message_response (py "Joined lobby successfully")) = 200) as H2
    by reflexivity.
  split; [exact H1|].
  destruct (join_fills_one_place alice_request 1 (sample_world 0) _ H1 H2)
    as (u & l & Hu & Hl & Hs & _).
  exists u, l. split; [exact Hu|]. split; [exact Hl|exact Hs].
Defined.

(** X20. A [leave] right after a successful [join] succeeds and gives the
    membership table back as it was; the lobbies, the bans, the users, the
    messages, the cache and the clock are untouched, and the audit log has
    gained the two [status_change] events of the lobby. *)
Theorem join_then_leave_round_trip (request : Request) (pk : Z) (w : World)
    (resp : Response) :
  result_of (join request pk w) = inl resp → status_code resp = 200 →
  let w1 := world_of (join request pk w) in
  let w2 := world_of (leave request pk w1) in
  result_of (leave request pk w1) = inl (message_response (py "Left lobby successfully")) ∧
  memberships (db w2) = memberships (db w) ∧ lobbies (db w2) = lobbies (db w) ∧
  bans (db w2) = bans (db w) ∧ users (db w2) = users (db w) ∧
  messages (db w2) = messages (db w) ∧ cache w2 = cache w ∧ now w2 = now w ∧
  ∃ e1 e2, events (db w2) = events (db w) ++ [e1; e2] ∧
           event_type e1 = ev_status_change ∧ event_type e2 = ev_status_change ∧
           event_lobby e1 = pk ∧ event_lobby e2 = pk.
Proof.
  intros Hres Hok w1 w2. subst w2 w1. rewrite join_unfold in Hres |- *.
  unfold result_of, world_of in *.
  destruct (request_user request) as [|u] eqn:Hreq; [by simplify_eq/=|].
  destruct (get_lobby_row (db w) pk) as [l|] eqn:Hl; [|by simplify_eq/=].
  pose proof (get_lobby_row_pk _ _ _ Hl) as Hpk.
  destruct (can_join (db w) l u).1 eqn:Hcan; [|by simplify_eq/=].
  apply can_join_true in Hcan as (_ & _ & _ & Hmem).
  apply membership_exists_spec in Hmem. rewrite Hpk in Hmem. cbn [fst snd].
  rewrite leave_unfold, Hreq.
  change (get_lobby_row (db (joined_world w pk u)) pk) with (get_lobby_row (db w) pk).
  rewrite Hl.
  change (memberships (db (joined_world w pk u)))
    with (<[(pk, user_id u) := member]> (memberships (db w))).
  rewrite lookup_insert_eq. rewrite bool_decide_eq_false_2 by done. cbn [fst snd].
  split; [done|]. unfold left_world.
  change (memberships (db (joined_world w pk u)))
    with (<[(pk, user_id u) := member]> (memberships (db w))).
  cbn [db set_db memberships lobbies bans users messages events cache now create_event
       set_memberships].
  rewrite delete_insert_id by done. split_and!; try done.
  unfold joined_world. cbn [db set_db events create_event set_memberships].
  eexists _, _. rewrite <- app_assoc. split; [reflexivity|]. done.
Qed.

Lemma join_then_leave_round_trip_witness :
  result_of (join alice_request 1 (sample_world 0)) =
    inl (message_response (py "Joined lobby successfully")) ∧
  result_of (leave alice_request 1 (world_of (join alice_request 1 (sample_world 0)))) =
    inl (message_response (py "Left lobby successfully")).
Proof.
  assert (result_of (join alice_request 1 (sample_world 0)) =
            inl (message_response (py "Joined lobby successfully"))) as H1
    by (vm_compute; reflexivity).
  assert (status_code (message_response (py "Joined lobby successfully")) = 200) as H2
    by reflexivity.
  split; [exact H1|].
  exact (proj1 (join_then_leave_round_trip alice_request 1 (sample_world 0) _ H1 H2)).
Defined.

Lemma validated_user_id_users (d d' : DB) (data : RequestData) :
  users d' = users d → validated_user_id d' data = validated_user_id d data.
Proof. intros Hu. unfold validated_user_id. by rewrite Hu. Qed.

Lemma get_user_row_users (d d' : DB) (uid : Z) :
  users d' = users d → get_user_row d' uid = get_user_row d uid.
Proof. intros Hu. unfold get_user_row. by rewrite Hu. Qed.

Lemma get_lobby_row_lobbies (d d' : DB) (pk : Z) :
  lobbies d' = lobbies d → get_lobby_row d' pk = get_lobby_row d pk.
Proof. intros Hu. unfold get_lobby_row. by rewrite Hu. Qed.

(** X21. A [kick] answered with 200 deletes the membership of a member
    who is not the owner, one participant less, and nothing else of the
    tables: no ban is created.  The user kicked from an open lobby (not
    banned, the lobby within its capacity) is admitted again by [can_join]
    at once. *)
Theorem kicked_user_may_rejoin (request : Request) (pk : Z) (w : World)
    (resp : Response) :
  result_of (kick request pk w) = inl resp → status_code resp = 200 →
  let w' := world_of (kick request pk w) in
  ∃ l u role,
    get_lobby_row (db w) pk = Some l ∧
    validated_user_id (db w) (request_data request) = Some (user_id u) ∧
    get_user_row (db w) (user_id u) = Some u ∧
    memberships (db w) !! (pk, user_id u) = Some role ∧ role ≠ owner ∧
    memberships (db w') = delete (pk, user_id u) (memberships (db w)) ∧
    bans (db w') = bans (db w) ∧ lobbies (db w') = lobbies (db w) ∧
    current_participants_count (db w') l = current_participants_count (db w) l - 1 ∧
    (status l = open → ban_exists (db w) pk (user_id u) = false →
     current_participants_count (db w) l ≤ max_participants l →
     can_join (db w') l u = (true, py "Can join")).
Proof.
  intros Hres Hok w'. subst w'. rewrite kick_unfold in Hres |- *.
  unfold result_of, world_of in *.
  destruct (request_user request) as [|actor]; [by simplify_eq/=|].
  destruct (get_lobby_row (db w) pk) as [l|] eqn:Hl; [|by simplify_eq/=].
  pose proof (get_lobby_row_pk _ _ _ Hl) as Hpk.
  destruct (validated_user_id (db w) (request_data request)) as [uid|];
    [|by simplify_eq/=].
  destruct (validated_reason (request_data request)) as [reason|]; [|by simplify_eq/=].
  destruct (get_user_row (db w) uid) as [u|] eqn:Hu; [|by simplify_eq/=].
  pose proof (get_user_row_id _ _ _ Hu) as Hid. subst uid.
  destruct (memberships (db w) !! (pk, user_id u)) as [role|] eqn:Hm; [|by simplify_eq/=].
  case_bool_decide as Hrole; [by simplify_eq/=|]. cbn [fst snd].
  assert (current_participants_count (db (set_db (kicked_db (db w) pk actor u reason
                                                    (now w)) w)) l =
          current_participants_count (db w) l - 1) as Hcount.
  { rewrite <- Hpk. apply (count_delete_member (db w) l (user_id u)).
    rewrite Hpk, Hm. eauto. }
  exists l, u, role. split_and!; try done.
  intros Hopen Hban Hcap. unfold can_join.
  rewrite bool_decide_eq_true_2 by done. cbn [negb].
  rewrite (proj2 (is_full_spec _ _)) by lia.
  change (ban_exists (db (set_db (kicked_db (db w) pk actor u reason (now w)) w))
            (lobby_pk l) (user_id u)) with (ban_exists (db w) (lobby_pk l) (user_id u)).
  rewrite Hpk, Hban.
  rewrite (proj2 (membership_exists_spec _ _ _)); [done|].
  unfold kicked_db. cbn [db set_db memberships create_event set_memberships].
  apply lookup_delete_eq.
Qed.

Lemma kicked_user_may_rejoin_witness :
  result_of (kick ban_request 1 (world alice_member)) =
    inl (message_response (py "User alice kicked successfully")) ∧
  ∃ l u role,
    get_lobby_row (db (world alice_member)) 1 = Some l ∧
    validated_user_id (db (world alice_member)) (request_data ban_request)
      = Some (user_id u) ∧
    get_user_row (db (world alice_member)) (user_id u) = Some u ∧
    memberships (db (world alice_member)) !! (1, user_id u) = Some role ∧ role ≠ owner.
Proof.
  assert (result_of (kick ban_request 1 (world alice_member)) =
            inl (message_response (py "User alice kicked successfully"))) as H1
    by (vm_compute; reflexivity).
  assert (status_code (message_response (py "User alice kicked successfully")) = 200)
    as H2 by reflexivity.
  split; [exact H1|].
  destruct (kicked_user_may_rejoin ban_request 1 (world alice_member) _ H1 H2)
    as (l & u & role & Hl & Hv & Hu & Hm & Hr & _).
  exists l, u, role. repeat split; assumption.
Defined.

(** X22. An [unban] right after a successful [ban] succeeds and gives
    the ban table back as it was, but not the membership that the ban
    deleted: the user ends up neither banned nor a member. *)
Theorem ban_then_unban (request : Request) (pk : Z) (w : World) (resp : Response) :
  result_of (ban request pk w) = inl resp → status_code resp = 200 →
  let w1 := world_of (ban request pk w) in
  let w2 := world_of (unban request pk w1) in
  ∃ uid resp',
    validated_user_id (db w) (request_data request) = Some uid ∧
    result_of (unban request pk w1) = inl resp' ∧ status_code resp' = 200 ∧
    bans (db w2) = bans (db w) ∧
    memberships (db w2) = delete (pk, uid) (memberships (db w)) ∧
    ban_exists (db w2) pk uid = false ∧ membership_exists (db w2) pk uid = false.
Proof.
  intros Hres Hok w1 w2. subst w2 w1. rewrite ban_unfold in Hres |- *.
  unfold result_of, world_of in *.
  destruct (request_user request) as [|actor] eqn:Hreq; [by simplify_eq/=|].
  destruct (get_lobby_row (db w) pk) as [l|] eqn:Hl; [|by simplify_eq/=].
  destruct (validated_user_id (db w) (request_data request)) as [uid|] eqn:Hv;
    [|by simplify_eq/=].
  destruct (validated_reason (request_data request)) as [reason|]; [|by simplify_eq/=].
  destruct (get_user_row (db w) uid) as [u|] eqn:Hu; [|by simplify_eq/=].
  pose proof (get_user_row_id _ _ _ Hu) as Hid. subst uid.
  case_bool_decide as Howner; [by simplify_eq/=|].
  destruct (bans (db w) !! (pk, user_id u)) as [b|] eqn:Hb; [by simplify_eq/=|].
  cbn [fst snd]. set (w1 := set_db (banned_db (db w) pk actor u reason (now w)) w).
  assert (users (db w1) = users (db w)) as Husers by reflexivity.
  assert (lobbies (db w1) = lobbies (db w)) as Hlobbies by reflexivity.
  assert (bans (db w1) =
          <[(pk, user_id u) := mkLobbyBan reason (user_id actor) (now w)]> (bans (db w)))
    as Hbans by reflexivity.
  assert (memberships (db w1) = delete (pk, user_id u) (memberships (db w)))
    as Hmems by reflexivity.
  rewrite unban_unfold, Hreq.
  rewrite (get_lobby_row_lobbies _ _ _ Hlobbies), Hl.
  rewrite (validated_user_id_users _ _ _ Husers), Hv.
  rewrite (get_user_row_users _ _ _ Husers), Hu.
  rewrite Hbans, lookup_insert_eq. cbn [fst snd].
  exists (user_id u). eexists. split_and!; try reflexivity.
  - unfold unbanned_db. cbn [db set_db bans create_event set_bans].
    rewrite Hbans. by apply delete_insert_id.
  - unfold ban_exists, unbanned_db. cbn [db set_db bans create_event set_bans].
    rewrite lookup_delete_eq. apply bool_decide_eq_false_2. by intros [? ?].
  - apply membership_exists_spec.
    change (memberships (db w1) !! (pk, user_id u) = None).
    rewrite Hmems. apply lookup_delete_eq.
Qed.

Lemma ban_then_unban_witness :
  result_of (ban ban_request 1 (sample_world 0)) =
    inl (message_response (py "User alice banned successfully")) ∧
  ∃ uid resp',
    validated_user_id (db (sample_world 0)) (request_data ban_request) = Some uid ∧
    result_of (unban ban_request 1 (world_of (ban ban_request 1 (sample_world 0))))
      = inl resp' ∧
    status_code resp' = 200.
Proof.
  assert (result_of (ban ban_request 1 (sample_world 0)) =
            inl (message_response (py "User alice banned successfully"))) as H1
    by (vm_compute; reflexivity).
  assert (status_code (message_response (py "User alice banned successfully")) = 200)
    as H2 by reflexivity.
  split; [exact H1|].
  destruct (ban_then_unban ban_request 1 (sample_world 0) _ H1 H2)
    as (uid & resp' & Hv & Hr & Hs & _).
  exists uid, resp'. repeat split; assumption.
Defined.

(** X23. A promotion answered with 200 was that of a member who is not
    the owner and makes the role [moderator]; the demotion right after it
    succeeds and leaves the user a plain member (the membership table is as
    before the promotion when the user was a plain member then); a second
    demotion is refused with "User is not a moderator" and changes
    nothing. *)
Theorem moderator_round_trip (request : Request) (pk : Z) (w : World) (resp : Response) :
  result_of (add_moderator request pk w) = inl resp → status_code resp = 200 →
  let w1 := world_of (add_moderator request pk w) in
  let w2 := world_of (remove_moderator request pk w1) in
  ∃ uid role,
    validated_user_id (db w) (request_data request) = Some uid ∧
    memberships (db w) !! (pk, uid) = Some role ∧ role ≠ owner ∧
    memberships (db w1) = <[(pk, uid) := moderator]> (memberships (db w)) ∧
    (∃ resp', result_of (remove_moderator request pk w1) = inl resp' ∧
              status_code resp' = 200) ∧
    memberships (db w2) = <[(pk, uid) := member]> (memberships (db w)) ∧
    (role = member → memberships (db w2) = memberships (db w)) ∧
    result_of (remove_moderator request pk w2) =
      inl (error_response 400 (py "User is not a moderator")) ∧
    world_of (remove_moderator request pk w2) = w2.
Proof.
  intros Hres Hok w1 w2. subst w2 w1. rewrite add_moderator_unfold in Hres |- *.
  unfold result_of, world_of in *.
  destruct (request_user request) as [|actor] eqn:Hreq; [by simplify_eq/=|].
  destruct (get_lobby_row (db w) pk) as [l|] eqn:Hl; [|by simplify_eq/=].
  destruct (validated_user_id (db w) (request_data request)) as [uid|] eqn:Hv;
    [|by simplify_eq/=].
  destruct (get_user_row (db w) uid) as [u|] eqn:Hu; [|by simplify_eq/=].
  pose proof (get_user_row_id _ _ _ Hu) as Hid. subst uid.
  destruct (memberships (db w) !! (pk, user_id u)) as [role|] eqn:Hm; [|by simplify_eq/=].
  case_bool_decide as Hrole; [by simplify_eq/=|]. cbn [fst snd].
  set (w1 := set_db (role_db (db w) pk actor u moderator ev_mod_add
                       (username u ++ py " promoted to moderator") (now w)) w).
  assert (users (db w1) = users (db w)) as Husers by reflexivity.
  assert (lobbies (db w1) = lobbies (db w)) as Hlobbies by reflexivity.
  assert (memberships (db w1) = <[(pk, user_id u) := moderator]> (memberships (db w)))
    as Hmems by reflexivity.
  rewrite remove_moderator_unfold, Hreq.
  rewrite (get_lobby_row_lobbies _ _ _ Hlobbies), Hl.
  rewrite (validated_user_id_users _ _ _ Husers), Hv.
  rewrite (get_user_row_users _ _ _ Husers), Hu.
  rewrite Hmems, lookup_insert_eq. rewrite bool_decide_eq_true_2 by done. cbn [fst snd].
  set (w2 := set_db (role_db (db w1) pk actor u member ev_mod_remove
                       (username u ++ py " demoted from moderator") (now w1)) w1).
  assert (users (db w2) = users (db w)) as Husers2 by reflexivity.
  assert (lobbies (db w2) = lobbies (db w)) as Hlobbies2 by reflexivity.
  assert (memberships (db w2) = <[(pk, user_id u) := member]> (memberships (db w)))
    as Hmems2.
  { change (memberships (db w2)) with (<[(pk, user_id u) := member]> (memberships (db w1))).
    rewrite Hmems. apply insert_insert_eq. }
  exists (user_id u), role. split_and!; try done.
  - eexists. split; reflexivity.
  - intros ->. rewrite Hmems2. by apply insert_id.
  - rewrite remove_moderator_unfold, Hreq.
    rewrite (get_lobby_row_lobbies _ _ _ Hlobbies2), Hl.
    rewrite (validated_user_id_users _ _ _ Husers2), Hv.
    rewrite (get_user_row_users _ _ _ Husers2), Hu.
    rewrite Hmems2, lookup_insert_eq. by rewrite bool_decide_eq_false_2.
  - rewrite remove_moderator_unfold, Hreq.
    rewrite (get_lobby_row_lobbies _ _ _ Hlobbies2), Hl.
    rewrite (validated_user_id_users _ _ _ Husers2), Hv.
    rewrite (get_user_row_users _ _ _ Husers2), Hu.
    rewrite Hmems2, lookup_insert_eq. by rewrite bool_decide_eq_false_2.
Qed.

Lemma moderator_round_trip_witness :
  result_of (add_moderator ban_request 1 (world alice_member)) =
    inl (message_response (py "User alice promoted to moderator")) ∧
  ∃ uid role,
    validated_user_id (db (world alice_member)) (request_data ban_request) = Some uid ∧
    memberships (db (world alice_member)) !! (1, uid) = Some role ∧ role ≠ owner.
Proof.
  assert (result_of (add_moderator ban_request 1 (world alice_member)) =
            inl (message_response (py "User alice promoted to moderator"))) as H1
    by (vm_compute; reflexivity).
  assert (status_code (message_response (py "User alice promoted to moderator")) = 200)
    as H2 by reflexivity.
  split; [exact H1|].
  destruct (moderator_round_trip ban_request 1 (world alice_member) _ H1 H2)
    as (uid & role & Hv & Hm & Hr & _).
  exists uid, role. repeat split; assumption.
Defined.

(** X24. A [transfer_ownership] answered with 200 had a member as its
    target and found the membership of the former owner; it makes the
    target the owner in the lobby row and in the membership table and the
    former owner a plain member, and leaves every other membership and the
    count of participants as they were. *)
Theorem transfer_ownership_swaps_roles (request : Request) (pk : Z) (w : World)
    (resp : Response) :
  result_of (transfer_ownership request pk w) = inl resp → status_code resp = 200 →
  let w' := world_of (transfer_ownership request pk w) in
  ∃ l uid,
    get_lobby_row (db w) pk = Some l ∧
    validated_user_id (db w) (request_data request) = Some uid ∧
    is_Some (memberships (db w) !! (pk, uid)) ∧
    is_Some (memberships (db w) !! (pk, lobby_owner l)) ∧
    get_lobby_row (db w') pk = Some (with_owner uid l) ∧
    memberships (db w') !! (pk, uid) = Some owner ∧
    (uid ≠ lobby_owner l → memberships (db w') !! (pk, lobby_owner l) = Some member) ∧
    (∀ k, k ≠ (pk, uid) → k ≠ (pk, lobby_owner l) →
          memberships (db w') !! k = memberships (db w) !! k) ∧
    current_participants_count (db w') l = current_participants_count (db w) l.
Proof.
  intros Hres Hok w'. subst w'. rewrite transfer_ownership_unfold in Hres |- *.
  unfold result_of, world_of in *.
  destruct (request_user request) as [|actor] eqn:Hreq; [by simplify_eq/=|].
  destruct (get_lobby_row (db w) pk) as [l|] eqn:Hl; [|by simplify_eq/=].
  pose proof (get_lobby_row_pk _ _ _ Hl) as Hpk.
  destruct (validated_user_id (db w) (request_data request)) as [uid|] eqn:Hv;
    [|by simplify_eq/=].
  destruct (get_user_row (db w) uid) as [u|] eqn:Hu; [|by simplify_eq/=].
  pose proof (get_user_row_id _ _ _ Hu) as Hid. subst uid.
  destruct (memberships (db w) !! (pk, user_id u)) as [role|] eqn:Hm; [|by simplify_eq/=].
  destruct (memberships (db w) !! (pk, lobby_owner l)) as [role'|] eqn:Hm';
    [|by simplify_eq/=].
  cbn [fst snd].
  set (w' := set_db (transferred_db (db w) l actor u (now w)) w).
  assert (memberships (db w') =
          <[(pk, user_id u) := owner]>
            (<[(pk, lobby_owner l) := member]> (memberships (db w)))) as Hmems
    by (by rewrite <- Hpk).
  exists l, (user_id u). split_and!; eauto.
  - change (get_lobby_row (db w') pk)
      with (get_lobby_row (save_lobby (db w) (with_owner (user_id u) l)) pk).
    rewrite get_lobby_row_save. cbn [lobby_pk with_owner].
    rewrite bool_decide_eq_true_2 by done. unfold with_owner. by rewrite Hpk.
  - rewrite Hmems. apply lookup_insert_eq.
  - intros Hne. rewrite Hmems. rewrite lookup_insert_ne by congruence.
    apply lookup_insert_eq.
  - intros k Hk1 Hk2. rewrite Hmems. by rewrite !lookup_insert_ne.
  - set (d1 := set_memberships
                 (<[(pk, lobby_owner l) := member]> (memberships (db w))) (db w)).
    rewrite (count_same_memberships
               (set_memberships (<[(pk, user_id u) := owner]> (memberships d1)) d1)
               (db w') l l) by done.
    rewrite count_insert_old.
    + subst d1. apply count_insert_old. rewrite Hm'. eauto.
    + subst d1. cbn [memberships set_memberships].
      destruct (decide ((pk, lobby_owner l) = (pk, user_id u))) as [->|Hne].
      * rewrite lookup_insert_eq. eauto.
      * rewrite lookup_insert_ne by done. rewrite Hm. eauto.
Qed.

Lemma transfer_ownership_swaps_roles_witness :
  result_of (transfer_ownership ban_request 1 (world alice_member)) =
    inl (message_response (py "Ownership transferred to alice")) ∧
  ∃ l uid,
    get_lobby_row (db (world alice_member)) 1 = Some l ∧
    validated_user_id (db (world alice_member)) (request_data ban_request) = Some uid ∧
    memberships
      (db (world_of (transfer_ownership ban_request 1 (world alice_member))))
      !! (1, uid) = Some owner.
Proof.
  assert (result_of (transfer_ownership ban_request 1 (world alice_member)) =
            inl (message_response (py "Ownership transferred to alice"))) as H1
    by (vm_compute; reflexivity).
  assert (status_code (message_response (py "Ownership transferred to alice")) = 200)
    as H2 by reflexivity.
  split; [exact H1|].
  destruct (transfer_ownership_swaps_roles ban_request 1 (world alice_member) _ H1 H2)
    as (l & uid & Hl & Hv & _ & _ & _ & Ho & _).
  exists l, uid. repeat split; assumption.
Defined.

(** ** Who may moderate *)

Local Ltac same_outcome :=
  cbn [request_user request_data];
  repeat match goal with
         | |- context [match ?x with _ => _ end] =>
             lazymatch x with
             | context [match _ with _ => _ end] => fail
             | _ => destruct x eqn:?
             end
         end;
  unfold result_of, world_of; cbn [fst snd];
  split_and!; try reflexivity.

(** X25. The moderation actions (kick, ban, unban, promote, demote,
    transfer, start, close) ask nothing of the requester but to be
    authenticated, [get_permissions] returning [IsAuthenticated] alone for
    them: whoever sends the request (the owner, a moderator, a plain member
    or a stranger to the lobby), the answer is the same and so are the
    lobbies, the memberships and the banned users afterwards. *)
Theorem moderation_ignores_the_requester (ty : EventType)
    (view : Request → Z → M Response) (a1 a2 : User) (data : RequestData) (pk : Z)
    (w : World) :
  (ty, view) ∈ moderation_actions →
  let r1 := view (mkRequest (Authenticated a1) data) pk w in
  let r2 := view (mkRequest (Authenticated a2) data) pk w in
  result_of r1 = result_of r2 ∧
  memberships (db (world_of r1)) = memberships (db (world_of r2)) ∧
  lobbies (db (world_of r1)) = lobbies (db (world_of r2)) ∧
  dom (bans (db (world_of r1))) = dom (bans (db (world_of r2))).
Proof.
  intros Hin r1 r2. subst r1 r2. unfold moderation_actions in Hin.
  apply elem_of_cons in Hin as [[= -> ->]|Hin].
  { rewrite !kick_unfold. same_outcome. }
  apply elem_of_cons in Hin as [[= -> ->]|Hin].
  { rewrite !ban_unfold. same_outcome.
    unfold banned_db. cbn [db set_db bans create_event set_bans set_memberships].
    by rewrite !dom_insert_L. }
  apply elem_of_cons in Hin as [[= -> ->]|Hin].
  { rewrite !unban_unfold. same_outcome. }
  apply elem_of_cons in Hin as [[= -> ->]|Hin].
  { rewrite !add_moderator_unfold. same_outcome. }
  apply elem_of_cons in Hin as [[= -> ->]|Hin].
  { rewrite !remove_moderator_unfold. same_outcome. }
  apply elem_of_cons in Hin as [[= -> ->]|Hin].
  { rewrite !transfer_ownership_unfold. same_outcome. }
  apply elem_of_cons in Hin as [[= -> ->]|Hin].
  { rewrite !start_unfold. same_outcome. }
  apply elem_of_cons in Hin as [[= -> ->]|Hin].
  { rewrite !close_unfold. same_outcome. }
  by apply elem_of_nil in Hin.
Qed.

Lemma moderation_ignores_the_requester_witness :
  (ev_kick, kick) ∈ moderation_actions ∧
  result_of (kick (mkRequest (Authenticated alice) (request_data ban_request)) 1
               (world alice_member)) =
  result_of (kick (mkRequest (Authenticated carol) (request_data ban_request)) 1
               (world alice_member)).
Proof.
  assert ((ev_kick, kick) ∈ moderation_actions) as H.
  { unfold moderation_actions. apply list_elem_of_here. }
  split; [exact H|].
  exact (proj1 (moderation_ignores_the_requester ev_kick kick alice carol
                  (request_data ban_request) 1 (world alice_member) H)).
Defined.

(** X26. A successful kick or ban through the REST surface sends nothing
    and leaves the cache and the clock alone, so the presence set and the
    open socket of the target stay; it reaches the socket with the next
    chat message that passes the checks of content and rate, which is
    answered with "You are not a member of this lobby" and the close 4003
    instead of being broadcast. *)
Theorem removal_cuts_the_socket_at_the_next_message (view : Request → Z → M Response)
    (request : Request) (w : World) (resp : Response) (channel : Z) (u : User)
    (l : Lobby) (data : list (string * json)) (raw : pystr) :
  let w1 := world_of (view request (lobby_pk l) w) in
  let self := joined_consumer channel u l in
  view ∈ removals →
  result_of (view request (lobby_pk l) w) = inl resp → status_code resp = 200 →
  validated_user_id (db w) (request_data request) = Some (user_id u) →
  dict_get data "message" = Some (JStr raw) →
  strip raw ≠ [] → (length (strip raw) ≤ 2000)%nat →
  result_of (check_rate_limit self w1) = inl true →
  effects_of (view request (lobby_pk l) w) = [] ∧ cache w1 = cache w ∧ now w1 = now w ∧
  effects_of (handle_chat_message self data w1) =
    [error_frame "You are not a member of this lobby"; Close 4003].
Proof.
  intros w1 self Hin Hres Hok Hv Hraw Hne Hlen Hrate.
  assert (effects_of (view request (lobby_pk l) w) = [] ∧ cache w1 = cache w ∧
          now w1 = now w ∧ memberships (db w1) !! (lobby_pk l, user_id u) = None)
    as (Heff & Hcache & Hnow & Hgone).
  { subst w1. unfold removals in Hin.
    apply elem_of_cons in Hin as [->|Hin].
    { rewrite kick_unfold in Hres |- *. unfold result_of, world_of, effects_of in *.
      destruct (request_user request) as [|actor]; [by simplify_eq/=|].
      destruct (get_lobby_row (db w) (lobby_pk l)) as [l'|]; [|by simplify_eq/=].
      rewrite Hv in Hres |- *.
      destruct (validated_reason (request_data request)) as [reason|];
        [|by simplify_eq/=].
      destruct (get_user_row (db w) (user_id u)) as [u'|] eqn:Hu; [|by simplify_eq/=].
      pose proof (get_user_row_id _ _ _ Hu) as Hid.
      destruct (memberships (db w) !! (lobby_pk l, user_id u)) as [role|];
        [|by simplify_eq/=].
      case_bool_decide; [by simplify_eq/=|]. cbn [fst snd]. split_and!; try done.
      unfold kicked_db. cbn [db set_db memberships create_event set_memberships].
      rewrite Hid. apply lookup_delete_eq. }
    apply elem_of_cons in Hin as [->|Hin]; [|by apply elem_of_nil in Hin].
    rewrite ban_unfold in Hres |- *. unfold result_of, world_of, effects_of in *.
    destruct (request_user request) as [|actor]; [by simplify_eq/=|].
    destruct (get_lobby_row (db w) (lobby_pk l)) as [l'|]; [|by simplify_eq/=].
    rewrite Hv in Hres |- *.
    destruct (validated_reason (request_data request)) as [reason|];
      [|by simplify_eq/=].
    destruct (get_user_row (db w) (user_id u)) as [u'|] eqn:Hu; [|by simplify_eq/=].
    pose proof (get_user_row_id _ _ _ Hu) as Hid.
    case_bool_decide; [by simplify_eq/=|].
    destruct (bans (db w) !! (lobby_pk l, user_id u)) as [b|]; [by simplify_eq/=|].
    cbn [fst snd]. split_and!; try done.
    unfold banned_db. cbn [db set_db memberships create_event set_bans set_memberships].
    rewrite Hid. apply lookup_delete_eq. }
  split_and!; try done.
  pose proof (handle_chat_message_unfold channel u l data raw w1 (or_introl Hraw)) as Hu.
  cbn zeta in Hu. fold self in Hu. rewrite Hu. clear Hu.
  rewrite bool_decide_eq_false_2 by done.
  rewrite bool_decide_eq_false_2 by lia.
  rewrite Hrate.
  destruct (check_rate_limit_cases channel u l w1) as [Hrej | (w2 & Hacc & Hdb & _)].
  { fold self in Hrej. rewrite Hrej in Hrate. by simplify_eq/=. }
  fold self in Hacc. rewrite Hacc. unfold world_of. cbn [fst snd]. rewrite Hdb.
  by rewrite (proj2 (membership_exists_spec _ _ _) Hgone).
Qed.

Lemma removal_cuts_the_socket_at_the_next_message_witness :
  kick ∈ removals ∧
  result_of (kick ban_request 1 (world alice_member)) =
    inl (message_response (py "User alice kicked successfully")) ∧
  effects_of (handle_chat_message alice_consumer hello_data
                (world_of (kick ban_request 1 (world alice_member)))) =
    [error_frame "You are not a member of this lobby"; Close 4003].
Proof.
  assert (kick ∈ removals) as H0 by (unfold removals; apply list_elem_of_here).
  assert (result_of (kick ban_request (lobby_pk test_lobby) (world alice_member)) =
            inl (message_response (py "User alice kicked successfully"))) as H1
    by (vm_compute; reflexivity).
  assert (status_code (message_response (py "User alice kicked successfully")) = 200)
    as H2 by reflexivity.
  assert (validated_user_id (db (world alice_member)) (request_data ban_request)
          = Some (user_id alice)) as H3 by (vm_compute; reflexivity).
  assert (dict_get hello_data "message" = Some (JStr (py "  Hello "))) as H4
    by reflexivity.
  assert (strip (py "  Hello ") ≠ []) as H5 by (vm_compute; discriminate).
  assert (length (strip (py "  Hello ")) ≤ 2000)%nat as H6 by (vm_compute; lia).
  assert (result_of (check_rate_limit (joined_consumer 3 alice test_lobby)
                       (world_of (kick ban_request (lobby_pk test_lobby)
                                    (world alice_member)))) = inl true) as H7
    by (vm_compute; reflexivity).
  split; [exact H0|]. split; [exact H1|].
  exact (proj2 (proj2 (proj2 (removal_cuts_the_socket_at_the_next_message kick
                                ban_request (world alice_member) _ 3 alice test_lobby
                                hello_data (py "  Hello ") H0 H1 H2 H3 H4 H5 H6 H7)))).
Defined.
